(** * Cleanup ledger and resource factories of tempest's scenario manager

    A shallow embedding of [tempest/scenario/manager.py]: the deferred
    cleanup ledger of [ScenarioTest], the delete wrapper, the resource
    factories, the connectivity checks and the bare-metal boot sequence.

    Python methods become computations in a state-and-exception monad.
    The state is the test instance ([self]) together with the log of every
    call that left the process (REST clients, ssh, subprocesses, the random
    name generator).  What such a call answers is decided by a [remote]
    oracle that sees the log so far, so a theorem quantified over [remote]
    holds whatever the cloud does. *)

From Stdlib Require Import List String Ascii ZArith Bool Lia PeanoNat.
Import ListNotations.
Local Open Scope string_scope.
Local Open Scope list_scope.

Set Warnings "-register-all".

(** ** Python values *)

(** The data that travels through the clients: JSON-like values. *)
Inductive pyval : Type :=
| PNone
| PBool (b : bool)
| PInt (z : Z)
| PStr (s : string)
| PList (l : list pyval)
| PDict (d : list (string * pyval)).

Definition dict (V : Type) : Type := list (string * V).

Fixpoint dict_get {V} (d : dict V) (k : string) : option V :=
  match d with
  | [] => None
  | (k', v) :: d' => if String.eqb k' k then Some v else dict_get d' k
  end.

Fixpoint dict_remove {V} (d : dict V) (k : string) : dict V :=
  match d with
  | [] => []
  | (k', v) :: d' =>
      if String.eqb k' k then dict_remove d' k else (k', v) :: dict_remove d' k
  end.

(** [d[k] = v]: an existing key keeps its place, a new one goes last. *)
Fixpoint dict_set {V} (d : dict V) (k : string) (v : V) : dict V :=
  match d with
  | [] => [(k, v)]
  | (k', v') :: d' =>
      if String.eqb k' k then (k, v) :: d' else (k', v') :: dict_set d' k v
  end.

(** [d.update(e)] and the merge done by [dict(a=.., **kwargs)]. *)
Definition dict_update {V} (d e : dict V) : dict V :=
  fold_left (fun acc kv => dict_set acc (fst kv) (snd kv)) e d.

(** [d.pop(k)]: the value and the dictionary without the key. *)
Definition dict_pop {V} (d : dict V) (k : string) : option (V * dict V) :=
  match dict_get d k with
  | Some v => Some (v, dict_remove d k)
  | None => None
  end.

(** Python's [==] on these values.  A [bool] is an [int]; dictionaries are
    equal when they bind the same keys to equal values. *)
Fixpoint pyval_eqb (a b : pyval) {struct a} : bool :=
  match a, b with
  | PNone, PNone => true
  | PBool x, PBool y => Bool.eqb x y
  | PBool x, PInt z | PInt z, PBool x => Z.eqb (if x then 1 else 0) z
  | PInt x, PInt y => Z.eqb x y
  | PStr x, PStr y => String.eqb x y
  | PList l, PList m =>
      (fix go (l m : list pyval) {struct l} : bool :=
         match l, m with
         | [], [] => true
         | x :: l', y :: m' => pyval_eqb x y && go l' m'
         | _, _ => false
         end) l m
  | PDict d, PDict e =>
      (fix sub (d : list (string * pyval)) {struct d} : bool :=
         match d with
         | [] => true
         | (k, v) :: d' =>
             match dict_get e k with
             | Some w => pyval_eqb v w
             | None => false
             end && sub d'
         end) d
      && forallb (fun kv => match dict_get d (fst kv) with
                            | Some _ => true
                            | None => false
                            end) e
  | _, _ => false
  end.

(** Truth value of an object, as [if x:] and [not x] test it. *)
Definition truthy (v : pyval) : bool :=
  match v with
  | PNone => false
  | PBool b => b
  | PInt z => negb (Z.eqb z 0)
  | PStr s => negb (String.eqb s EmptyString)
  | PList l => match l with [] => false | _ => true end
  | PDict d => match d with [] => false | _ => true end
  end.

(** [needle in hay] on strings. *)
Definition str_in (needle hay : string) : bool :=
  match String.index 0 needle hay with
  | Some _ => true
  | None => false
  end.

(** [str(x)] where [x] is a string, [None], a number or a list of those, and
    [repr] of a list element.  Strings are assumed free of quotes and
    escapes, as every state name and identifier of this module is. *)
Definition py_repr (v : pyval) : string :=
  match v with
  | PNone => "None"
  | PBool true => "True"
  | PBool false => "False"
  | PStr s => "'" ++ s ++ "'"
  | _ => "<object>"
  end.

Fixpoint join_reprs (l : list pyval) : string :=
  match l with
  | [] => EmptyString
  | [v] => py_repr v
  | v :: l' => py_repr v ++ ", " ++ join_reprs l'
  end.

Definition py_str (v : pyval) : string :=
  match v with
  | PStr s => s
  | PList l => "[" ++ join_reprs l ++ "]"
  | _ => py_repr v
  end.

(** ** Exceptions *)

Inductive exn : Type :=
| NotFound (msg : string)
| Conflict (_error_string : string)
| TimeoutException (msg : string)
| SSHTimeout (msg : string)
| AssertionError (msg : string)
| KeyError (key : string)
| IndexError
| AttributeError (name : string)
| TypeError (msg : string)
| OtherException (msg : string).

Definition is_NotFound (e : exn) : bool :=
  match e with NotFound _ => true | _ => false end.

Definition is_SSHTimeout (e : exn) : bool :=
  match e with SSHTimeout _ => true | _ => false end.

(** ** Callables, cleanup actions and wait descriptors *)

(** Callables that run outside the test instance: a method of a REST client
    ([servers_client.delete_server]) or a bound method of a resource proxy
    ([network.delete]), which carries the proxied object. *)
Inductive ext_callable : Type :=
| client_method (target : string)
| resource_method (target : string) (self_ : pyval).

Inductive callable : Type :=
| Ext (f : ext_callable)
| self_delete_wrapper
| self__wait_for_cleanups.

(** An argument is a value or, for [delete_wrapper] and the wait
    descriptors, a callable. *)
Inductive arg : Type :=
| AVal (v : pyval)
| ACall (f : ext_callable).

Coercion AVal : pyval >-> arg.
Coercion PStr : string >-> pyval.

(** One call leaving the process, as it appears in the log. *)
Record call : Type := Call {
  target : string;
  c_args : list arg;
  c_kwargs : dict arg
}.

(** A deferred call: [(function, args, kwargs)]. *)
Record cleanup : Type := Cleanup {
  function : callable;
  args : list arg;
  kwargs : dict arg
}.

Definition wait_dict : Type := dict arg.

(** ** The test instance and the monad *)

Record state : Type := mkState {
  _cleanups : list cleanup;       (* unittest's ledger, oldest first *)
  cleanup_waits : list wait_dict; (* self.cleanup_waits *)
  trace : list call;              (* calls made so far, oldest first *)
  keypair : option pyval;         (* self.keypair *)
  instance : option pyval;        (* self.instance *)
  node : option pyval             (* self.node *)
}.

Inductive outcome (A : Type) : Type :=
| Ret (a : A)
| Raise (e : exn).
Arguments Ret {A} a.
Arguments Raise {A} e.

(** A computation returns or raises; the state survives either way. *)
Definition M (A : Type) : Type := state -> outcome A * state.

Definition ret {A} (a : A) : M A := fun s => (Ret a, s).
Definition raise {A} (e : exn) : M A := fun s => (Raise e, s).

Definition bind {A B} (m : M A) (k : A -> M B) : M B :=
  fun s =>
    match m s with
    | (Ret a, s') => k a s'
    | (Raise e, s') => (Raise e, s')
    end.

Declare Scope py_scope.
Delimit Scope py_scope with py.
Notation "x <- m ;; k" := (bind m (fun x => k))
  (at level 100, m at next level, right associativity) : py_scope.
Notation "m ;; k" := (bind m (fun _ => k))
  (at level 100, right associativity) : py_scope.
Local Open Scope py_scope.

(** [try: m  except <caught>: handler]; other exceptions pass through. *)
Definition try_except {A} (m : M A) (caught : exn -> bool)
    (handler : exn -> M A) : M A :=
  fun s =>
    match m s with
    | (Ret a, s') => (Ret a, s')
    | (Raise e, s') => if caught e then handler e s' else (Raise e, s')
    end.

(** Runs [m] and hands back how it ended, as a test runner does. *)
Definition attempt {A} (m : M A) : M (outcome A) :=
  fun s => let (r, s') := m s in (Ret r, s').

Definition gets {A} (f : state -> A) : M A := fun s => (Ret (f s), s).
Definition modify (f : state -> state) : M unit := fun s => (Ret tt, f s).

Definition set__cleanups (l : list cleanup) (s : state) : state :=
  mkState l (cleanup_waits s) (trace s) (keypair s) (instance s) (node s).
Definition set_cleanup_waits (l : list wait_dict) (s : state) : state :=
  mkState (_cleanups s) l (trace s) (keypair s) (instance s) (node s).
Definition log_call (c : call) (s : state) : state :=
  mkState (_cleanups s) (cleanup_waits s) (trace s ++ [c])
          (keypair s) (instance s) (node s).
Definition set_keypair (v : pyval) (s : state) : state :=
  mkState (_cleanups s) (cleanup_waits s) (trace s) (Some v) (instance s) (node s).
Definition set_instance (v : pyval) (s : state) : state :=
  mkState (_cleanups s) (cleanup_waits s) (trace s) (keypair s) (Some v) (node s).
Definition set_node (v : pyval) (s : state) : state :=
  mkState (_cleanups s) (cleanup_waits s) (trace s) (keypair s) (instance s) (Some v).

(** A fresh test instance whose log already holds [t]. *)
Definition fresh (t : list call) : state := mkState [] [] t None None None.

(** ** Assertions and item access *)

Definition assertTrue (b : bool) (msg : string) : M unit :=
  if b then ret tt else raise (AssertionError msg).

Definition assertEqual (a b : pyval) : M unit :=
  if pyval_eqb a b then ret tt
  else raise (AssertionError (py_str a ++ " != " ++ py_str b)).

Definition assertIsNotNone (v : option pyval) (msg : string) : M pyval :=
  match v with
  | Some x => ret x
  | None => raise (AssertionError msg)
  end.

(** A step that touches neither the ledger nor the world. *)
Definition lift {A} (o : outcome A) : M A := fun s => (o, s).

(** [v[k]] on a dictionary. *)
Definition item (v : pyval) (k : string) : outcome pyval :=
  match v with
  | PDict d =>
      match dict_get d k with
      | Some x => Ret x
      | None => Raise (KeyError k)
      end
  | _ => Raise (TypeError "object is not subscriptable")
  end.

Definition getitem (v : pyval) (k : string) : M pyval := lift (item v k).

(** [obj.k] on a resource proxy, whose attributes are the response's. *)
Definition attr (v : pyval) (k : string) : outcome pyval :=
  match v with
  | PDict d =>
      match dict_get d k with
      | Some x => Ret x
      | None => Raise (AttributeError k)
      end
  | _ => Raise (AttributeError k)
  end.

Definition getattr (v : pyval) (k : string) : M pyval := lift (attr v k).

(** [v.get(k)]: [None] when the key is missing. *)
Definition get_or_none (v : pyval) (k : string) : outcome pyval :=
  match v with
  | PDict d =>
      match dict_get d k with
      | Some x => Ret x
      | None => Ret PNone
      end
  | _ => Raise (AttributeError "get")
  end.

Definition dict_get_default (v : pyval) (k : string) : M pyval :=
  lift (get_or_none v k).

(** [v[0]] on a list. *)
Definition item0 (v : pyval) : outcome pyval :=
  match v with
  | PList (x :: _) => Ret x
  | PList [] => Raise IndexError
  | _ => Raise (TypeError "object is not subscriptable")
  end.

Definition getitem0 (v : pyval) : M pyval := lift (item0 v).

Definition len (v : pyval) : outcome nat :=
  match v with
  | PList l => Ret (List.length l)
  | PDict d => Ret (List.length d)
  | PStr s => Ret (String.length s)
  | _ => Raise (TypeError "object has no len()")
  end.

Definition py_len (v : pyval) : M nat := lift (len v).

(** [for x in v] needs something to iterate over. *)
Definition iter (v : pyval) : outcome (list pyval) :=
  match v with
  | PList l => Ret l
  | _ => Raise (TypeError "object is not iterable")
  end.

Definition py_iter (v : pyval) : M (list pyval) := lift (iter v).

(** [Cls(client=client, **attrs)] of a resource proxy: an attribute
    dictionary over the response.  The client it keeps is not tracked. *)
Definition proxy (attrs : pyval) : outcome pyval :=
  match attrs with
  | PDict _ => Ret attrs
  | _ => Raise (TypeError "argument after ** must be a mapping")
  end.

Definition Deletable (attrs : pyval) : M pyval := lift (proxy attrs).

(** [l[i] = x]. *)
Fixpoint list_set {A} (l : list A) (i : nat) (x : A) : list A :=
  match l, i with
  | [], _ => []
  | _ :: l', O => x :: l'
  | y :: l', S i' => y :: list_set l' i' x
  end.

Definition default {A} (d : A) (o : option A) : A :=
  match o with Some a => a | None => d end.

(** [x or d] for an optional argument. *)
Definition or_default (o : option pyval) (d : pyval) : pyval :=
  match o with
  | Some v => if truthy v then v else d
  | None => d
  end.

(** ** Configuration *)

(** The options of [CONF] this module reads, and the two facts about the
    test class that come from outside: its name and the tenant behind each
    client ([client.rest_client.tenant_id]). *)
Record config : Type := mkConfig {
  compute_image_ref : string;
  compute_flavor_ref : string;
  compute_ping_timeout : Z;
  compute_feature_enabled_console_output : bool;
  scenario_ssh_user : string;
  (** [str] of each block of
      [IPNetwork(tenant_network_cidr).subnet(tenant_network_mask_bits)],
      in the order netaddr yields them. *)
  network_tenant_subnets : list string;
  baremetal_power_timeout : Z;
  baremetal_association_timeout : Z;
  baremetal_active_timeout : Z;
  class_name : string;
  rest_client_tenant_id : string -> pyval
}.

(** Bare-metal power and provision states. *)
Module BaremetalPowerStates.
Definition POWER_ON : pyval := PStr "power on".
Definition POWER_OFF : pyval := PStr "power off".
Definition REBOOT : pyval := PStr "rebooting".
Definition SUSPEND : pyval := PStr "suspended".
End BaremetalPowerStates.

Module BaremetalProvisionStates.
Definition NOSTATE : pyval := PNone.
Definition INIT : pyval := PStr "initializing".
Definition ACTIVE : pyval := PStr "active".
Definition BUILDING : pyval := PStr "building".
Definition DEPLOYWAIT : pyval := PStr "wait call-back".
Definition DEPLOYING : pyval := PStr "deploying".
Definition DEPLOYFAIL : pyval := PStr "deploy failed".
Definition DEPLOYDONE : pyval := PStr "deploy complete".
Definition DELETING : pyval := PStr "deleting".
Definition DELETED : pyval := PStr "deleted".
Definition ERROR : pyval := PStr "error".
End BaremetalProvisionStates.

(** Number of polls [call_until_true] makes when the predicate stays false:
    one at the start and one after each sleep while the elapsed time,
    counted in sleeps, has not exceeded the timeout. *)
Definition attempts (duration sleep_for : Z) : nat :=
  if (duration <? 0)%Z then O else S (Z.to_nat (duration / sleep_for)).

Definition is_Conflict (e : exn) : bool :=
  match e with Conflict _ => true | _ => false end.

(** [str(e)]. *)
Definition exn_str (e : exn) : string :=
  match e with
  | NotFound m | Conflict m | TimeoutException m | SSHTimeout m
  | AssertionError m | KeyError m | AttributeError m | TypeError m
  | OtherException m => m
  | IndexError => "list index out of range"
  end.

(** Keyword names [dict(name=.., .., **kwargs)] rejects in [kwargs]. *)
Definition clashes (fixed : list string) (kw : dict arg) : bool :=
  existsb (fun kv => existsb (String.eqb (fst kv)) fixed) kw.

(** The log entry of calling [f] on [a] and [kw]; a bound method of a
    resource proxy passes the proxied object first. *)
Definition ext_call (f : ext_callable) (a : list arg) (kw : dict arg) : call :=
  match f with
  | client_method t => Call t a kw
  | resource_method t o => Call t (AVal o :: a) kw
  end.

(** ** The dashboard's login form parser *)

(** [HorizonHTMLParser] of [test_dashboard_basic_ops.py].  The attributes
    of a start tag are pairs of a name and a value, the value being [None]
    for an attribute written without one. *)
Module HorizonHTMLParser.

Record parser : Type := mkParser {
  csrf_token : option string;
  region : option string
}.

Definition init : parser := mkParser None None.

Fixpoint _find_name (attrs : list (string * option string)) (name : string)
    : bool :=
  match attrs with
  | [] => false
  | attrpair :: rest =>
      if String.eqb (fst attrpair) "name"
         && match snd attrpair with
            | Some v => String.eqb v name
            | None => false
            end
      then true
      else _find_name rest name
  end.

Fixpoint _find_value (attrs : list (string * option string)) : option string :=
  match attrs with
  | [] => None
  | attrpair :: rest =>
      if String.eqb (fst attrpair) "value" then snd attrpair
      else _find_value rest
  end.

Definition handle_starttag (self : parser) (tag : string)
    (attrs : list (string * option string)) : parser :=
  if String.eqb tag "input" then
    let self :=
      if _find_name attrs "csrfmiddlewaretoken"
      then mkParser (_find_value attrs) (region self)
      else self in
    if _find_name attrs "region"
    then mkParser (csrf_token self) (_find_value attrs)
    else self
  else self.

(** The start tags of a document, handled in the order they occur. *)
Definition handle_starttags (self : parser)
    (tags : list (string * list (string * option string))) : parser :=
  fold_left (fun p t => handle_starttag p (fst t) (snd t)) tags self.

End HorizonHTMLParser.

(** ** Stack outputs *)

(** What [for x in v] goes through: the items of a list, the characters of
    a string, the keys of a dictionary (in the order the model holds
    them). *)
Definition elements (v : pyval) : outcome (list pyval) :=
  match v with
  | PList l => Ret l
  | PStr s => Ret (map (fun c => PStr (String c EmptyString))
                       (list_ascii_of_string s))
  | PDict d => Ret (map (fun kv => PStr (fst kv)) d)
  | _ => Raise (TypeError "object is not iterable")
  end.

(** The generator of [_stack_output]: the values of the outputs whose key
    matches, looked at one by one until the first match. *)
Fixpoint first_output (outputs : list pyval) (output_key : pyval)
    : outcome pyval :=
  match outputs with
  | [] => Ret PNone
  | o :: rest =>
      match item o "output_key" with
      | Raise e => Raise e
      | Ret k =>
          if pyval_eqb k output_key then item o "output_value"
          else first_output rest output_key
      end
  end.

Definition _stack_output (stack : pyval) (output_key : pyval) : outcome pyval :=
  match item stack "outputs" with
  | Raise e => Raise e
  | Ret outputs =>
      match elements outputs with
      | Raise e => Raise e
      | Ret l => first_output l output_key
      end
  end.

(** ** More of Python *)

(** [v[0]] on any value. *)
Definition index0 (v : pyval) : outcome pyval :=
  match v with
  | PList (x :: _) => Ret x
  | PList [] => Raise IndexError
  | PStr (String c _) => Ret (PStr (String c EmptyString))
  | PStr EmptyString => Raise IndexError
  | PDict _ => Raise (KeyError "0")
  | _ => Raise (TypeError "object is not subscriptable")
  end.

(** [x in container]. *)
Definition contains (container x : pyval) : outcome bool :=
  match container with
  | PList l => Ret (existsb (pyval_eqb x) l)
  | PDict d =>
      match x with
      | PStr k => Ret (match dict_get d k with Some _ => true | None => false end)
      | PList _ | PDict _ => Raise (TypeError "unhashable type")
      | _ => Ret false
      end
  | PStr s =>
      match x with
      | PStr n => Ret (str_in n s)
      | _ => Raise (TypeError "in <string> requires string as left operand")
      end
  | _ => Raise (TypeError "argument is not iterable")
  end.


(** [s.split(sep)[1]] for a non-empty [sep]: what lies between the first
    and the second occurrence of [sep], or after the first when there is
    no second. *)
Definition drop_string (n : nat) (s : string) : string :=
  String.substring n (String.length s - n) s.

Definition split_second (sep s : string) : option string :=
  match String.index 0 sep s with
  | None => None
  | Some i =>
      let rest := drop_string (i + String.length sep) s in
      match String.index 0 sep rest with
      | None => Some rest
      | Some j => Some (String.substring 0 j rest)
      end
  end.

Definition split_index1 (v : pyval) (sep : string) : outcome pyval :=
  match v with
  | PStr s =>
      match split_second sep s with
      | Some piece => Ret (PStr piece)
      | None => Raise IndexError
      end
  | _ => Raise (AttributeError "split")
  end.

(** Options of [CONF] read by the helpers of the second half of the
    module. *)
Record more_config : Type := mkMoreConfig {
  baremetal_driver_enabled : bool;
  compute_fixed_network_name : string;
  network_public_router_id : string;
  network_public_network_id : string;
  baremetal_unprovision_timeout : Z
}.

(** ** The scenario manager *)

Section Scenario.

(** What the world answers to a call, given the log before it.  Client
    methods answer with the body; the response metadata, which the source
    discards ([_, body = ...]), is not modelled. *)
Variable remote : list call -> call -> outcome pyval.
Variable CONF : config.

Definition invoke (c : call) : M pyval :=
  fun s => (remote (trace s) c, log_call c s).

Definition call_ext (f : ext_callable) (a : list arg) (kw : dict arg)
    : M pyval :=
  invoke (ext_call f a kw).

Definition rand_name (prefix : string) : M pyval :=
  invoke (Call "data_utils.rand_name" [AVal (PStr prefix)] []).

Definition log_net_debug : M unit :=
  _ <- invoke (Call "debug.log_net_debug" [] []) ;; ret tt.

(** *** Sync and async deletes *)

(** Modelled from the spec: [addCleanup] of the unittest base class, which
    is not part of this module.  It appends the deferred call to the
    ledger. *)
Definition addCleanup (f : callable) (a : list arg) (kw : dict arg) : M unit :=
  modify (fun s => set__cleanups (_cleanups s ++ [Cleanup f a kw]) s).

Definition delete_wrapper (delete_thing : arg) (a : list arg) (kw : dict arg)
    : M unit :=
  try_except
    (match delete_thing with
     | ACall f => _ <- call_ext f a kw ;; ret tt
     | AVal _ => raise (TypeError "object is not callable")
     end)
    is_NotFound
    (fun _ => ret tt).

(** The [ignore_error] parameter of the source is never read and is left
    out. *)
Definition addCleanup_with_wait (waiter_callable : ext_callable)
    (thing_id : pyval) (thing_id_param : string)
    (cleanup_callable : callable) (cleanup_args : option (list arg))
    (cleanup_kwargs : option (dict arg)) : M unit :=
  let cleanup_args := default [] cleanup_args in
  let cleanup_kwargs := default [] cleanup_kwargs in
  addCleanup cleanup_callable cleanup_args cleanup_kwargs ;;
  let wait_dict :=
    dict_set [("waiter_callable", ACall waiter_callable)]
             thing_id_param (AVal thing_id) in
  modify (fun s => set_cleanup_waits (cleanup_waits s ++ [wait_dict]) s).

(** The loop of [_wait_for_cleanups] from the [i]-th descriptor on.
    [wait.pop] changes the descriptor in place, so it is written back. *)
Fixpoint wait_loop (i : nat) (waits : list wait_dict) : M unit :=
  match waits with
  | [] => ret tt
  | wait :: rest =>
      match dict_pop wait "waiter_callable" with
      | None => raise (KeyError "waiter_callable")
      | Some (waiter_callable, wait') =>
          modify (fun s =>
            set_cleanup_waits (list_set (cleanup_waits s) i wait') s) ;;
          match waiter_callable with
          | ACall f => _ <- call_ext f [] wait' ;; ret tt
          | AVal _ => raise (TypeError "object is not callable")
          end ;;
          wait_loop (S i) rest
      end
  end.

Definition _wait_for_cleanups : M unit :=
  waits <- gets cleanup_waits ;;
  wait_loop 0 waits.

Definition setUp : M unit :=
  modify (set_cleanup_waits []) ;;
  addCleanup self__wait_for_cleanups [] [].

(** Calls a ledger entry: the function on its arguments. *)
Definition run_cleanup (c : cleanup) : M unit :=
  match function c with
  | Ext f => _ <- call_ext f (args c) (kwargs c) ;; ret tt
  | self_delete_wrapper =>
      match args c with
      | delete_thing :: a => delete_wrapper delete_thing a (kwargs c)
      | [] => raise (TypeError "delete_wrapper() takes at least 2 arguments")
      end
  | self__wait_for_cleanups =>
      match args c, kwargs c with
      | [], [] => _wait_for_cleanups
      | _, _ => raise (TypeError "_wait_for_cleanups() takes exactly 1 argument")
      end
  end.

(** Modelled from the spec: teardown of the ledger, done by the unittest
    base class.  Entries are popped from the end and run last registered
    first; an entry that raises is recorded and the rest still run.  The
    result lists the errors in the order they happened. *)
Fixpoint run_cleanups (todo : list cleanup) : M (list exn) :=
  match todo with
  | [] => ret []
  | c :: rest =>
      modify (fun s => set__cleanups (removelast (_cleanups s)) s) ;;
      r <- attempt (run_cleanup c) ;;
      errs <- run_cleanups rest ;;
      ret (match r with Raise e => e :: errs | Ret _ => errs end)
  end.

Definition doCleanups : M (list exn) :=
  l <- gets _cleanups ;;
  run_cleanups (rev l).

(** *** Test functions library *)

Definition create_server (name image flavor : option pyval)
    (wait_on_boot wait_on_delete : bool) (create_kwargs : option (dict arg))
    : M pyval :=
  name <- match name with
          | None => rand_name (class_name CONF)
          | Some n => ret n
          end ;;
  let image := default (PStr (compute_image_ref CONF)) image in
  let flavor := default (PStr (compute_flavor_ref CONF)) flavor in
  let create_kwargs := default [] create_kwargs in
  server <- invoke (Call "servers_client.create_server"
                         [AVal name; AVal image; AVal flavor] create_kwargs) ;;
  (if wait_on_delete then
     id <- getitem server "id" ;;
     addCleanup (Ext (client_method "servers_client.wait_for_server_termination"))
                [AVal id] []
   else ret tt) ;;
  id <- getitem server "id" ;;
  addCleanup_with_wait
    (client_method "servers_client.wait_for_server_termination")
    id "server_id" self_delete_wrapper
    (Some [ACall (client_method "servers_client.delete_server"); AVal id])
    None ;;
  (if wait_on_boot then
     _ <- invoke (Call "servers_client.wait_for_server_status" []
                       [("server_id", AVal id); ("status", AVal (PStr "ACTIVE"))]) ;;
     ret tt
   else ret tt) ;;
  server <- invoke (Call "servers_client.get_server" [AVal id] []) ;;
  sname <- getitem server "name" ;;
  assertEqual sname name ;;
  ret server.

Definition create_volume (size : pyval) (name snapshot_id imageRef
    volume_type : option pyval) (wait_on_delete : bool) : M pyval :=
  name <- match name with
          | None => rand_name (class_name CONF)
          | Some n => ret n
          end ;;
  volume <- invoke (Call "volumes_client.create_volume" []
                         [("size", AVal size); ("display_name", AVal name);
                          ("snapshot_id", AVal (default PNone snapshot_id));
                          ("imageRef", AVal (default PNone imageRef));
                          ("volume_type", AVal (default PNone volume_type))]) ;;
  (if wait_on_delete then
     id <- getitem volume "id" ;;
     addCleanup (Ext (client_method "volumes_client.wait_for_resource_deletion"))
                [AVal id] [] ;;
     id <- getitem volume "id" ;;
     addCleanup self_delete_wrapper
                [ACall (client_method "volumes_client.delete_volume"); AVal id] []
   else
     id <- getitem volume "id" ;;
     addCleanup_with_wait
       (client_method "volumes_client.wait_for_resource_deletion")
       id "id" self_delete_wrapper
       (Some [ACall (client_method "volumes_client.delete_volume"); AVal id])
       None) ;;
  dname <- getitem volume "display_name" ;;
  assertEqual name dname ;;
  id <- getitem volume "id" ;;
  _ <- invoke (Call "volumes_client.wait_for_volume_status"
                    [AVal id; AVal (PStr "available")] []) ;;
  id <- getitem volume "id" ;;
  invoke (Call "volumes_client.get_volume" [AVal id] []).

(** The nova-network variant, [ScenarioTest._create_loginable_secgroup_rule]. *)
Fixpoint find_default_secgroup (sgs : list pyval) (secgroup_id : pyval)
    : M pyval :=
  match sgs with
  | [] => ret secgroup_id
  | sg :: rest =>
      n <- getitem sg "name" ;;
      if pyval_eqb n (PStr "default") then
        id <- getitem sg "id" ;;
        find_default_secgroup rest id
      else find_default_secgroup rest secgroup_id
  end.

Definition nova_rulesets : list (dict arg) :=
  [ [("ip_proto", AVal (PStr "tcp")); ("from_port", AVal (PInt 22));
     ("to_port", AVal (PInt 22)); ("cidr", AVal (PStr "0.0.0.0/0"))];
    [("ip_proto", AVal (PStr "icmp")); ("from_port", AVal (PInt (-1)));
     ("to_port", AVal (PInt (-1))); ("cidr", AVal (PStr "0.0.0.0/0"))] ].

Fixpoint nova_rules_loop (secgroup_id : pyval) (rulesets : list (dict arg))
    (rules : list pyval) : M (list pyval) :=
  match rulesets with
  | [] => ret rules
  | ruleset :: rest =>
      sg_rule <- invoke (Call "security_groups_client.create_security_group_rule"
                              [AVal secgroup_id] ruleset) ;;
      id <- getitem sg_rule "id" ;;
      addCleanup self_delete_wrapper
        [ACall (client_method "security_groups_client.delete_security_group_rule");
         AVal id] [] ;;
      nova_rules_loop secgroup_id rest (rules ++ [sg_rule])
  end.

Definition ScenarioTest__create_loginable_secgroup_rule
    (secgroup_id : option pyval) : M (list pyval) :=
  secgroup_id <-
    match secgroup_id with
    | Some i => ret i
    | None =>
        sgs <- invoke (Call "security_groups_client.list_security_groups" [] []) ;;
        sgs <- py_iter sgs ;;
        find_default_secgroup sgs PNone
    end ;;
  nova_rules_loop secgroup_id nova_rulesets [].

(** *** Connectivity checks *)

(** Modelled from the spec: the polling primitive
    [tempest.test.call_until_true], which is not part of this module.  It
    invokes the predicate, sleeping [sleep_for] between attempts, until the
    predicate is true or the timeout is exceeded, and answers with a
    boolean; it never raises on timeout.  Time advances only by the sleeps. *)
Fixpoint poll (n : nat) (func : M bool) (sleep_for : Z) : M bool :=
  match n with
  | O => ret false
  | S n' =>
      b <- func ;;
      if b then ret true
      else
        _ <- invoke (Call "time.sleep" [AVal (PInt sleep_for)] []) ;;
        poll n' func sleep_for
  end.

Definition call_until_true (func : M bool) (duration sleep_for : Z) : M bool :=
  poll (attempts duration sleep_for) func sleep_for.

(** The inner function [ping] of [ping_ip_address]; the subprocess answers
    with its return code. *)
Definition ping (ip_address : pyval) (should_succeed : bool) : M bool :=
  let cmd := [AVal (PStr "ping"); AVal (PStr "-c1"); AVal (PStr "-w1");
              AVal ip_address] in
  returncode <- invoke (Call "subprocess.Popen" cmd []) ;;
  ret (Bool.eqb (pyval_eqb returncode (PInt 0)) should_succeed).

Definition ping_ip_address (ip_address : pyval) (should_succeed : bool)
    (ping_timeout : option Z) : M bool :=
  let timeout :=
    match ping_timeout with
    | Some t => if (t =? 0)%Z then compute_ping_timeout CONF else t
    | None => compute_ping_timeout CONF
    end in
  call_until_true (ping ip_address should_succeed) timeout 1.

(** The remote client is represented by the address, user and key it was
    built from.  The first argument is an address; the source also accepts
    a server dictionary, which no caller in this module passes. *)
Definition get_remote_client (ip : pyval) (username private_key : option pyval)
    : M pyval :=
  let username := default (PStr (scenario_ssh_user CONF)) username in
  private_key <-
    match private_key with
    | Some k => ret k
    | None =>
        kp <- gets keypair ;;
        match kp with
        | Some kp => getitem kp "private_key"
        | None => raise (AttributeError "keypair")
        end
    end ;;
  let linux_client := [AVal ip; AVal username] in
  try_except
    (_ <- invoke (Call "RemoteClient.validate_authentication" linux_client
                       [("pkey", AVal private_key)]) ;;
     ret tt)
    is_SSHTimeout
    (fun e => log_net_debug ;; raise e) ;;
  ret (PList [ip; username; private_key]).

Definition check_vm_connectivity (ip_address : pyval)
    (username private_key : option pyval) (should_connect : bool) : M unit :=
  let msg : string :=
    if should_connect
    then ("Timed out waiting for " ++ py_str ip_address
          ++ " to become reachable")%string
    else ("ip address " ++ py_str ip_address ++ " is reachable")%string in
  reachable <- ping_ip_address ip_address should_connect None ;;
  assertTrue reachable msg ;;
  if should_connect then
    _ <- get_remote_client ip_address username private_key ;; ret tt
  else ret tt.

Fixpoint console_loop (servers : list pyval) : M unit :=
  match servers with
  | [] => ret tt
  | server :: rest =>
      id <- getitem server "id" ;;
      _ <- invoke (Call "servers_client.get_console_output" [AVal id]
                        [("length", AVal PNone)]) ;;
      console_loop rest
  end.

Definition _log_console_output (servers : option pyval) : M unit :=
  if negb (compute_feature_enabled_console_output CONF) then ret tt
  else
    servers <-
      (if truthy (default PNone servers) then ret (default PNone servers)
       else
         servers <- invoke (Call "servers_client.list_servers" [] []) ;;
         getitem servers "servers") ;;
    servers <- py_iter servers ;;
    console_loop servers.

Definition check_public_network_connectivity (ip_address : pyval)
    (username private_key : option pyval) (should_connect : bool)
    (msg : option string) (servers : option pyval) : M unit :=
  try_except
    (check_vm_connectivity ip_address username private_key should_connect)
    (fun _ => true)
    (fun e =>
       _log_console_output servers ;;
       (if negb (is_SSHTimeout e) then log_net_debug else ret tt) ;;
       raise e).

(** *** Network scenario helpers *)

Definition _create_network (client : option string) (tenant_id : option pyval)
    (namestart : string) : M pyval :=
  let client := default "network_client" client in
  let tenant_id := or_default tenant_id (rest_client_tenant_id CONF client) in
  name <- rand_name namestart ;;
  result <- invoke (Call (client ++ ".create_network") []
                         [("name", AVal name); ("tenant_id", AVal tenant_id)]) ;;
  attrs <- getitem result "network" ;;
  network <- Deletable attrs ;;
  nname <- getattr network "name" ;;
  assertEqual nname name ;;
  addCleanup self_delete_wrapper
             [ACall (resource_method "DeletableNetwork.delete" network)] [] ;;
  ret network.

(** [_admin_lister(resource_type)] applied to keyword arguments. *)
Definition _admin_lister (resource_type : string) (kw : dict arg) : M pyval :=
  resource_list <- invoke (Call ("admin_manager.network_client.list_"
                                  ++ resource_type) [] kw) ;;
  getitem resource_list resource_type.

Definition _list_subnets (kw : dict arg) : M pyval :=
  _admin_lister "subnets" kw.

Definition cidr_in_use (cidr : string) (tenant_id : pyval) : M bool :=
  l <- _list_subnets [("tenant_id", AVal tenant_id);
                      ("cidr", AVal (PStr cidr))] ;;
  n <- py_len l ;;
  ret (negb (Nat.eqb n 0)).

(** The loop of [_create_subnet] over the remaining blocks.  It ends with
    the response and the block of the iteration that reached [break], or
    with [None] when the blocks ran out. *)
Fixpoint subnet_loop (network : pyval) (client namestart : string)
    (kw : dict arg) (blocks : list string) : M (option (pyval * string)) :=
  match blocks with
  | [] => ret None
  | str_cidr :: rest =>
      tenant_id <- getattr network "tenant_id" ;;
      in_use <- cidr_in_use str_cidr tenant_id ;;
      if in_use then subnet_loop network client namestart kw rest
      else
        name <- rand_name namestart ;;
        network_id <- getattr network "id" ;;
        tenant_id <- getattr network "tenant_id" ;;
        (if clashes ["name"; "ip_version"; "network_id"; "tenant_id"; "cidr"] kw
         then raise (TypeError "got multiple values for keyword argument")
         else ret tt) ;;
        let subnet : dict arg :=
          [("name", AVal name); ("ip_version", AVal (PInt 4));
           ("network_id", AVal network_id); ("tenant_id", AVal tenant_id);
           ("cidr", AVal (PStr str_cidr))] ++ kw in
        r <- try_except
               (result <- invoke (Call (client ++ ".create_subnet") [] subnet) ;;
                ret (Some result))
               is_Conflict
               (fun e =>
                  let is_overlapping_cidr :=
                    str_in "overlaps with another subnet" (exn_str e) in
                  if negb is_overlapping_cidr then raise e else ret None) ;;
        match r with
        | Some result => ret (Some (result, str_cidr))
        | None => subnet_loop network client namestart kw rest
        end
  end.

Definition _create_subnet (network : pyval) (client : option string)
    (namestart : string) (kw : dict arg) : M pyval :=
  let client := default "network_client" client in
  found <- subnet_loop network client namestart kw (network_tenant_subnets CONF) ;;
  let result := match found with
                | Some (PNone, _) | None => None
                | Some (r, _) => Some r
                end in
  result <- assertIsNotNone result "Unable to allocate tenant network" ;;
  let str_cidr := match found with Some (_, c) => c | None => EmptyString end in
  attrs <- getitem result "subnet" ;;
  subnet <- Deletable attrs ;;
  cidr <- getattr subnet "cidr" ;;
  assertEqual cidr (PStr str_cidr) ;;
  addCleanup self_delete_wrapper
             [ACall (resource_method "DeletableSubnet.delete" subnet)] [] ;;
  ret subnet.

(** First value of the listing, [client.list_security_groups().values()[0]]. *)
Definition values0 (v : pyval) : M pyval :=
  lift match v with
       | PDict ((_, x) :: _) => Ret x
       | PDict [] => Raise IndexError
       | _ => Raise (AttributeError "values")
       end.

Fixpoint filter_default (tenant_id : pyval) (sgs : list pyval)
    : M (list pyval) :=
  match sgs with
  | [] => ret []
  | sg :: rest =>
      t <- getitem sg "tenant_id" ;;
      keep <- (if pyval_eqb t tenant_id then
                 n <- getitem sg "name" ;; ret (pyval_eqb n (PStr "default"))
               else ret false) ;;
      tl <- filter_default tenant_id rest ;;
      ret (if keep then sg :: tl else tl)
  end.

Definition _default_security_group (client : option string)
    (tenant_id : option pyval) : M pyval :=
  let client := default "network_client" client in
  let tenant_id := or_default tenant_id (rest_client_tenant_id CONF client) in
  listing <- invoke (Call (client ++ ".list_security_groups") [] []) ;;
  all <- values0 listing ;;
  all <- py_iter all ;;
  sgs <- filter_default tenant_id all ;;
  assertTrue (Nat.ltb 0 (List.length sgs))
             ("No default security group for tenant " ++ py_str tenant_id ++ ".") ;;
  match sgs with
  | sg :: _ => Deletable sg
  | [] => raise IndexError
  end.

Definition _create_security_group_rule (secgroup : option pyval)
    (client : option string) (tenant_id : option pyval) (kw : dict arg)
    : M pyval :=
  let client := default "network_client" client in
  let tenant_id := or_default tenant_id (rest_client_tenant_id CONF client) in
  secgroup <- match secgroup with
              | Some g => ret g
              | None => _default_security_group (Some client) (Some tenant_id)
              end ;;
  sid <- getattr secgroup "id" ;;
  stenant <- getattr secgroup "tenant_id" ;;
  let ruleset : dict arg :=
    dict_update [("security_group_id", AVal sid); ("tenant_id", AVal stenant)]
                kw in
  sg_rule <- invoke (Call (client ++ ".create_security_group_rule") [] ruleset) ;;
  attrs <- getitem sg_rule "security_group_rule" ;;
  sg_rule <- Deletable attrs ;;
  addCleanup self_delete_wrapper
             [ACall (resource_method "DeletableSecurityGroupRule.delete" sg_rule)]
             [] ;;
  stenant <- getattr secgroup "tenant_id" ;;
  rtenant <- getattr sg_rule "tenant_id" ;;
  assertEqual stenant rtenant ;;
  sid <- getattr secgroup "id" ;;
  rsid <- getattr sg_rule "security_group_id" ;;
  assertEqual sid rsid ;;
  ret sg_rule.

Definition neutron_rulesets : list (dict arg) :=
  [ [("protocol", AVal (PStr "tcp")); ("port_range_min", AVal (PInt 22));
     ("port_range_max", AVal (PInt 22))];
    [("protocol", AVal (PStr "icmp"))] ].

(** The inner loop of the neutron variant over the directions left for one
    rule set; [ruleset['direction']] is overwritten on each turn. *)
Fixpoint directions_loop (client : string) (secgroup : option pyval)
    (ruleset : dict arg) (directions : list string) (rules : list pyval)
    : M (list pyval) :=
  match directions with
  | [] => ret rules
  | r_direction :: rest =>
      let ruleset := dict_set ruleset "direction" (AVal (PStr r_direction)) in
      created <-
        try_except
          (sg_rule <- _create_security_group_rule secgroup (Some client) None
                                                  ruleset ;;
           ret (Some sg_rule))
          is_Conflict
          (fun ex =>
             let msg := "Security group rule already exists" in
             if negb (str_in msg (exn_str ex)) then raise ex else ret None) ;;
      match created with
      | Some sg_rule =>
          d <- getattr sg_rule "direction" ;;
          assertEqual (PStr r_direction) d ;;
          directions_loop client secgroup ruleset rest (rules ++ [sg_rule])
      | None => directions_loop client secgroup ruleset rest rules
      end
  end.

Fixpoint rulesets_loop (client : string) (secgroup : option pyval)
    (rulesets : list (dict arg)) (rules : list pyval) : M (list pyval) :=
  match rulesets with
  | [] => ret rules
  | ruleset :: rest =>
      rules <- directions_loop client secgroup ruleset ["ingress"; "egress"]
                               rules ;;
      rulesets_loop client secgroup rest rules
  end.

Definition NetworkScenarioTest__create_loginable_secgroup_rule
    (client : option string) (secgroup : option pyval) : M (list pyval) :=
  let client := default "network_client" client in
  rulesets_loop client secgroup neutron_rulesets [].

(** *** Bare-metal scenario *)

Definition create_keypair (client : option string) : M pyval :=
  let client := default "keypairs_client" client in
  name <- rand_name (class_name CONF) ;;
  body <- invoke (Call (client ++ ".create_keypair") [AVal name] []) ;;
  addCleanup (Ext (client_method (client ++ ".delete_keypair"))) [AVal name] [] ;;
  ret body.

Definition add_keypair : M unit :=
  kp <- create_keypair None ;;
  modify (set_keypair kp).

Definition get_node (node_id instance_id : option pyval) : M pyval :=
  if truthy (default PNone node_id) then
    invoke (Call "baremetal_client.show_node" [AVal (default PNone node_id)] [])
  else if truthy (default PNone instance_id) then
    body <- invoke (Call "baremetal_client.show_node_by_instance_uuid"
                         [AVal (default PNone instance_id)] []) ;;
    nodes <- getitem body "nodes" ;;
    if truthy nodes then getitem0 nodes else ret PNone
  else ret PNone.

Definition as_states (target_states : pyval) : list pyval :=
  match target_states with
  | PList l => l
  | v => [v]
  end.

Definition check_state (node_id : pyval) (state_attr : string)
    (target_states : list pyval) : M bool :=
  node <- get_node (Some node_id) None ;;
  st <- dict_get_default node state_attr ;;
  ret (existsb (pyval_eqb st) target_states).

Definition node_state_message (node_id : pyval) (state_attr : string)
    (target_states : list pyval) : string :=
  "Timed out waiting for node " ++ py_str node_id ++ " to reach "
  ++ state_attr ++ " state(s) " ++ py_str (PList target_states).

Definition _node_state_timeout (node_id : pyval) (state_attr : string)
    (target_states : pyval) (timeout interval : Z) : M unit :=
  let target_states := as_states target_states in
  reached <- call_until_true (check_state node_id state_attr target_states)
                             timeout interval ;;
  if negb reached then
    raise (TimeoutException (node_state_message node_id state_attr target_states))
  else ret tt.

Definition wait_provisioning_state (node_id state : pyval) (timeout : Z)
    : M unit :=
  _node_state_timeout node_id "provision_state" state timeout 1.

Definition wait_power_state (node_id state : pyval) : M unit :=
  _node_state_timeout node_id "power_state" state
                      (baremetal_power_timeout CONF) 1.

Definition wait_node_message (instance_id : pyval) : string :=
  "Timed out waiting to get Ironic node by instance id " ++ py_str instance_id.

(** The inner function [_get_node] of [wait_node]. *)
Definition _get_node (instance_id : pyval) : M bool :=
  node <- try_except (get_node None (Some instance_id))
                     is_NotFound (fun _ => ret PNone) ;;
  ret (negb (pyval_eqb node PNone)).

Definition wait_node (instance_id : pyval) : M unit :=
  found <- call_until_true (_get_node instance_id)
                           (baremetal_association_timeout CONF) 1 ;;
  if negb found then raise (TimeoutException (wait_node_message instance_id))
  else ret tt.

Definition self_attr (name : string) (f : state -> option pyval) : M pyval :=
  v <- gets f ;;
  match v with
  | Some x => ret x
  | None => raise (AttributeError name)
  end.

Definition boot_instance : M unit :=
  kp <- self_attr "keypair" keypair ;;
  key_name <- getitem kp "name" ;;
  let create_kwargs : dict arg := [("key_name", AVal key_name)] in
  server <- create_server None None None false true (Some create_kwargs) ;;
  modify (set_instance server) ;;

  inst <- self_attr "instance" instance ;;
  id <- getitem inst "id" ;;
  wait_node id ;;
  inst <- self_attr "instance" instance ;;
  id <- getitem inst "id" ;;
  n <- get_node None (Some id) ;;
  modify (set_node n) ;;

  n <- self_attr "node" node ;;
  uuid <- getitem n "uuid" ;;
  wait_power_state uuid BaremetalPowerStates.POWER_ON ;;

  n <- self_attr "node" node ;;
  uuid <- getitem n "uuid" ;;
  wait_provisioning_state uuid
    (PList [BaremetalProvisionStates.DEPLOYWAIT;
            BaremetalProvisionStates.ACTIVE]) 15 ;;

  n <- self_attr "node" node ;;
  uuid <- getitem n "uuid" ;;
  wait_provisioning_state uuid BaremetalProvisionStates.ACTIVE
                          (baremetal_active_timeout CONF) ;;

  inst <- self_attr "instance" instance ;;
  id <- getitem inst "id" ;;
  _ <- invoke (Call "servers_client.wait_for_server_status"
                    [AVal id; AVal (PStr "ACTIVE")] []) ;;
  inst <- self_attr "instance" instance ;;
  id <- getitem inst "id" ;;
  n <- get_node None (Some id) ;;
  modify (set_node n) ;;
  inst <- self_attr "instance" instance ;;
  id <- getitem inst "id" ;;
  server <- invoke (Call "servers_client.get_server" [AVal id] []) ;;
  modify (set_instance server).

(** ** More of the scenario manager *)

Variable CONF2 : more_config.

(** [net_resources.AttributeDict(v)], that is [dict(v)], is taken as it
    comes: what it makes of a value that is not a dictionary is left
    open. *)
Variable AttributeDict : pyval -> outcome pyval.

Definition assertEqualMsg (a b : pyval) (msg : string) : M unit :=
  if pyval_eqb a b then ret tt else raise (AssertionError msg).

Definition assertIn (x container : pyval) : M unit :=
  found <- lift (contains container x) ;;
  if found then ret tt
  else raise (AssertionError (py_str x ++ " not found in " ++ py_str container)).

Definition assertNotIn (x container : pyval) : M unit :=
  found <- lift (contains container x) ;;
  if found then
    raise (AssertionError (py_str x ++ " unexpectedly found in "
                           ++ py_str container))
  else ret tt.

(** The nova-network variant, [ScenarioTest.create_floating_ip]. *)
Definition ScenarioTest_create_floating_ip (thing : pyval)
    (pool_name : option pyval) : M pyval :=
  floating_ip <- invoke (Call "floating_ips_client.create_floating_ip"
                              [AVal (default PNone pool_name)] []) ;;
  id <- getitem floating_ip "id" ;;
  addCleanup self_delete_wrapper
             [ACall (client_method "floating_ips_client.delete_floating_ip");
              AVal id] [] ;;
  ip <- getitem floating_ip "ip" ;;
  thing_id <- getitem thing "id" ;;
  _ <- invoke (Call "floating_ips_client.associate_floating_ip_to_server"
                    [AVal ip; AVal thing_id] []) ;;
  ret floating_ip.

(** The server's name is read for the debug log before anything else.
    [images_client.create_image] answers with its response metadata, the
    part of the answer the source reads. *)
Definition create_server_snapshot (server : pyval) (name : option pyval)
    : M pyval :=
  name <- match name with
          | None => rand_name "scenario-snapshot-"
          | Some n => ret n
          end ;;
  _ <- getitem server "name" ;;
  server_id <- getitem server "id" ;;
  resp <- invoke (Call "images_client.create_image"
                       [AVal server_id; AVal name] []) ;;
  location <- getitem resp "location" ;;
  image_id <- lift (split_index1 location "images/") ;;
  _ <- invoke (Call "image_client.wait_for_image_status"
                    [AVal image_id; AVal (PStr "active")] []) ;;
  addCleanup_with_wait
    (client_method "image_client.wait_for_resource_deletion")
    image_id "id" self_delete_wrapper
    (Some [ACall (client_method "image_client.delete_image"); AVal image_id])
    None ;;
  snapshot_image <- invoke (Call "image_client.get_image_meta"
                                 [AVal image_id] []) ;;
  image_name <- getitem snapshot_image "name" ;;
  assertEqual name image_name ;;
  _ <- getitem server "name" ;;
  ret snapshot_image.

Definition _list_networks (kw : dict arg) : M pyval :=
  _admin_lister "networks" kw.

Definition _list_ports (kw : dict arg) : M pyval :=
  _admin_lister "ports" kw.

Definition _get_server_port_id (server : pyval) (ip_addr : option pyval)
    : M pyval :=
  server_id <- getitem server "id" ;;
  ports <- _list_ports [("device_id", AVal server_id);
                        ("fixed_ip", AVal (default PNone ip_addr))] ;;
  n <- py_len ports ;;
  assertEqualMsg (PInt (Z.of_nat n)) (PInt 1)
                 "Unable to determine which port to target." ;;
  port <- lift (index0 ports) ;;
  getitem port "id".

Definition _get_network_by_name (network_name : pyval) : M pyval :=
  net <- _list_networks [("name", AVal network_name)] ;;
  first <- lift (index0 net) ;;
  lift (AttributeDict first).

(** The neutron variant, [NetworkScenarioTest.create_floating_ip]. *)
Definition NetworkScenarioTest_create_floating_ip (thing : pyval)
    (external_network_id port_id : option pyval) (client : option string)
    : M pyval :=
  let external_network_id :=
    or_default external_network_id (PStr (network_public_network_id CONF2)) in
  let client := default "network_client" client in
  port_id <- (if truthy (default PNone port_id) then ret (default PNone port_id)
              else _get_server_port_id thing None) ;;
  tenant_id <- getitem thing "tenant_id" ;;
  result <- invoke (Call (client ++ ".create_floatingip") []
                         [("floating_network_id", AVal external_network_id);
                          ("port_id", AVal port_id);
                          ("tenant_id", AVal tenant_id)]) ;;
  attrs <- getitem result "floatingip" ;;
  floating_ip <- Deletable attrs ;;
  addCleanup self_delete_wrapper
             [ACall (resource_method "DeletableFloatingIp.delete" floating_ip)]
             [] ;;
  ret floating_ip.




Definition _create_router (client : option string) (tenant_id : option pyval)
    (namestart : string) : M pyval :=
  let client := default "network_client" client in
  let tenant_id := or_default tenant_id (rest_client_tenant_id CONF client) in
  name <- rand_name namestart ;;
  result <- invoke (Call (client ++ ".create_router") []
                         [("name", AVal name);
                          ("admin_state_up", AVal (PBool true));
                          ("tenant_id", AVal tenant_id)]) ;;
  attrs <- getitem result "router" ;;
  router <- Deletable attrs ;;
  rname <- getattr router "name" ;;
  assertEqual rname name ;;
  addCleanup self_delete_wrapper
             [ACall (resource_method "DeletableRouter.delete" router)] [] ;;
  ret router.

(** [router.set_gateway] is a method of the resource proxy; the router is
    handed back with the attributes it was created with. *)
Definition _get_router (client : option string) (tenant_id : option pyval)
    : M pyval :=
  let client := default "network_client" client in
  let tenant_id := or_default tenant_id (rest_client_tenant_id CONF client) in
  let router_id := network_public_router_id CONF2 in
  let network_id := network_public_network_id CONF2 in
  if truthy (PStr router_id) then
    body <- invoke (Call (client ++ ".show_router") [AVal (PStr router_id)] []) ;;
    attrs <- getitem body "router" ;;
    Deletable attrs
  else if truthy (PStr network_id) then
    router <- _create_router (Some client) (Some tenant_id) "router-smoke" ;;
    _ <- call_ext (resource_method "DeletableRouter.set_gateway" router)
                  [AVal (PStr network_id)] [] ;;
    ret router
  else
    raise (OtherException
             "Neither of 'public_router_id' or 'public_network_id' has been defined.").

(** The result is the triple [(network, subnet, router)]. *)
Definition create_networks (client : option string) (tenant_id : option pyval)
    : M (pyval * pyval * pyval) :=
  if baremetal_driver_enabled CONF2 then
    network <- _get_network_by_name (PStr (compute_fixed_network_name CONF2)) ;;
    ret (network, PNone, PNone)
  else
    network <- _create_network client tenant_id "network-smoke-" ;;
    router <- _get_router client tenant_id ;;
    subnet <- _create_subnet network client "subnet-smoke" [] ;;
    router_id <- getattr router "id" ;;
    _ <- call_ext (resource_method "DeletableSubnet.add_to_router" subnet)
                  [AVal router_id] [] ;;
    ret (network, subnet, router).

Fixpoint show_ports (listed : list pyval) (ports : list pyval)
    : M (list pyval) :=
  match listed with
  | [] => ret ports
  | port :: rest =>
      uuid <- getitem port "uuid" ;;
      p <- invoke (Call "baremetal_client.show_port" [AVal uuid] []) ;;
      show_ports rest (ports ++ [p])
  end.

Definition get_ports (node_uuid : pyval) : M (list pyval) :=
  body <- invoke (Call "baremetal_client.list_node_ports" [AVal node_uuid] []) ;;
  listed <- getitem body "ports" ;;
  listed <- lift (elements listed) ;;
  show_ports listed [].

Definition terminate_instance : M unit :=
  inst <- self_attr "instance" instance ;;
  id <- getitem inst "id" ;;
  _ <- invoke (Call "servers_client.delete_server" [AVal id] []) ;;
  n <- self_attr "node" node ;;
  uuid <- getitem n "uuid" ;;
  wait_power_state uuid BaremetalPowerStates.POWER_OFF ;;
  n <- self_attr "node" node ;;
  uuid <- getitem n "uuid" ;;
  wait_provisioning_state uuid BaremetalProvisionStates.NOSTATE
                          (baremetal_unprovision_timeout CONF2).

(** *** Object storage scenario *)

Fixpoint assert_all_in (objs : list pyval) (object_list : pyval) : M unit :=
  match objs with
  | [] => ret tt
  | obj :: rest => assertIn obj object_list ;; assert_all_in rest object_list
  end.

Fixpoint assert_none_in (objs : list pyval) (object_list : pyval) : M unit :=
  match objs with
  | [] => ret tt
  | obj :: rest => assertNotIn obj object_list ;; assert_none_in rest object_list
  end.

Definition list_and_check_container_objects (container_name : pyval)
    (present_obj not_present_obj : option (list pyval)) : M unit :=
  let present_obj := default [] present_obj in
  let not_present_obj := default [] not_present_obj in
  object_list <- invoke (Call "container_client.list_container_contents"
                              [AVal container_name] []) ;;
  assert_all_in present_obj object_list ;;
  assert_none_in not_present_obj object_list.

Definition create_container (container_name : option pyval) : M pyval :=
  name <- (if truthy (default PNone container_name)
           then ret (default PNone container_name)
           else rand_name "swift-scenario-container") ;;
  _ <- invoke (Call "container_client.create_container" [AVal name] []) ;;
  list_and_check_container_objects name None None ;;
  addCleanup self_delete_wrapper
             [ACall (client_method "container_client.delete_container");
              AVal name] [] ;;
  ret name.

Definition upload_object_to_container (container_name : pyval)
    (obj_name : option pyval) : M (pyval * pyval) :=
  obj_name <- (if truthy (default PNone obj_name)
               then ret (default PNone obj_name)
               else rand_name "swift-scenario-object") ;;
  obj_data <- invoke (Call "data_utils.arbitrary_string" [] []) ;;
  _ <- invoke (Call "object_client.create_object"
                    [AVal container_name; AVal obj_name; AVal obj_data] []) ;;
  addCleanup self_delete_wrapper
             [ACall (client_method "object_client.delete_object");
              AVal container_name; AVal obj_name] [] ;;
  ret (obj_name, obj_data).

Definition delete_object (container_name filename : pyval) : M unit :=
  _ <- invoke (Call "object_client.delete_object"
                    [AVal container_name; AVal filename] []) ;;
  list_and_check_container_objects container_name None (Some [filename]).

(** ** Vocabulary of the statements *)

(** The call a ledger entry makes when it is a client or resource method,
    bare or behind [delete_wrapper]; every entry the factories register is
    of this kind. *)
Definition cleanup_call (c : cleanup) : option call :=
  match function c with
  | Ext f => Some (ext_call f (args c) (kwargs c))
  | self_delete_wrapper =>
      match args c with
      | ACall f :: a => Some (ext_call f a (kwargs c))
      | _ => None
      end
  | self__wait_for_cleanups => None
  end.

(** The call draining a wait descriptor makes. *)
Definition wait_call (w : wait_dict) : option call :=
  match dict_pop w "waiter_callable" with
  | Some (ACall f, w') => Some (ext_call f [] w')
  | _ => None
  end.

Definition some_list {A} (o : option A) : list A :=
  match o with Some a => [a] | None => [] end.

Definition wait_calls (ws : list wait_dict) : list call :=
  flat_map (fun w => some_list (wait_call w)) ws.

Definition cleanup_calls (cs : list cleanup) : list call :=
  flat_map (fun c => some_list (cleanup_call c)) cs.

Definition is_some {A} (o : option A) : bool :=
  match o with Some _ => true | None => false end.

(** What a test registers, one entry per call of [addCleanup] or
    [addCleanup_with_wait]. *)
Inductive registration : Type :=
| Sync (c : cleanup)
| Async (waiter_callable : ext_callable) (thing_id : pyval)
        (thing_id_param : string) (cleanup_callable : callable)
        (cleanup_args : option (list arg)) (cleanup_kwargs : option (dict arg)).

Definition register (r : registration) : M unit :=
  match r with
  | Sync c => addCleanup (function c) (args c) (kwargs c)
  | Async w i p c a k => addCleanup_with_wait w i p c a k
  end.

Fixpoint register_all (rs : list registration) : M unit :=
  match rs with
  | [] => ret tt
  | r :: rs' => register r ;; register_all rs'
  end.

(** The synchronous action a registration defers. *)
Definition action_of (r : registration) : cleanup :=
  match r with
  | Sync c => c
  | Async _ _ _ c a k => Cleanup c (default [] a) (default [] k)
  end.

(** The waiter call an asynchronous registration asks for: the waiter on
    the identifier, passed under the name the registration gives. *)
Definition waiter_call_of (r : registration) : option call :=
  match r with
  | Sync _ => None
  | Async w i p _ _ _ => Some (ext_call w [] [(p, AVal i)])
  end.

(** The wait descriptor an asynchronous registration leaves behind. *)
Definition descriptor_of (r : registration) : option wait_dict :=
  match r with
  | Sync _ => None
  | Async w i p _ _ _ =>
      Some (dict_set [("waiter_callable", ACall w)] p (AVal i))
  end.

Definition descriptors (rs : list registration) : list wait_dict :=
  flat_map (fun r => some_list (descriptor_of r)) rs.

(** The ledger entry [setUp] registers first. *)
Definition drain_entry : cleanup := Cleanup self__wait_for_cleanups [] [].

Definition sync_calls (rs : list registration) : list call :=
  cleanup_calls (map action_of rs).

Definition waiter_calls (rs : list registration) : list call :=
  flat_map (fun r => some_list (waiter_call_of r)) rs.

(** A registration as the factories make them: the deferred action is a
    client or resource method, bare or behind [delete_wrapper], and the
    identifier is not passed under the name of the waiter itself. *)
Definition well_formed (r : registration) : bool :=
  match cleanup_call (action_of r) with
  | None => false
  | Some _ =>
      match r with
      | Sync _ => true
      | Async _ _ p _ _ _ => negb (String.eqb "waiter_callable" p)
      end
  end.

(** The ledger entries and the wait descriptor [create_server] leaves for
    the server [id]. *)
Definition server_cleanups (wait_on_delete : bool) (id : pyval) : list cleanup :=
  (if wait_on_delete
   then [Cleanup (Ext (client_method "servers_client.wait_for_server_termination"))
                 [AVal id] []]
   else [])
  ++ [Cleanup self_delete_wrapper
              [ACall (client_method "servers_client.delete_server"); AVal id] []].

Definition server_wait (id : pyval) : wait_dict :=
  [("waiter_callable",
    ACall (client_method "servers_client.wait_for_server_termination"));
   ("server_id", AVal id)].

(** The ssh step is the authentication of the remote client. *)
Definition is_ssh (c : call) : Prop :=
  target c = "RemoteClient.validate_authentication".

(** The subprocess [ping_ip_address] spawns. *)
Definition ping_call (ip_address : pyval) : call :=
  Call "subprocess.Popen"
       [AVal (PStr "ping"); AVal (PStr "-c1"); AVal (PStr "-w1");
        AVal ip_address] [].

(** The diagnostic capture [check_public_network_connectivity] performs
    once the check has failed with [e], before it raises again. *)
Definition diagnostics (servers : option pyval) (e : exn) : M unit :=
  _log_console_output servers ;;
  if negb (is_SSHTimeout e) then log_net_debug else ret tt.

Definition net_debug_call : call := Call "debug.log_net_debug" [] [].

Definition is_diagnostic (c : call) : Prop :=
  target c = "servers_client.list_servers" \/
  target c = "servers_client.get_console_output" \/
  c = net_debug_call.

(** Calls of the bare-metal boot sequence. *)
Definition rand_name_call (prefix : string) : call :=
  Call "data_utils.rand_name" [AVal (PStr prefix)] [].

Definition create_server_call (name image flavor : pyval) (kw : dict arg) : call :=
  Call "servers_client.create_server" [AVal name; AVal image; AVal flavor] kw.

Definition get_server_call (id : pyval) : call :=
  Call "servers_client.get_server" [AVal id] [].

Definition server_active_call (id : pyval) : call :=
  Call "servers_client.wait_for_server_status"
       [AVal id; AVal (PStr "ACTIVE")] [].

Definition show_node_call (node_id : pyval) : call :=
  Call "baremetal_client.show_node" [AVal node_id] [].

Definition by_instance_call (instance_id : pyval) : call :=
  Call "baremetal_client.show_node_by_instance_uuid" [AVal instance_id] [].

Definition sleep_call (sleep_for : Z) : call :=
  Call "time.sleep" [AVal (PInt sleep_for)] [].

(** The log of [k] failed polls through the call [c], each followed by a
    sleep of one second. *)
Fixpoint retries (c : call) (k : nat) : list call :=
  match k with
  | O => []
  | S k' => c :: sleep_call 1 :: retries c k'
  end.

Fixpoint log_calls (l : list call) (s : state) : state :=
  match l with
  | [] => s
  | c :: l' => log_calls l' (log_call c s)
  end.

(** A predicate that makes the one call [c] and decides on its outcome. *)
Definition probe (c : call) (decide : outcome pyval -> outcome bool) : M bool :=
  fun s => (decide (remote (trace s) c), log_call c s).

(** What [check_state] makes of the answer to [show_node]. *)
Definition state_reached (state_attr : string) (target_states : list pyval)
    (r : outcome pyval) : outcome bool :=
  match r with
  | Raise e => Raise e
  | Ret v =>
      match get_or_none v state_attr with
      | Ret st => Ret (existsb (pyval_eqb st) target_states)
      | Raise e => Raise e
      end
  end.

(** What [_get_node] makes of the answer to [show_node_by_instance_uuid]. *)
Definition node_found (r : outcome pyval) : outcome bool :=
  match r with
  | Raise e => if is_NotFound e then Ret false else Raise e
  | Ret body =>
      match item body "nodes" with
      | Raise e => Raise e
      | Ret nodes =>
          if truthy nodes then
            match item0 nodes with
            | Ret n => Ret (negb (pyval_eqb n PNone))
            | Raise e => Raise e
            end
          else Ret false
      end
  end.

(** The log of a boot from [s] to [s']: server creation without a wait for
    boot; polls for the node of the instance; polls of the node until the
    power is on, until it waits for the call-back or is active, and until
    it is active; then the wait for the server to be ACTIVE and the two
    final fetches.  Each run of failed polls is shorter than the attempts
    its own timeout allows, and ends with a poll that saw the target. *)
Definition booted (s s' : state) : Prop :=
  exists name kw id0 id uuid k1 k2 k3 k4,
    let boot := [rand_name_call (class_name CONF);
                 create_server_call name (PStr (compute_image_ref CONF))
                                    (PStr (compute_flavor_ref CONF)) kw;
                 get_server_call id0] in
    let assoc := retries (by_instance_call id) k1
                 ++ [by_instance_call id; by_instance_call id] in
    let power := retries (show_node_call uuid) k2 ++ [show_node_call uuid] in
    let deploy := retries (show_node_call uuid) k3 ++ [show_node_call uuid] in
    let active := retries (show_node_call uuid) k4 ++ [show_node_call uuid] in
    let final := [server_active_call id; by_instance_call id;
                  get_server_call id] in
    trace s' = trace s ++ boot ++ assoc ++ power ++ deploy ++ active ++ final /\
    k1 < attempts (baremetal_association_timeout CONF) 1 /\
    k2 < attempts (baremetal_power_timeout CONF) 1 /\
    k3 < attempts 15 1 /\
    k4 < attempts (baremetal_active_timeout CONF) 1 /\
    state_reached "power_state" [BaremetalPowerStates.POWER_ON]
      (remote (trace s ++ boot ++ assoc ++ retries (show_node_call uuid) k2)
              (show_node_call uuid)) = Ret true /\
    state_reached "provision_state"
      [BaremetalProvisionStates.DEPLOYWAIT; BaremetalProvisionStates.ACTIVE]
      (remote (trace s ++ boot ++ assoc ++ power
               ++ retries (show_node_call uuid) k3)
              (show_node_call uuid)) = Ret true /\
    state_reached "provision_state" [BaremetalProvisionStates.ACTIVE]
      (remote (trace s ++ boot ++ assoc ++ power ++ deploy
               ++ retries (show_node_call uuid) k4)
              (show_node_call uuid)) = Ret true /\
    exists v,
      remote (trace s ++ boot ++ assoc ++ power ++ deploy ++ active)
             (server_active_call id) = Ret v.

(** Calls of [_create_subnet]. *)
Definition list_subnets_call (tenant_id : pyval) (cidr : string) : call :=
  Call "admin_manager.network_client.list_subnets" []
       [("tenant_id", AVal tenant_id); ("cidr", AVal (PStr cidr))].

Definition create_subnet_call (client : string) (name network_id tenant_id : pyval)
    (cidr : string) (kw : dict arg) : call :=
  Call (client ++ ".create_subnet") []
       ([("name", AVal name); ("ip_version", AVal (PInt 4));
         ("network_id", AVal network_id); ("tenant_id", AVal tenant_id);
         ("cidr", AVal (PStr cidr))] ++ kw).

(** What [cidr_in_use] makes of the answer to [list_subnets]. *)
Definition in_use (r : outcome pyval) : outcome bool :=
  match r with
  | Raise e => Raise e
  | Ret listing =>
      match item listing "subnets" with
      | Raise e => Raise e
      | Ret l =>
          match len l with
          | Raise e => Raise e
          | Ret n => Ret (negb (Nat.eqb n 0))
          end
      end
  end.

(** Whether the world lets a call return at the given point of the log. *)
Definition returns (t : list call) (c : call) : bool :=
  match remote t c with Ret _ => true | Raise _ => false end.

(** Whether each call of a sequence returns when made one after another. *)
Fixpoint all_return (t : list call) (cs : list call) : bool :=
  match cs with
  | [] => true
  | c :: cs' => returns t c && all_return (t ++ [c]) cs'
  end.

Definition result_of {A} (m : M A) (s : state) : outcome A := fst (m s).
Definition state_after {A} (m : M A) (s : state) : state := snd (m s).

(** The calls [m] adds to the log all satisfy [P]. *)
Definition emits {A} (P : call -> Prop) (m : M A) : Prop :=
  forall s, exists new,
    trace (state_after m s) = trace s ++ new /\ Forall P new.

(** ** Concrete worlds *)

(** A world where every resource is already gone. *)
Definition world_gone : list call -> call -> outcome pyval :=
  fun _ _ => Raise (NotFound "Object not found").

(** A world that answers by the name of the method called and lets every
    unlisted method return [None]. *)
Definition world_of (table : dict (outcome pyval))
    : list call -> call -> outcome pyval :=
  fun _ c =>
    match dict_get table (target c) with
    | Some r => r
    | None => Ret PNone
    end.

Definition demo_config : config :=
  mkConfig "cirros" "m1.tiny" 3 true "cirros"
           ["10.100.0.0/28"; "10.100.0.16/28"; "10.100.0.32/28"]
           2 2 3 "TestServerOps" (fun _ => PStr "tenant-1").

Definition demo_server : pyval :=
  PDict [("id", PStr "srv-1"); ("name", PStr "TestServerOps-1")].

(** A cloud where servers boot and everything deletes. *)
Definition world_calm : list call -> call -> outcome pyval :=
  world_of [("data_utils.rand_name", Ret (PStr "TestServerOps-1"));
            ("servers_client.create_server", Ret demo_server);
            ("servers_client.get_server", Ret demo_server)].

(** A cloud where volumes never finish deleting. *)
Definition world_stuck_volume : list call -> call -> outcome pyval :=
  world_of [("volumes_client.wait_for_resource_deletion",
             Raise (TimeoutException "volume vol-1 failed to delete"))].

(** A keypair cleanup and three wait-then-delete registrations. *)
Definition demo_registrations : list registration :=
  [ Sync (Cleanup (Ext (client_method "keypairs_client.delete_keypair"))
                  [AVal (PStr "kp-1")] []);
    Async (client_method "servers_client.wait_for_server_termination")
          (PStr "srv-1") "server_id" self_delete_wrapper
          (Some [ACall (client_method "servers_client.delete_server");
                 AVal (PStr "srv-1")]) None;
    Async (client_method "volumes_client.wait_for_resource_deletion")
          (PStr "vol-1") "id" self_delete_wrapper
          (Some [ACall (client_method "volumes_client.delete_volume");
                 AVal (PStr "vol-1")]) None;
    Async (client_method "image_client.wait_for_resource_deletion")
          (PStr "img-1") "id" self_delete_wrapper
          (Some [ACall (client_method "image_client.delete_image");
                 AVal (PStr "img-1")]) None ].

(** The test instance after [setUp] and the registrations above. *)
Definition demo_state : state :=
  state_after (setUp ;; register_all demo_registrations) (fresh []).

(** A host that never answers to ping, in a cloud whose compute API is
    down. *)
Definition world_unreachable : list call -> call -> outcome pyval :=
  world_of [("subprocess.Popen", Ret (PInt 1));
            ("servers_client.list_servers",
             Raise (OtherException "ServerFault: compute API unavailable"))].

(** A cloud that already holds every rule one tries to add. *)
Definition world_duplicate_rules : list call -> call -> outcome pyval :=
  world_of [("network_client.create_security_group_rule",
             Raise (Conflict "Security group rule already exists. Group id is sg-1."));
            ("security_groups_client.create_security_group_rule",
             Raise (Conflict "Security group rule already exists. Group id is sg-1."))].

(** A cloud out of quota for security group rules. *)
Definition world_rule_quota : list call -> call -> outcome pyval :=
  world_of [("network_client.create_security_group_rule",
             Raise (Conflict "Quota exceeded for resources: ['security_group_rule']"))].

Definition demo_secgroup : pyval :=
  PDict [("id", PStr "sg-1"); ("tenant_id", PStr "tenant-1");
         ("name", PStr "secgroup-smoke-1")].

Definition demo_keypair : pyval :=
  PDict [("name", PStr "TestServerOps-1"); ("private_key", PStr "-----KEY-----")].

(** A test instance ready to boot: [setUp] has run and the keypair is set. *)
Definition demo_keyed : state :=
  set_keypair demo_keypair (state_after setUp (fresh [])).

Definition demo_node (power provision : pyval) : pyval :=
  PDict [("uuid", PStr "node-1"); ("power_state", power);
         ("provision_state", provision)].

Definition count_target (t : string) (l : list call) : nat :=
  List.length (filter (fun c => String.eqb (target c) t) l).

(** A bare-metal cloud: the node is associated at once, powers on at the
    second look, waits for the call-back at the third and fourth and is
    active from the fifth on. *)
Definition world_metal : list call -> call -> outcome pyval :=
  fun t c =>
    if String.eqb (target c) "baremetal_client.show_node" then
      let seen := count_target "baremetal_client.show_node" t in
      Ret (if Nat.ltb seen 1 then
             demo_node (PStr "power off") PNone
           else if Nat.ltb seen 2 then
             demo_node (PStr "power on") (PStr "deploying")
           else if Nat.ltb seen 4 then
             demo_node (PStr "power on") (PStr "wait call-back")
           else demo_node (PStr "power on") (PStr "active"))
    else if String.eqb (target c) "baremetal_client.show_node_by_instance_uuid"
    then Ret (PDict [("nodes", PList [demo_node (PStr "power off") PNone])])
    else world_calm t c.

(** A cloud where no node is ever associated with the instance. *)
Definition world_unassociated : list call -> call -> outcome pyval :=
  world_of [("data_utils.rand_name", Ret (PStr "TestServerOps-1"));
            ("servers_client.create_server", Ret demo_server);
            ("servers_client.get_server", Ret demo_server);
            ("baremetal_client.show_node_by_instance_uuid",
             Ret (PDict [("nodes", PList [])]))].

Definition demo_network : pyval :=
  PDict [("id", PStr "net-1"); ("tenant_id", PStr "tenant-1");
         ("name", PStr "network-smoke-1")].

(** A cloud where every block of the tenant pool overlaps a subnet of
    somebody else. *)
Definition world_full_pool : list call -> call -> outcome pyval :=
  world_of [("data_utils.rand_name", Ret (PStr "subnet-smoke-1"));
            ("admin_manager.network_client.list_subnets",
             Ret (PDict [("subnets", PList [])]));
            ("network_client.create_subnet",
             Raise (Conflict "Invalid input: cidr overlaps with another subnet"))].

(** A cloud where the tenant already uses the first block, the second
    overlaps a subnet of somebody else and the third is free. *)
Definition world_third_block : list call -> call -> outcome pyval :=
  fun t c =>
    if String.eqb (target c) "admin_manager.network_client.list_subnets" then
      Ret (PDict [("subnets",
                   if Nat.eqb (count_target
                                 "admin_manager.network_client.list_subnets" t) 0
                   then PList [PDict [("cidr", PStr "10.100.0.0/28")]]
                   else PList [])])
    else if String.eqb (target c) "network_client.create_subnet" then
      if Nat.eqb (count_target "network_client.create_subnet" t) 0
      then Raise (Conflict "Invalid input: cidr overlaps with another subnet")
      else Ret (PDict [("subnet", PDict [("id", PStr "sub-1");
                                         ("cidr", PStr "10.100.0.32/28")])])
    else Ret (PStr "subnet-smoke-1").

(** A cloud whose API answers with another name than the one asked for,
    for networks and for servers alike. *)
Definition world_name_drift : list call -> call -> outcome pyval :=
  world_of [("data_utils.rand_name", Ret (PStr "smoke-1"));
            ("network_client.create_network",
             Ret (PDict [("network",
                          PDict [("id", PStr "net-9"); ("name", PStr "smoke-2");
                                 ("tenant_id", PStr "tenant-1")])]));
            ("servers_client.create_server",
             Ret (PDict [("id", PStr "srv-9"); ("name", PStr "smoke-2")]));
            ("servers_client.get_server",
             Ret (PDict [("id", PStr "srv-9"); ("name", PStr "smoke-2")]))].


(** A ledger entry that goes through [delete_wrapper] to a client or
    resource method. *)
Definition is_wrapped (c : cleanup) : bool :=
  match function c, args c with
  | self_delete_wrapper, ACall _ :: _ => true
  | _, _ => false
  end.

Definition is_drain (c : cleanup) : bool :=
  match function c, args c, kwargs c with
  | self__wait_for_cleanups, [], [] => true
  | _, _, _ => false
  end.

(** The ledger entries and the wait descriptors [create_volume] leaves for
    the volume [id]. *)
Definition volume_delete_entry (id : pyval) : cleanup :=
  Cleanup self_delete_wrapper
          [ACall (client_method "volumes_client.delete_volume"); AVal id] [].

Definition volume_cleanups (wait_on_delete : bool) (id : pyval) : list cleanup :=
  (if wait_on_delete
   then [Cleanup (Ext (client_method "volumes_client.wait_for_resource_deletion"))
                 [AVal id] []]
   else [])
  ++ [volume_delete_entry id].

Definition volume_waits (wait_on_delete : bool) (id : pyval) : list wait_dict :=
  if wait_on_delete then []
  else [[("waiter_callable",
          ACall (client_method "volumes_client.wait_for_resource_deletion"));
         ("id", AVal id)]].

Definition floating_ip_entry (id : pyval) : cleanup :=
  Cleanup self_delete_wrapper
          [ACall (client_method "floating_ips_client.delete_floating_ip");
           AVal id] [].



Definition console_call (id : pyval) : call :=
  Call "servers_client.get_console_output" [AVal id] [("length", AVal PNone)].

Definition list_node_ports_call (node_uuid : pyval) : call :=
  Call "baremetal_client.list_node_ports" [AVal node_uuid] [].

Definition show_port_call (uuid : pyval) : call :=
  Call "baremetal_client.show_port" [AVal uuid] [].

Definition delete_server_call (id : pyval) : call :=
  Call "servers_client.delete_server" [AVal id] [].

Definition list_contents_call (container_name : pyval) : call :=
  Call "container_client.list_container_contents" [AVal container_name] [].

Definition list_ports_call (server_id : pyval) : call :=
  Call "admin_manager.network_client.list_ports" []
       [("device_id", AVal server_id); ("fixed_ip", AVal PNone)].

(** A computation that leaves the ledger and the wait descriptors alone. *)
Definition keeps_ledger {A} (m : M A) : Prop :=
  forall s,
    _cleanups (state_after m s) = _cleanups s /\
    cleanup_waits (state_after m s) = cleanup_waits s.


Definition list_networks_call (name : pyval) : call :=
  Call "admin_manager.network_client.list_networks" [] [("name", AVal name)].

Definition delete_object_call (container_name obj_name : pyval) : call :=
  Call "object_client.delete_object" [AVal container_name; AVal obj_name] [].

Definition delete_container_call (container_name : pyval) : call :=
  Call "container_client.delete_container" [AVal container_name] [].

Definition container_entry (name : pyval) : cleanup :=
  Cleanup self_delete_wrapper
          [ACall (client_method "container_client.delete_container"); AVal name]
          [].

Definition object_entry (container_name obj_name : pyval) : cleanup :=
  Cleanup self_delete_wrapper
          [ACall (client_method "object_client.delete_object");
           AVal container_name; AVal obj_name] [].

(** The ledger entry of a resource proxy: its [delete] method behind
    [delete_wrapper]. *)
Definition resource_entry (method : string) (resource : pyval) : cleanup :=
  Cleanup self_delete_wrapper [ACall (resource_method method resource)] [].

(** [x in l] for every [x] of [objs]. *)
Definition all_listed (objs l : list pyval) : bool :=
  forallb (fun x => existsb (pyval_eqb x) l) objs.

Definition none_listed (objs l : list pyval) : bool :=
  forallb (fun x => negb (existsb (pyval_eqb x) l)) objs.


(** The call the ledger entry of a resource proxy makes at teardown. *)
Definition resource_call (method : string) (resource : pyval) : call :=
  Call method [AVal resource] [].



(** ** Worlds of the further scenarios *)

(** No public router, a public network, no bare-metal driver. *)
Definition demo_more_config : more_config :=
  mkMoreConfig false "private" EmptyString "net-ext" 5.

(** The bare-metal set-up: shared fixed network and a public router. *)
Definition shared_config : more_config :=
  mkMoreConfig true "private" "router-1" "net-ext" 5.

Definition demo_stack : pyval :=
  PDict [("id", PStr "stack-1");
         ("outputs",
          PList [PDict [("output_key", PStr "WebsiteURL");
                        ("output_value", PStr "http://10.0.0.5/")];
                 PDict [("output_key", PStr "server_ip");
                        ("output_value", PStr "10.0.0.5")];
                 PDict [("output_key", PStr "server_ip");
                        ("output_value", PStr "10.0.0.6")]])].

(** A cloud where the server is gone and the volume cannot be deleted. *)
Definition world_in_use : list call -> call -> outcome pyval :=
  world_of [("servers_client.delete_server", Raise (NotFound "Object not found"));
            ("volumes_client.delete_volume", Raise (Conflict "Volume in use"))].

(** A ledger of wrapped deletes, as the factories leave it. *)
Definition wrapped_state : state :=
  mkState [drain_entry;
           Cleanup self_delete_wrapper
                   [ACall (client_method "servers_client.delete_server");
                    AVal (PStr "srv-1")] [];
           volume_delete_entry (PStr "vol-1")]
          [] [] None None None.

(** A cloud that loses the keypair before teardown. *)
Definition world_keypairs : list call -> call -> outcome pyval :=
  world_of [("data_utils.rand_name", Ret (PStr "TestServerOps-1"));
            ("keypairs_client.create_keypair", Ret demo_keypair);
            ("keypairs_client.delete_keypair",
             Raise (NotFound "Keypair not found"))].

Definition demo_volume : pyval :=
  PDict [("id", PStr "vol-1"); ("display_name", PStr "TestServerOps-1")].

Definition world_volumes : list call -> call -> outcome pyval :=
  world_of [("data_utils.rand_name", Ret (PStr "TestServerOps-1"));
            ("volumes_client.create_volume", Ret demo_volume);
            ("volumes_client.get_volume", Ret demo_volume)].

Definition demo_floating_ip : pyval :=
  PDict [("id", PStr "fip-1"); ("ip", PStr "172.24.4.3")].

(** A cloud that hands out a floating IP and then fails to associate it. *)
Definition world_floating : list call -> call -> outcome pyval :=
  world_of [("floating_ips_client.create_floating_ip", Ret demo_floating_ip);
            ("floating_ips_client.associate_floating_ip_to_server",
             Raise (OtherException "No fixed IP for instance srv-1"))].

(** A cloud whose snapshot never becomes active. *)
Definition world_snapshot_stuck : list call -> call -> outcome pyval :=
  world_of [("data_utils.rand_name", Ret (PStr "scenario-snapshot-1"));
            ("images_client.create_image",
             Ret (PDict [("location", PStr "http://glance/v1/images/img-1")]));
            ("image_client.wait_for_image_status",
             Raise (TimeoutException "Image img-1 failed to become active"))].


(** A bare-metal cloud whose node is powered off and reports no provision
    state at all. *)
Definition world_stateless : list call -> call -> outcome pyval :=
  world_of [("baremetal_client.show_node",
             Ret (PDict [("uuid", PStr "node-1");
                         ("power_state", PStr "power off")]))].

(** A test instance with a running bare-metal server. *)
Definition demo_running : state :=
  mkState [drain_entry] [] [] (Some demo_keypair) (Some demo_server)
          (Some (demo_node (PStr "power on") (PStr "active"))).

Definition world_ports : list call -> call -> outcome pyval :=
  world_of [("baremetal_client.list_node_ports",
             Ret (PDict [("ports", PList [PDict [("uuid", PStr "port-1")];
                                          PDict [("uuid", PStr "port-2")]])]));
            ("baremetal_client.show_port",
             Ret (PDict [("uuid", PStr "port-1");
                         ("address", PStr "52:54:00:12:34:56")]))].

Definition world_swift : list call -> call -> outcome pyval :=
  world_of [("container_client.list_container_contents",
             Ret (PList [PStr "obj-1"; PStr "obj-2"]))].

(** An object store that creates the container and then cannot list it. *)
Definition world_swift_down : list call -> call -> outcome pyval :=
  world_of [("container_client.list_container_contents",
             Raise (OtherException "503 Service Unavailable"))].

Definition world_no_ports : list call -> call -> outcome pyval :=
  world_of [("admin_manager.network_client.list_ports",
             Ret (PDict [("ports", PList [])]))].

Definition world_shared_net : list call -> call -> outcome pyval :=
  world_of [("admin_manager.network_client.list_networks",
             Ret (PDict [("networks", PList [demo_network])]))].

Definition drifted_rule : dict pyval :=
  [("id", PStr "rule-1"); ("tenant_id", PStr "tenant-2");
   ("security_group_id", PStr "sg-1")].

(** A cloud that files the new rule under another tenant. *)
Definition world_rule_drift : list call -> call -> outcome pyval :=
  world_of [("network_client.create_security_group_rule",
             Ret (PDict [("security_group_rule", PDict drifted_rule)]))].

Definition smoke_network : pyval :=
  PDict [("id", PStr "net-1"); ("name", PStr "smoke-1");
         ("tenant_id", PStr "tenant-1")].

Definition smoke_router : pyval :=
  PDict [("id", PStr "router-1"); ("name", PStr "smoke-1")].

Definition smoke_subnet : pyval :=
  PDict [("id", PStr "sub-1"); ("cidr", PStr "10.100.0.0/28")].

(** A cloud where network, router and subnet are created at the first
    try. *)
Definition world_networks : list call -> call -> outcome pyval :=
  world_of [("data_utils.rand_name", Ret (PStr "smoke-1"));
            ("network_client.create_network",
             Ret (PDict [("network", smoke_network)]));
            ("network_client.create_router",
             Ret (PDict [("router", smoke_router)]));
            ("admin_manager.network_client.list_subnets",
             Ret (PDict [("subnets", PList [])]));
            ("network_client.create_subnet",
             Ret (PDict [("subnet", smoke_subnet)]))].








(** * Properties *)

(** ** Running computations *)

Lemma bind_eq {A B} (m : M A) (k : A -> M B) s :
  bind m k s =
  match m s with
  | (Ret a, s') => k a s'
  | (Raise e, s') => (Raise e, s')
  end.
Proof. reflexivity. Qed.

Lemma invoke_eq c s : invoke c s = (remote (trace s) c, log_call c s).
Proof. reflexivity. Qed.

Lemma trace_log_call c s : trace (log_call c s) = trace s ++ [c].
Proof. reflexivity. Qed.

(** ** The delete wrapper *)

Lemma delete_wrapper_run f a kw s :
  delete_wrapper (ACall f) a kw s =
  (match remote (trace s) (ext_call f a kw) with
   | Ret _ => Ret tt
   | Raise e => if is_NotFound e then Ret tt else Raise e
   end, log_call (ext_call f a kw) s).
Proof.
  unfold delete_wrapper, try_except, call_ext, bind, invoke, ret.
  destruct (remote (trace s) (ext_call f a kw)) as [v|e]; [reflexivity|].
  destruct (is_NotFound e); reflexivity.
Qed.

(** C3: when the wrapped delete call raises, [delete_wrapper] returns
    normally if the exception is NotFound (the resource is already absent)
    and raises the very same exception otherwise. *)
Theorem delete_wrapper_idempotent f a kw s e :
  remote (trace s) (ext_call f a kw) = Raise e ->
  result_of (delete_wrapper (ACall f) a kw) s =
  match e with
  | NotFound _ => Ret tt
  | _ => Raise e
  end.
Proof.
  intros H. unfold result_of. rewrite delete_wrapper_run, H. simpl.
  destruct e; reflexivity.
Qed.

(** ** Draining the wait descriptors *)

Lemma wait_loop_cons i w rest s c :
  wait_call w = Some c ->
  exists s1,
    trace s1 = trace s /\ _cleanups s1 = _cleanups s /\
    wait_loop i (w :: rest) s =
    match remote (trace s) c with
    | Ret _ => wait_loop (S i) rest (log_call c s1)
    | Raise e => (Raise e, log_call c s1)
    end.
Proof.
  unfold wait_call. intros H. simpl.
  destruct (dict_pop w "waiter_callable") as [[[v|f] w']|]; try discriminate.
  injection H as <-.
  eexists (set_cleanup_waits (list_set (cleanup_waits s) i w') s).
  split; [reflexivity|]. split; [reflexivity|].
  unfold bind, modify, call_ext, invoke, ret. simpl.
  destruct (remote (trace s) (ext_call f [] w')); reflexivity.
Qed.

Lemma wait_calls_cons w ws c :
  wait_call w = Some c -> wait_calls (w :: ws) = c :: wait_calls ws.
Proof. intros H. unfold wait_calls. simpl. rewrite H. reflexivity. Qed.

Lemma wait_calls_app l1 l2 : wait_calls (l1 ++ l2) = wait_calls l1 ++ wait_calls l2.
Proof. unfold wait_calls. apply flat_map_app. Qed.

Lemma wait_loop_stops l1 : forall i s w l2 c e,
  forallb (fun w => is_some (wait_call w)) l1 = true ->
  wait_call w = Some c ->
  all_return (trace s) (wait_calls l1) = true ->
  remote (trace s ++ wait_calls l1) c = Raise e ->
  result_of (wait_loop i (l1 ++ w :: l2)) s = Raise e /\
  trace (state_after (wait_loop i (l1 ++ w :: l2)) s)
    = trace s ++ wait_calls l1 ++ [c].
Proof.
  induction l1 as [|w1 l1 IH]; intros i s w l2 c e Hwf Hw Hret Hraise.
  - change (wait_calls []) with (@nil call) in *.
    change ([] ++ w :: l2) with (w :: l2).
    rewrite app_nil_r in Hraise.
    destruct (wait_loop_cons i w l2 s c Hw) as (s1 & Ht & _ & E).
    unfold result_of, state_after. rewrite E, Hraise.
    split; [reflexivity|]. simpl. rewrite Ht. reflexivity.
  - simpl in Hwf. apply andb_true_iff in Hwf as [Hw1 Hwf].
    destruct (wait_call w1) as [c1|] eqn:E1; [|discriminate].
    rewrite (wait_calls_cons _ _ _ E1) in *.
    simpl in Hret. apply andb_true_iff in Hret as [Hr1 Hret].
    unfold returns in Hr1.
    destruct (wait_loop_cons i w1 (l1 ++ w :: l2) s c1 E1) as (s1 & Ht & _ & E).
    unfold result_of, state_after. simpl app. rewrite E.
    destruct (remote (trace s) c1); [|discriminate].
    specialize (IH (S i) (log_call c1 s1) w l2 c e Hwf Hw).
    rewrite trace_log_call, Ht in IH.
    rewrite <- app_assoc in IH. simpl in IH.
    destruct (IH Hret Hraise) as [R T]. split; [exact R|].
    unfold state_after in T. rewrite T. rewrite <- app_assoc. reflexivity.
Qed.

Lemma wait_loop_prefix l : forall i s,
  forallb (fun w => is_some (wait_call w)) l = true ->
  exists k,
    k <= List.length (wait_calls l) /\
    trace (state_after (wait_loop i l) s) = trace s ++ firstn k (wait_calls l) /\
    _cleanups (state_after (wait_loop i l) s) = _cleanups s /\
    (all_return (trace s) (wait_calls l) = true ->
     k = List.length (wait_calls l) /\ result_of (wait_loop i l) s = Ret tt) /\
    (l <> [] -> 1 <= k).
Proof.
  induction l as [|w l IH]; intros i s Hwf.
  - exists 0. simpl. rewrite app_nil_r. repeat split; auto. congruence.
  - simpl in Hwf. apply andb_true_iff in Hwf as [Hw Hwf].
    destruct (wait_call w) as [c|] eqn:E1; [|discriminate].
    rewrite (wait_calls_cons _ _ _ E1).
    destruct (wait_loop_cons i w l s c E1) as (s1 & Ht & Hc & E).
    unfold result_of, state_after in *. rewrite E.
    destruct (remote (trace s) c) as [v|e] eqn:R.
    + destruct (IH (S i) (log_call c s1) Hwf) as (k & Hk & T & C & A & _).
      exists (S k). simpl. split; [lia|]. split.
      * rewrite T, trace_log_call, Ht, <- app_assoc. reflexivity.
      * split; [rewrite C; exact Hc|]. split; [|lia].
        unfold returns. rewrite R. simpl. intros H.
        rewrite trace_log_call, Ht in A. destruct (A H) as [-> ->]. auto.
    + exists 1. simpl. split; [lia|]. split.
      * rewrite Ht. reflexivity.
      * split; [exact Hc|]. split; [|lia].
        unfold returns. rewrite R. discriminate.
Qed.

(** C10: when the waiter of a descriptor raises during the drain, while
    those before it returned, [_wait_for_cleanups] raises that exception
    at once: the log ends with the failed wait and none of the descriptors
    registered after it is waited on. *)
Theorem drain_stops_at_first_failure s l1 w l2 c e :
  cleanup_waits s = l1 ++ w :: l2 ->
  forallb (fun w => is_some (wait_call w)) l1 = true ->
  wait_call w = Some c ->
  all_return (trace s) (wait_calls l1) = true ->
  remote (trace s ++ wait_calls l1) c = Raise e ->
  result_of _wait_for_cleanups s = Raise e /\
  trace (state_after _wait_for_cleanups s) = trace s ++ wait_calls l1 ++ [c].
Proof.
  intros Hs Hwf Hw Hret Hraise.
  unfold _wait_for_cleanups, result_of, state_after, bind, gets.
  rewrite Hs. exact (wait_loop_stops l1 0 s w l2 c e Hwf Hw Hret Hraise).
Qed.

(** ** Teardown of the ledger *)

Lemma run_cleanup_simple c e s :
  cleanup_call c = Some e ->
  trace (state_after (run_cleanup c) s) = trace s ++ [e] /\
  cleanup_waits (state_after (run_cleanup c) s) = cleanup_waits s /\
  _cleanups (state_after (run_cleanup c) s) = _cleanups s.
Proof.
  destruct c as [f a kw]. unfold cleanup_call, run_cleanup, state_after. simpl.
  destruct f as [f| |]; [| |discriminate].
  - intros [= <-]. unfold bind, call_ext, invoke, ret.
    destruct (remote (trace s) (ext_call f a kw)); simpl; auto.
  - destruct a as [|[v|f] a]; try discriminate.
    intros [= <-]. rewrite delete_wrapper_run. simpl. auto.
Qed.

Lemma run_cleanups_returns todo : forall s,
  exists errs, result_of (run_cleanups todo) s = Ret errs.
Proof.
  induction todo as [|c todo IH]; intros s; [eexists; reflexivity|].
  unfold result_of. simpl. unfold bind, modify, attempt.
  destruct (run_cleanup c _) as [r s1].
  destruct (IH s1) as [errs E]. unfold result_of in E.
  destruct (run_cleanups todo s1) as [r2 s2]. simpl in E. subst r2.
  eexists. reflexivity.
Qed.

Lemma cleanup_calls_cons c cs e :
  cleanup_call c = Some e -> cleanup_calls (c :: cs) = e :: cleanup_calls cs.
Proof. intros H. unfold cleanup_calls. simpl. rewrite H. reflexivity. Qed.

Lemma run_cleanups_simple todo : forall rest s,
  forallb (fun c => is_some (cleanup_call c)) todo = true ->
  exists s1,
    trace s1 = trace s ++ cleanup_calls todo /\
    cleanup_waits s1 = cleanup_waits s /\
    state_after (run_cleanups (todo ++ rest)) s = state_after (run_cleanups rest) s1.
Proof.
  induction todo as [|c todo IH]; intros rest s Hwf.
  - exists s. simpl. rewrite app_nil_r. auto.
  - simpl in Hwf. apply andb_true_iff in Hwf as [Hc Hwf].
    destruct (cleanup_call c) as [e|] eqn:E; [|discriminate].
    rewrite (cleanup_calls_cons _ _ _ E).
    set (s0 := set__cleanups (removelast (_cleanups s)) s).
    destruct (run_cleanup_simple c e s0 E) as (T & W & _).
    destruct (IH rest (state_after (run_cleanup c) s0) Hwf) as (s1 & T1 & W1 & R1).
    exists s1. split; [|split].
    + rewrite T1, T. unfold s0. simpl. rewrite <- app_assoc. reflexivity.
    + rewrite W1, W. reflexivity.
    + rewrite <- R1. unfold state_after. simpl.
      unfold bind at 1, modify. fold s0.
      unfold bind at 1, attempt.
      destruct (run_cleanup c s0) as [r sa]. simpl.
      unfold bind at 1.
      destruct (run_cleanups (todo ++ rest) sa) as [[errs|e2] sb]; reflexivity.
Qed.

Lemma cleanup_calls_rev cs : cleanup_calls (rev cs) = rev (cleanup_calls cs).
Proof.
  unfold cleanup_calls. induction cs as [|c cs IH]; [reflexivity|].
  simpl. rewrite flat_map_app, IH. simpl. rewrite app_nil_r.
  destruct (cleanup_call c); simpl; [reflexivity|]. apply app_nil_r.
Qed.

Lemma run_cleanups_drain s :
  state_after (run_cleanups [drain_entry]) s
  = state_after (wait_loop 0 (cleanup_waits s))
                (set__cleanups (removelast (_cleanups s)) s).
Proof.
  unfold state_after. cbn [run_cleanups].
  unfold run_cleanup, _wait_for_cleanups.
  cbn [function args kwargs drain_entry].
  unfold bind, modify, attempt, gets, ret.
  change (cleanup_waits (set__cleanups (removelast (_cleanups s)) s))
    with (cleanup_waits s).
  destruct (wait_loop 0 (cleanup_waits s) _) as [[u|e] s3]; reflexivity.
Qed.

(** Teardown from a state whose ledger starts with the drain: the
    synchronous entries run last registered first, then the descriptors
    are waited on in order, up to the first waiter that raises. *)
Lemma doCleanups_order s cs :
  _cleanups s = drain_entry :: cs ->
  forallb (fun c => is_some (cleanup_call c)) cs = true ->
  forallb (fun w => is_some (wait_call w)) (cleanup_waits s) = true ->
  exists k,
    k <= List.length (wait_calls (cleanup_waits s)) /\
    trace (state_after doCleanups s)
      = trace s ++ rev (cleanup_calls cs)
        ++ firstn k (wait_calls (cleanup_waits s)) /\
    (all_return (trace s ++ rev (cleanup_calls cs))
                (wait_calls (cleanup_waits s)) = true ->
     k = List.length (wait_calls (cleanup_waits s))) /\
    (cleanup_waits s <> [] -> 1 <= k).
Proof.
  intros Hc Hcs Hws.
  assert (E : state_after doCleanups s
              = state_after (run_cleanups (rev cs ++ [drain_entry])) s).
  { unfold doCleanups, state_after, bind, gets. rewrite Hc. reflexivity. }
  rewrite E. clear E.
  assert (Hrev : forallb (fun c => is_some (cleanup_call c)) (rev cs) = true).
  { rewrite forallb_forall in *. intros c Hin. apply Hcs.
    apply in_rev. exact Hin. }
  destruct (run_cleanups_simple (rev cs) [drain_entry] s Hrev)
    as (s1 & T1 & W1 & R1).
  rewrite R1, run_cleanups_drain. clear R1.
  rewrite cleanup_calls_rev in T1.
  set (s2 := set__cleanups (removelast (_cleanups s1)) s1).
  rewrite W1.
  destruct (wait_loop_prefix (cleanup_waits s) 0 s2 Hws)
    as (k & Hk & T & _ & A & N).
  exists k. split; [exact Hk|].
  change (trace s2) with (trace s1) in T, A. rewrite T1 in T, A.
  split; [|split].
  - rewrite T, <- app_assoc. reflexivity.
  - intros H. apply A in H. tauto.
  - exact N.
Qed.

Lemma register_all_spec rs : forall s,
  result_of (register_all rs) s = Ret tt /\
  _cleanups (state_after (register_all rs) s) = _cleanups s ++ map action_of rs /\
  cleanup_waits (state_after (register_all rs) s)
    = cleanup_waits s ++ descriptors rs /\
  trace (state_after (register_all rs) s) = trace s.
Proof.
  induction rs as [|r rs IH]; intros s.
  - simpl. rewrite !app_nil_r. auto.
  - unfold result_of, state_after in *. simpl register_all.
    rewrite bind_eq.
    assert (E : exists s1, register r s = (Ret tt, s1) /\
              _cleanups s1 = _cleanups s ++ [action_of r] /\
              cleanup_waits s1 = cleanup_waits s ++ some_list (descriptor_of r) /\
              trace s1 = trace s).
    { destruct r as [[f a kw]|w i p c a kw];
        cbv [register addCleanup_with_wait addCleanup bind modify];
        eexists; (split; [reflexivity|]); simpl; rewrite ?app_nil_r; auto. }
    destruct E as (s1 & -> & C & W & T).
    destruct (IH s1) as (R & C' & W' & T').
    split; [exact R|]. rewrite C', W', T', C, W, T.
    unfold descriptors. simpl. rewrite <- !app_assoc. auto.
Qed.

Lemma wait_call_descriptor w i p :
  String.eqb "waiter_callable" p = false ->
  wait_call (dict_set [("waiter_callable", ACall w)] p (AVal i))
  = Some (ext_call w [] [(p, AVal i)]).
Proof.
  intros H. unfold wait_call, dict_pop. cbn [dict_set]. rewrite H.
  cbn [dict_get dict_remove]. rewrite String.eqb_refl.
  rewrite String.eqb_sym in H. rewrite H. reflexivity.
Qed.

Lemma well_formed_descriptors rs :
  forallb well_formed rs = true ->
  forallb (fun w => is_some (wait_call w)) (descriptors rs) = true /\
  wait_calls (descriptors rs) = waiter_calls rs /\
  forallb (fun c => is_some (cleanup_call c)) (map action_of rs) = true.
Proof.
  unfold descriptors, waiter_calls, wait_calls.
  induction rs as [|r rs IH]; intros H; [auto|].
  simpl in H. apply andb_true_iff in H as [Hr H].
  destruct (IH H) as (A & B & C). clear IH.
  unfold well_formed in Hr. cbn [flat_map map forallb].
  destruct (cleanup_call (action_of r)) eqn:E; [|discriminate].
  destruct r as [c0|w i p c0 a kw]; cbn [descriptor_of waiter_call_of some_list app].
  - auto.
  - apply negb_true_iff in Hr. cbn [flat_map forallb].
    rewrite (wait_call_descriptor w i p Hr). cbn [some_list app is_some andb].
    rewrite B. auto.
Qed.

(** C1: after [setUp] and any sequence of well-formed registrations,
    teardown logs first the synchronous actions in exact reverse
    registration order (the delete call of every wait-then-delete
    registration among them), and only then the waiter calls of the
    descriptors, in registration order, up to the first one that raises;
    when every waiter returns, all of them are waited on. *)
Theorem teardown_order rs s0 :
  _cleanups s0 = [] ->
  forallb well_formed rs = true ->
  exists k,
    k <= List.length (waiter_calls rs) /\
    trace (state_after (setUp ;; register_all rs ;; doCleanups) s0)
      = trace s0 ++ rev (sync_calls rs) ++ firstn k (waiter_calls rs) /\
    (all_return (trace s0 ++ rev (sync_calls rs)) (waiter_calls rs) = true ->
     k = List.length (waiter_calls rs)).
Proof.
  intros H0 Hwf.
  destruct (well_formed_descriptors rs Hwf) as (Hd & Hw & Hc).
  unfold state_after. rewrite bind_eq.
  set (s1 := mkState [drain_entry] [] (trace s0) (keypair s0) (instance s0) (node s0)).
  assert (E : setUp s0 = (Ret tt, s1)).
  { unfold setUp, addCleanup, bind, modify. simpl. rewrite H0. reflexivity. }
  rewrite E. rewrite bind_eq.
  destruct (register_all_spec rs s1) as (R & C & W & T).
  unfold result_of, state_after in R, C, W, T.
  destruct (register_all rs s1) as [r s2]. simpl in R, C, W, T. subst r.
  destruct (doCleanups_order s2 (map action_of rs)) as (k & Hk & Tr & A & _).
  - rewrite C. reflexivity.
  - exact Hc.
  - rewrite W. exact Hd.
  - rewrite W in *. simpl in *. rewrite Hw in *. rewrite T in *.
    exists k. unfold sync_calls. auto.
Qed.

(** ** Server creation *)

Ltac crunch :=
  repeat (cbn [fst snd trace _cleanups cleanup_waits log_call set__cleanups
               set_cleanup_waits default] in *;
    match goal with
    | |- context [remote ?t ?c] =>
        let E := fresh "R" in destruct (remote t c) eqn:E
    | |- context [item ?v ?k] =>
        let E := fresh "I" in destruct (item v k) eqn:E
    | |- context [attr ?v ?k] =>
        let E := fresh "I" in destruct (attr v k) eqn:E
    | |- context [proxy ?v] =>
        let E := fresh "I" in destruct (proxy v) eqn:E
    | |- context [if ?b then _ else _] =>
        let E := fresh "B" in destruct b eqn:E
    end).

Ltac trace_tail :=
  cbn [fst snd trace log_call set__cleanups set_cleanup_waits];
  first [ exists []; split; [symmetry; apply app_nil_r | constructor]
        | rewrite <- ?app_assoc; eexists;
          split; [reflexivity
                 | repeat (apply Forall_cons; [cbn; auto|]); apply Forall_nil] ].

(** Whatever happens after the identifier of the new server is known, the
    ledger holds its delete action and its wait descriptor; otherwise
    nothing was registered, [create_server] raised, and neither the
    readiness wait nor the second fetch was reached. *)
Lemma create_server_ledger name image flavor wob wod kw s :
  (exists id,
     _cleanups (state_after (create_server name image flavor wob wod kw) s)
       = _cleanups s ++ server_cleanups wod id /\
     cleanup_waits (state_after (create_server name image flavor wob wod kw) s)
       = cleanup_waits s ++ [server_wait id])
  \/
  ((exists e, result_of (create_server name image flavor wob wod kw) s = Raise e) /\
   _cleanups (state_after (create_server name image flavor wob wod kw) s)
     = _cleanups s /\
   cleanup_waits (state_after (create_server name image flavor wob wod kw) s)
     = cleanup_waits s /\
   exists new,
     trace (state_after (create_server name image flavor wob wod kw) s)
       = trace s ++ new /\
     Forall (fun c => target c = "data_utils.rand_name" \/
                      target c = "servers_client.create_server") new).
Proof.
  unfold result_of, state_after, create_server, rand_name,
    addCleanup_with_wait, addCleanup, assertEqual, getitem.
  cbv [bind invoke lift ret raise modify].
  destruct name as [n|]; crunch.
  all: try (left; eexists; split; cbn; rewrite <- ?app_assoc; reflexivity).
  all: right; split; [eexists; reflexivity|]; split; [reflexivity|];
    split; [reflexivity|].
  all: trace_tail.
Qed.

(** C9: once [create_server] has returned, [cleanup_waits] holds the
    termination descriptor of the new server whatever [wait_on_delete] is;
    at teardown the delete call is issued, then, when [wait_on_delete] is
    set, [wait_for_server_termination] is called on the server in the
    synchronous phase, and it is called (again) on the same server by the
    drain. *)
Theorem create_server_waits_twice name image flavor wob wod kw s0 server :
  _cleanups s0 = [] ->
  result_of (setUp ;; create_server name image flavor wob wod kw) s0
    = Ret server ->
  exists id,
    cleanup_waits (state_after (setUp ;; create_server name image flavor wob wod kw) s0)
      = [server_wait id] /\
    trace (state_after
             doCleanups
             (state_after (setUp ;; create_server name image flavor wob wod kw) s0))
      = trace (state_after (setUp ;; create_server name image flavor wob wod kw) s0)
        ++ [Call "servers_client.delete_server" [AVal id] []]
        ++ (if wod
            then [Call "servers_client.wait_for_server_termination" [AVal id] []]
            else [])
        ++ [Call "servers_client.wait_for_server_termination" []
                 [("server_id", AVal id)]].
Proof.
  intros H0 Hret.
  set (s1 := mkState [drain_entry] [] (trace s0) (keypair s0) (instance s0) (node s0)).
  assert (E : setUp s0 = (Ret tt, s1)).
  { unfold setUp, addCleanup, bind, modify. simpl. rewrite H0. reflexivity. }
  unfold result_of, state_after in *. rewrite bind_eq in *. rewrite E in *.
  destruct (create_server_ledger name image flavor wob wod kw s1)
    as [(id & C & W) | ((e & He) & _)].
  2:{ unfold result_of in He. rewrite He in Hret. discriminate. }
  unfold state_after in C, W.
  destruct (create_server name image flavor wob wod kw s1) as [r s2].
  cbn [fst snd] in *. simpl in C, W.
  exists id. split; [exact W|].
  destruct (doCleanups_order s2 (server_cleanups wod id)) as (k & Hk & T & _ & N).
  - exact C.
  - destruct wod; reflexivity.
  - rewrite W. reflexivity.
  - rewrite W in *. cbn in Hk, T, N.
    assert (k = 1) by (specialize (N ltac:(discriminate)); lia). subst k.
    unfold state_after in T. rewrite T. destruct wod; reflexivity.
Qed.

(** ** What a computation adds to the log *)

Lemma emits_ret {A} P (a : A) : emits P (ret a).
Proof. intros s. exists []. rewrite app_nil_r. auto. Qed.

Lemma emits_raise {A} P e : emits P (@raise A e).
Proof. intros s. exists []. rewrite app_nil_r. auto. Qed.

Lemma emits_lift {A} P (o : outcome A) : emits P (lift o).
Proof. intros s. exists []. rewrite app_nil_r. auto. Qed.

Lemma emits_gets {A} P (f : state -> A) : emits P (gets f).
Proof. intros s. exists []. rewrite app_nil_r. auto. Qed.

Lemma emits_invoke (P : call -> Prop) c : P c -> emits P (invoke c).
Proof. intros H s. exists [c]. auto. Qed.

Lemma emits_bind {A B} P (m : M A) (k : A -> M B) :
  emits P m -> (forall a, emits P (k a)) -> emits P (bind m k).
Proof.
  intros Hm Hk s. destruct (Hm s) as (n1 & T1 & F1).
  unfold state_after in *. rewrite bind_eq.
  destruct (m s) as [[a|e] s1]; simpl in T1.
  - destruct (Hk a s1) as (n2 & T2 & F2). unfold state_after in T2.
    exists (n1 ++ n2).
    rewrite T2, T1, app_assoc. split; [reflexivity|].
    apply Forall_app; auto.
  - exists n1. auto.
Qed.

Lemma emits_try_except {A} P (m : M A) caught handler :
  emits P m -> (forall e, emits P (handler e)) ->
  emits P (try_except m caught handler).
Proof.
  intros Hm Hh s. destruct (Hm s) as (n1 & T1 & F1).
  unfold state_after, try_except in *.
  destruct (m s) as [[a|e] s1]; simpl in T1; [exists n1; auto|].
  destruct (caught e); [|exists n1; auto].
  destruct (Hh e s1) as (n2 & T2 & F2). unfold state_after in T2.
  exists (n1 ++ n2).
  rewrite T2, T1, app_assoc. split; [reflexivity|]. apply Forall_app; auto.
Qed.

Lemma emits_poll (P : call -> Prop) n func sleep_for :
  emits P func ->
  P (Call "time.sleep" [AVal (PInt sleep_for)] []) ->
  emits P (poll n func sleep_for).
Proof.
  intros Hf Hs. induction n as [|n IH]; simpl; [apply emits_ret|].
  apply emits_bind; [exact Hf|]. intros [|]; [apply emits_ret|].
  apply emits_bind; [apply emits_invoke; exact Hs|]. intros _. exact IH.
Qed.

Lemma emits_assertTrue P b msg : emits P (assertTrue b msg).
Proof. destruct b; [apply emits_ret | apply emits_raise]. Qed.

(** ** Connectivity checks *)

Lemma ping_not_ssh ip : ~ is_ssh (ping_call ip).
Proof. unfold is_ssh. simpl. discriminate. Qed.

Lemma sleep_not_ssh z : ~ is_ssh (Call "time.sleep" [AVal (PInt z)] []).
Proof. unfold is_ssh. simpl. discriminate. Qed.

Lemma poll_S n func sleep_for s :
  poll (S n) func sleep_for s =
  match func s with
  | (Ret true, s1) => (Ret true, s1)
  | (Ret false, s1) =>
      match remote (trace s1) (Call "time.sleep" [AVal (PInt sleep_for)] []) with
      | Ret _ =>
          poll n func sleep_for
               (log_call (Call "time.sleep" [AVal (PInt sleep_for)] []) s1)
      | Raise e =>
          (Raise e, log_call (Call "time.sleep" [AVal (PInt sleep_for)] []) s1)
      end
  | (Raise e, s1) => (Raise e, s1)
  end.
Proof.
  cbn [poll]. unfold bind at 1. destruct (func s) as [[[|]|e] s1]; reflexivity.
Qed.

Lemma ping_eq ip should_succeed s :
  ping ip should_succeed s =
  (match remote (trace s) (ping_call ip) with
   | Ret rc => Ret (Bool.eqb (pyval_eqb rc (PInt 0)) should_succeed)
   | Raise e => Raise e
   end, log_call (ping_call ip) s).
Proof.
  unfold ping, bind, invoke, ret. fold (ping_call ip).
  destruct (remote (trace s) (ping_call ip)); reflexivity.
Qed.

(** Polling with ping: nothing but pings and sleeps is logged, and a
    positive answer comes from a last ping whose outcome matched. *)
Lemma poll_ping ip should_succeed n : forall s,
  exists new,
    trace (state_after (poll n (ping ip should_succeed) 1) s) = trace s ++ new /\
    Forall (fun c => ~ is_ssh c) new /\
    (result_of (poll n (ping ip should_succeed) 1) s = Ret true ->
     exists pre rc,
       new = pre ++ [ping_call ip] /\
       remote (trace s ++ pre) (ping_call ip) = Ret rc /\
       pyval_eqb rc (PInt 0) = should_succeed).
Proof.
  induction n as [|n IH]; intros s.
  - exists []. simpl. rewrite app_nil_r. repeat split; auto. discriminate.
  - unfold result_of, state_after in *. rewrite poll_S, ping_eq.
    destruct (remote (trace s) (ping_call ip)) as [rc|e] eqn:R.
    + destruct (Bool.eqb (pyval_eqb rc (PInt 0)) should_succeed) eqn:E.
      * exists [ping_call ip]. simpl. split; [reflexivity|].
        split; [constructor; [apply ping_not_ssh|constructor]|].
        intros _. exists [], rc. rewrite app_nil_r.
        apply eqb_prop in E. auto.
      * destruct (remote _ (Call "time.sleep" _ _)) as [v|e].
        -- destruct (IH (log_call (Call "time.sleep" [AVal (PInt 1)] [])
                                  (log_call (ping_call ip) s)))
             as (new & T & F & H).
           exists (ping_call ip :: Call "time.sleep" [AVal (PInt 1)] [] :: new).
           split; [rewrite T; simpl; rewrite <- !app_assoc; reflexivity|].
           split.
           ++ constructor; [apply ping_not_ssh|].
              constructor; [apply sleep_not_ssh|exact F].
           ++ intros Ht. destruct (H Ht) as (pre & rc' & -> & Rr & Er).
              exists (ping_call ip :: Call "time.sleep" [AVal (PInt 1)] [] :: pre), rc'.
              split; [reflexivity|]. split; [|exact Er].
              simpl in Rr. rewrite <- !app_assoc in Rr. exact Rr.
        -- exists [ping_call ip; Call "time.sleep" [AVal (PInt 1)] []].
           simpl. rewrite <- app_assoc. split; [reflexivity|].
           split; [|discriminate].
           constructor; [apply ping_not_ssh|].
           constructor; [apply sleep_not_ssh|constructor].
    + exists [ping_call ip]. simpl. split; [reflexivity|].
      split; [|discriminate]. constructor; [apply ping_not_ssh|constructor].
Qed.

(** C8: with [should_connect=False] the log gains no ssh step; and
    whenever an ssh step is logged, [should_connect] is true and the step
    comes after a ping that exited with code 0. *)
Theorem ssh_only_after_positive_ping ip username private_key should_connect s :
  exists new,
    trace (state_after
             (check_vm_connectivity ip username private_key should_connect) s)
      = trace s ++ new /\
    (should_connect = false -> Forall (fun c => ~ is_ssh c) new) /\
    (forall c, In c new -> is_ssh c ->
       should_connect = true /\
       exists pre rc post,
         new = pre ++ ping_call ip :: post /\
         remote (trace s ++ pre) (ping_call ip) = Ret rc /\
         pyval_eqb rc (PInt 0) = true /\
         In c post).
Proof.
  unfold check_vm_connectivity, ping_ip_address, call_until_true.
  set (n := attempts _ 1).
  destruct (poll_ping ip should_connect n s) as (new1 & T1 & F1 & H1).
  unfold result_of, state_after in *. rewrite bind_eq.
  destruct (poll n _ 1 s) as [[b|e] s1]; cbn [fst snd] in *.
  2:{ exists new1. split; [exact T1|]. split; [auto|].
      intros c Hin Hs. rewrite Forall_forall in F1. destruct (F1 c Hin Hs). }
  destruct b; cbn [assertTrue].
  2:{ rewrite bind_eq. unfold raise. cbn [snd].
      exists new1. split; [exact T1|]. split; [auto|].
      intros c Hin Hs. rewrite Forall_forall in F1. destruct (F1 c Hin Hs). }
  rewrite bind_eq. unfold ret at 1.
  destruct should_connect.
  - destruct (H1 eq_refl) as (pre & rc & -> & R & E).
    set (m := bind _ _).
    assert (T2 : exists new2, trace (snd (m s1)) = trace s1 ++ new2).
    { clear. revert s1.
      assert (Hm : emits (fun _ => True) m).
      { unfold m, get_remote_client, log_net_debug.
        repeat first [ apply emits_bind; [|intros ?]
                     | apply emits_try_except; [|intros ?]
                     | apply emits_ret | apply emits_raise | apply emits_gets
                     | apply emits_invoke; exact I
                     | apply emits_lift
                     | match goal with |- emits _ (match ?x with _ => _ end) =>
                         destruct x end
                     | unfold getitem ].
      }
      intros s1. destruct (Hm s1) as (new2 & T & _). exists new2. exact T. }
    destruct T2 as (new2 & T2).
    exists ((pre ++ [ping_call ip]) ++ new2).
    split; [rewrite T2, T1, <- !app_assoc; reflexivity|].
    split; [discriminate|].
    intros c Hin Hs. split; [reflexivity|].
    exists pre, rc, new2. rewrite <- app_assoc. simpl.
    repeat split; auto.
    apply in_app_or in Hin as [Hin|Hin]; [|exact Hin].
    rewrite Forall_forall in F1. destruct (F1 c Hin Hs).
  - unfold ret. cbn [snd]. exists new1. split; [exact T1|]. split; [auto|].
    intros c Hin Hs. rewrite Forall_forall in F1. destruct (F1 c Hin Hs).
Qed.

Lemma emits_log_console_output servers :
  emits (fun c => is_diagnostic c /\ c <> net_debug_call)
        (_log_console_output servers).
Proof.
  assert (L : forall l, emits (fun c => is_diagnostic c /\ c <> net_debug_call)
                              (console_loop l)).
  { induction l as [|sv rest IH]; simpl; [apply emits_ret|].
    apply emits_bind; [apply emits_lift|]. intros id.
    apply emits_bind; [|intros _; exact IH].
    apply emits_invoke. split; [right; left; reflexivity|discriminate]. }
  unfold _log_console_output.
  destruct (negb _); [apply emits_ret|].
  apply emits_bind.
  - destruct (truthy _); [apply emits_ret|].
    apply emits_bind; [|intros ?; apply emits_lift].
    apply emits_invoke. split; [left; reflexivity|discriminate].
  - intros sv. apply emits_bind; [apply emits_lift|]. intros l. apply L.
Qed.

(** C7, as the code has it: when the connectivity check fails with [e], the
    checker runs the diagnostic capture (console output, then the network
    snapshot unless [e] is an ssh timeout) and raises [e] again if the
    capture returns; if the capture itself raises, that exception
    propagates in place of [e]. *)
Theorem failure_then_diagnostics ip username private_key should_connect msg
    servers s e s1 :
  check_vm_connectivity ip username private_key should_connect s = (Raise e, s1) ->
  (result_of (diagnostics servers e) s1 = Ret tt ->
   result_of (check_public_network_connectivity
                ip username private_key should_connect msg servers) s = Raise e) /\
  (forall e', result_of (diagnostics servers e) s1 = Raise e' ->
   result_of (check_public_network_connectivity
                ip username private_key should_connect msg servers) s = Raise e') /\
  exists new,
    trace (state_after (check_public_network_connectivity
                          ip username private_key should_connect msg servers) s)
      = trace s1 ++ new /\
    Forall is_diagnostic new /\
    (is_SSHTimeout e = true -> ~ In net_debug_call new) /\
    (is_SSHTimeout e = false ->
     result_of (_log_console_output servers) s1 = Ret tt ->
     exists cap, new = cap ++ [net_debug_call]).
Proof.
  intros H.
  assert (E : check_public_network_connectivity
                ip username private_key should_connect msg servers s
              = match diagnostics servers e s1 with
                | (Ret _, s2) => (Raise e, s2)
                | (Raise e', s2) => (Raise e', s2)
                end).
  { unfold check_public_network_connectivity, try_except, diagnostics.
    rewrite H. rewrite !bind_eq.
    destruct (_log_console_output servers s1) as [[u|e1] s2]; [|reflexivity].
    rewrite bind_eq.
    destruct (negb (is_SSHTimeout e)); [|reflexivity].
    destruct (log_net_debug s2) as [[u2|e2] s3]; reflexivity. }
  unfold result_of, state_after. rewrite E.
  split; [|split].
  - intros D. destruct (diagnostics servers e s1) as [[u|e1] s2];
      [reflexivity|discriminate].
  - intros e' D. destruct (diagnostics servers e s1) as [[u|e1] s2];
      [discriminate|]. simpl in D |- *. congruence.
  - assert (S2 : snd (match diagnostics servers e s1 with
                      | (Ret _, s2) => (@Raise unit e, s2)
                      | (Raise e', s2) => (Raise e', s2)
                      end) = snd (diagnostics servers e s1)).
    { destruct (diagnostics servers e s1) as [[u|e1] s2]; reflexivity. }
    rewrite S2. clear S2 E.
    unfold diagnostics. rewrite bind_eq.
    destruct (emits_log_console_output servers s1) as (n1 & T1 & F1).
    unfold state_after in T1.
    destruct (_log_console_output servers s1) as [[u|e1] s2]; simpl in T1.
    + destruct (is_SSHTimeout e); cbn [negb].
      * exists n1. split; [exact T1|]. split.
        { eapply Forall_impl; [|exact F1]. intros c [Hc _]. exact Hc. }
        split; [|discriminate].
        intros _ Hin. rewrite Forall_forall in F1.
        destruct (F1 _ Hin) as [_ N]. apply N. reflexivity.
      * exists (n1 ++ [net_debug_call]).
        unfold log_net_debug. rewrite bind_eq, invoke_eq.
        fold net_debug_call.
        split.
        { destruct (remote (trace s2) net_debug_call); simpl;
            rewrite T1, <- app_assoc; reflexivity. }
        split.
        { apply Forall_app. split.
          - eapply Forall_impl; [|exact F1]. intros c [Hc _]. exact Hc.
          - constructor; [right; right; reflexivity|constructor]. }
        split; [discriminate|]. intros _ _. exists n1. reflexivity.
    + exists n1. split; [exact T1|]. split.
      { eapply Forall_impl; [|exact F1]. intros c [Hc _]. exact Hc. }
      split.
      * intros _ Hin. rewrite Forall_forall in F1.
        destruct (F1 _ Hin) as [_ N]. apply N. reflexivity.
      * intros _ D. discriminate.
Qed.

(** ** Loginable security group rules *)

Lemma directions_loop_cons client secgroup ruleset d rest rules s :
  directions_loop client secgroup ruleset (d :: rest) rules s =
  match _create_security_group_rule
          secgroup (Some client) None
          (dict_set ruleset "direction" (AVal (PStr d))) s with
  | (Ret sg_rule, s1) =>
      match attr sg_rule "direction" with
      | Ret dv =>
          if pyval_eqb (PStr d) dv
          then directions_loop client secgroup
                 (dict_set ruleset "direction" (AVal (PStr d))) rest
                 (rules ++ [sg_rule]) s1
          else (Raise (AssertionError (py_str (PStr d) ++ " != " ++ py_str dv)), s1)
      | Raise e => (Raise e, s1)
      end
  | (Raise (Conflict m), s1) =>
      if str_in "Security group rule already exists" m
      then directions_loop client secgroup
             (dict_set ruleset "direction" (AVal (PStr d))) rest rules s1
      else (Raise (Conflict m), s1)
  | (Raise e, s1) => (Raise e, s1)
  end.
Proof.
  cbn [directions_loop]. rewrite bind_eq. unfold try_except at 1.
  rewrite bind_eq.
  destruct (_create_security_group_rule _ _ _ _ s) as [[sg_rule|e] s1].
  - unfold ret at 1. rewrite bind_eq. unfold getattr, lift at 1.
    destruct (attr sg_rule "direction") as [dv|e]; [|reflexivity].
    rewrite bind_eq. unfold assertEqual.
    destruct (pyval_eqb (PStr d) dv); reflexivity.
  - destruct e; try reflexivity. cbn [is_Conflict exn_str].
    destruct (str_in _ _); reflexivity.
Qed.

Lemma directions_loop_never_duplicate dirs : forall client secgroup ruleset rules s m,
  result_of (directions_loop client secgroup ruleset dirs rules) s
    = Raise (Conflict m) ->
  str_in "Security group rule already exists" m = false.
Proof.
  induction dirs as [|d rest IH]; intros client secgroup ruleset rules s m.
  - discriminate.
  - unfold result_of. rewrite directions_loop_cons.
    destruct (_create_security_group_rule _ _ _ _ s) as [[sg_rule|e] s1].
    + destruct (attr sg_rule "direction") as [dv|e] eqn:A.
      * destruct (pyval_eqb (PStr d) dv); [apply IH|discriminate].
      * unfold attr in A. destruct sg_rule; try (injection A as <-; discriminate).
        destruct (dict_get d0 "direction"); [discriminate|].
        injection A as <-. discriminate.
    + destruct e; try discriminate.
      destruct (str_in _ _error_string) eqn:E; [apply IH|].
      simpl. intros [= <-]. exact E.
Qed.

Lemma rulesets_loop_never_duplicate rulesets : forall client secgroup rules s m,
  result_of (rulesets_loop client secgroup rulesets rules) s = Raise (Conflict m) ->
  str_in "Security group rule already exists" m = false.
Proof.
  induction rulesets as [|r rest IH]; intros client secgroup rules s m.
  - discriminate.
  - unfold result_of. cbn [rulesets_loop]. rewrite bind_eq.
    pose proof (directions_loop_never_duplicate
                  ["ingress"; "egress"] client secgroup r rules s) as D.
    unfold result_of in D.
    destruct (directions_loop client secgroup r _ rules s) as [[rules'|e] s1].
    + apply IH.
    + simpl in *. intros [= ->]. apply D. reflexivity.
Qed.

(** C6, neutron variant: creating the loginable rules never fails with
    a Conflict that says the rule already exists; in each turn of the loop
    such a Conflict skips the rule and the loop goes on with the next
    direction, while a Conflict with any other text is raised again. *)
Theorem duplicate_rule_is_skipped :
  (forall client secgroup s m,
     result_of (NetworkScenarioTest__create_loginable_secgroup_rule
                  client secgroup) s = Raise (Conflict m) ->
     str_in "Security group rule already exists" m = false) /\
  (forall client secgroup ruleset d rest rules s m s1,
     _create_security_group_rule secgroup (Some client) None
       (dict_set ruleset "direction" (AVal (PStr d))) s
       = (Raise (Conflict m), s1) ->
     directions_loop client secgroup ruleset (d :: rest) rules s =
     if str_in "Security group rule already exists" m
     then directions_loop client secgroup
            (dict_set ruleset "direction" (AVal (PStr d))) rest rules s1
     else (Raise (Conflict m), s1)).
Proof.
  split.
  - intros client secgroup s m. apply rulesets_loop_never_duplicate.
  - intros client secgroup ruleset d rest rules s m s1 H.
    rewrite directions_loop_cons, H. reflexivity.
Qed.

(** ** Polling *)

Lemma trace_log_calls l : forall s, trace (log_calls l s) = trace s ++ l.
Proof.
  induction l as [|c l IH]; intros s; simpl; [symmetry; apply app_nil_r|].
  rewrite IH. simpl. rewrite <- app_assoc. reflexivity.
Qed.

Lemma log_calls_app l1 : forall l2 s,
  log_calls (l1 ++ l2) s = log_calls l2 (log_calls l1 s).
Proof. induction l1 as [|c l1 IH]; intros l2 s; simpl; [reflexivity|apply IH]. Qed.

Lemma log_calls_frame l : forall s,
  _cleanups (log_calls l s) = _cleanups s /\
  cleanup_waits (log_calls l s) = cleanup_waits s /\
  keypair (log_calls l s) = keypair s /\
  instance (log_calls l s) = instance s /\
  node (log_calls l s) = node s.
Proof.
  induction l as [|c l IH]; intros s; simpl; [auto|].
  destruct (IH (log_call c s)) as (A & B & C & D & E). auto.
Qed.

(** A poll through one call: a positive answer comes after fewer failed
    attempts than allowed, from a call the predicate accepts; a negative
    one comes after all the attempts allowed. *)
Lemma poll_probe c decide n : forall s r s1,
  poll n (probe c decide) 1 s = (r, s1) ->
  (r = Ret true ->
   exists k, k < n /\ s1 = log_calls (retries c k ++ [c]) s /\
             decide (remote (trace s ++ retries c k) c) = Ret true) /\
  (r = Ret false -> s1 = log_calls (retries c n) s).
Proof.
  induction n as [|n IH]; intros s r s1 H.
  - injection H as <- <-. split; [discriminate|reflexivity].
  - rewrite poll_S in H. unfold probe at 1 in H.
    destruct (decide (remote (trace s) c)) as [[|]|e] eqn:D.
    + injection H as <- <-. split; [|discriminate].
      intros _. exists 0. simpl. rewrite app_nil_r. split; [lia|auto].
    + cbn [trace log_call] in H. fold (sleep_call 1) in H.
      destruct (remote (trace s ++ [c]) (sleep_call 1)).
      * apply IH in H. destruct H as [Ht Hf]. split.
        -- intros Hr. destruct (Ht Hr) as (k & Hk & -> & Dk).
           exists (S k). split; [lia|]. split; [reflexivity|].
           simpl in Dk. rewrite <- !app_assoc in Dk. exact Dk.
        -- intros Hr. rewrite (Hf Hr). reflexivity.
      * injection H as <- <-. split; discriminate.
    + injection H as <- <-. split; discriminate.
Qed.

Lemma poll_never_true func sleep_for n :
  (forall s, result_of func s <> Ret true) ->
  forall s, result_of (poll n func sleep_for) s <> Ret true.
Proof.
  intros Hf. induction n as [|n IH]; intros s; [discriminate|].
  unfold result_of in *. rewrite poll_S.
  specialize (Hf s).
  destruct (func s) as [[[|]|e] s1]; simpl in *; try congruence.
  destruct (remote _ _); [apply IH|discriminate].
Qed.

(** ** Bare-metal stages *)

Lemma check_state_probe node_id state_attr target_states s :
  truthy node_id = true ->
  check_state node_id state_attr target_states s
  = probe (show_node_call node_id) (state_reached state_attr target_states) s.
Proof.
  intros H. unfold check_state, get_node, probe, state_reached,
    dict_get_default. cbn [default]. rewrite H.
  unfold bind, invoke, lift, ret. fold (show_node_call node_id).
  destruct (remote (trace s) (show_node_call node_id)) as [v|e]; [|reflexivity].
  destruct (get_or_none v state_attr); reflexivity.
Qed.

Lemma get_node_by_instance instance_id s :
  truthy instance_id = true ->
  get_node None (Some instance_id) s
  = (match remote (trace s) (by_instance_call instance_id) with
     | Raise e => Raise e
     | Ret body =>
         match item body "nodes" with
         | Raise e => Raise e
         | Ret nodes => if truthy nodes then item0 nodes else Ret PNone
         end
     end, log_call (by_instance_call instance_id) s).
Proof.
  intros H. unfold get_node. cbn [default truthy]. rewrite H.
  unfold bind, invoke, getitem, getitem0, lift, ret.
  fold (by_instance_call instance_id).
  destruct (remote (trace s) (by_instance_call instance_id)) as [v|e];
    [|reflexivity].
  destruct (item v "nodes") as [nodes|e]; [|reflexivity].
  destruct (truthy nodes); reflexivity.
Qed.

Lemma item_not_NotFound v k e : item v k = Raise e -> is_NotFound e = false.
Proof.
  unfold item. destruct v; try (intros [= <-]; reflexivity).
  destruct (dict_get d k); [discriminate|]. intros [= <-]. reflexivity.
Qed.

Lemma item0_not_NotFound v e : item0 v = Raise e -> is_NotFound e = false.
Proof.
  unfold item0. destruct v as [| | | |[|x l]|];
    try discriminate; intros [= <-]; reflexivity.
Qed.

Lemma _get_node_probe instance_id s :
  truthy instance_id = true ->
  _get_node instance_id s = probe (by_instance_call instance_id) node_found s.
Proof.
  intros H. unfold _get_node, try_except, bind.
  rewrite (get_node_by_instance _ _ H). unfold probe, node_found, ret.
  destruct (remote (trace s) (by_instance_call instance_id)) as [v|e].
  - destruct (item v "nodes") as [nodes|e] eqn:I.
    + destruct (truthy nodes); [|reflexivity].
      destruct (item0 nodes) as [n|e] eqn:I0; [reflexivity|].
      rewrite (item0_not_NotFound _ _ I0). reflexivity.
    + rewrite (item_not_NotFound _ _ _ I). reflexivity.
  - destruct (is_NotFound e); reflexivity.
Qed.

(** ** Messages *)

Lemma string_app_assoc (a b c : string) :
  ((a ++ b) ++ c)%string = (a ++ b ++ c)%string.
Proof. induction a as [|x a IH]; simpl; [reflexivity|]. rewrite IH. reflexivity. Qed.

Lemma prefix_app (x b : string) : String.prefix x (x ++ b)%string = true.
Proof.
  induction x as [|c x IH]; simpl; [destruct b; reflexivity|].
  destruct (Ascii.ascii_dec c c); [exact IH|congruence].
Qed.

Lemma str_in_app (a x b : string) : str_in x (a ++ x ++ b)%string = true.
Proof.
  unfold str_in.
  assert (H : exists n, String.index 0 x (a ++ x ++ b)%string = Some n).
  { induction a as [|c a [n IH]]; cbn [String.append].
    - destruct (x ++ b)%string eqn:E.
      + destruct x; [eexists; reflexivity|discriminate].
      + cbn [String.index]. rewrite <- E, prefix_app. eexists. reflexivity.
    - cbn [String.index].
      destruct (String.prefix x (String c (a ++ x ++ b))); [eexists; reflexivity|].
      rewrite IH. eexists. reflexivity. }
  destruct H as [n ->]. reflexivity.
Qed.

Lemma str_in_skip (a x b : string) :
  str_in x b = true -> str_in x (a ++ b)%string = true.
Proof.
  unfold str_in. intros H.
  induction a as [|c a IH]; cbn [String.append]; [exact H|].
  cbn [String.index].
  destruct (String.prefix x (String c (a ++ b))); [reflexivity|].
  destruct (String.index 0 x (a ++ b)); [reflexivity|discriminate].
Qed.

Lemma str_in_head (x b : string) : str_in x (x ++ b)%string = true.
Proof. exact (str_in_app EmptyString x b). Qed.

Lemma join_reprs_names t l :
  In (PStr t) l -> str_in t (join_reprs l) = true.
Proof.
  induction l as [|v l IH]; [contradiction|].
  intros [->|Hin].
  - destruct l as [|w l]; cbn [join_reprs py_repr].
    + apply (str_in_skip "'"). apply str_in_head.
    + rewrite string_app_assoc. apply (str_in_skip "'").
      rewrite string_app_assoc. apply str_in_head.
  - destruct l as [|w l]; [contradiction|].
    cbn [join_reprs]. apply str_in_skip, (str_in_skip ", "). exact (IH Hin).
Qed.

Lemma prefix_before (x : string) : forall a b : string,
  String.prefix x a = true -> String.prefix x (a ++ b)%string = true.
Proof.
  induction x as [|d x IH]; intros a b P;
    [destruct (a ++ b)%string; reflexivity|].
  destruct a as [|c a]; [discriminate|].
  cbn [String.append String.prefix] in *.
  destruct (Ascii.ascii_dec d c); [apply IH; exact P|discriminate].
Qed.

Lemma str_in_before (x a b : string) :
  str_in x a = true -> str_in x (a ++ b)%string = true.
Proof.
  unfold str_in.
  destruct (String.index 0 x a) as [n|] eqn:E; [|discriminate]. intros _.
  revert n E. induction a as [|c a IH]; intros n E.
  - destruct x; [|discriminate].
    simpl. destruct b; reflexivity.
  - cbn [String.append String.index]. cbn [String.index] in E.
    destruct (String.prefix x (String c a)) eqn:P.
    + pose proof (prefix_before x (String c a) b P) as Q.
      cbn [String.append] in Q. rewrite Q. reflexivity.
    + destruct (String.prefix x (String c (a ++ b))); [reflexivity|].
      destruct (String.index 0 x a) as [m|] eqn:E'; [|discriminate].
      pose proof (IH m eq_refl) as Q.
      destruct (String.index 0 x (a ++ b)); [reflexivity|discriminate Q].
Qed.

(** The message of [_node_state_timeout] names the node, the attribute
    and every target state given as a string. *)
Lemma node_state_message_names node_id state_attr target_states :
  str_in (py_str node_id)
         (node_state_message node_id state_attr target_states) = true /\
  str_in state_attr
         (node_state_message node_id state_attr target_states) = true /\
  forall t, In (PStr t) target_states ->
            str_in t (node_state_message node_id state_attr target_states) = true.
Proof.
  unfold node_state_message. split; [|split].
  - apply str_in_skip, str_in_head.
  - apply str_in_skip, str_in_skip, str_in_skip, str_in_head.
  - intros t Hin. cbn [py_str].
    do 5 apply str_in_skip. apply (str_in_skip "[").
    apply str_in_before, join_reprs_names, Hin.
Qed.

(** ** The stages of the boot sequence *)

Lemma node_state_timeout_run node_id state_attr target_states timeout s :
  _node_state_timeout node_id state_attr target_states timeout 1 s =
  match call_until_true
          (check_state node_id state_attr (as_states target_states)) timeout 1 s with
  | (Ret true, s1) => (Ret tt, s1)
  | (Ret false, s1) =>
      (Raise (TimeoutException
                (node_state_message node_id state_attr (as_states target_states))),
       s1)
  | (Raise e, s1) => (Raise e, s1)
  end.
Proof.
  unfold _node_state_timeout. rewrite bind_eq.
  destruct (call_until_true _ timeout 1 s) as [[[|]|e] s1]; reflexivity.
Qed.

Lemma wait_node_run instance_id s :
  wait_node instance_id s =
  match call_until_true (_get_node instance_id)
                        (baremetal_association_timeout CONF) 1 s with
  | (Ret true, s1) => (Ret tt, s1)
  | (Ret false, s1) =>
      (Raise (TimeoutException (wait_node_message instance_id)), s1)
  | (Raise e, s1) => (Raise e, s1)
  end.
Proof.
  unfold wait_node. rewrite bind_eq.
  destruct (call_until_true _ _ 1 s) as [[[|]|e] s1]; reflexivity.
Qed.

Lemma poll_ext n f g sleep_for :
  (forall s, f s = g s) -> forall s, poll n f sleep_for s = poll n g sleep_for s.
Proof.
  intros H. induction n as [|n IH]; intros s; [reflexivity|].
  rewrite !poll_S, H. destruct (g s) as [[[|]|e] s1]; try reflexivity.
  destruct (remote _ _); [apply IH|reflexivity].
Qed.

(** A node-state stage that returns has seen the target state, after
    fewer failed polls than its own timeout allows. *)
Lemma node_state_reached node_id state_attr target_states timeout s s1 :
  _node_state_timeout node_id state_attr target_states timeout 1 s = (Ret tt, s1) ->
  exists k,
    k < attempts timeout 1 /\
    s1 = log_calls (retries (show_node_call node_id) k ++ [show_node_call node_id]) s /\
    state_reached state_attr (as_states target_states)
      (remote (trace s ++ retries (show_node_call node_id) k)
              (show_node_call node_id)) = Ret true.
Proof.
  rewrite node_state_timeout_run. unfold call_until_true. intros H.
  destruct (truthy node_id) eqn:Tr.
  - rewrite (poll_ext _ _ _ 1 (fun s => check_state_probe _ state_attr
                                          (as_states target_states) s Tr)) in H.
    destruct (poll _ _ 1 s) as [[[|]|e] s2] eqn:P; try discriminate.
    injection H as <-.
    destruct (poll_probe _ _ _ _ _ _ P) as [Ht _]. exact (Ht eq_refl).
  - exfalso.
    assert (N : forall s0, result_of (check_state node_id state_attr
                                        (as_states target_states)) s0 <> Ret true).
    { intros s0. unfold result_of, check_state, get_node. cbn [default truthy].
      rewrite Tr. unfold bind, ret, dict_get_default, lift. simpl. discriminate. }
    pose proof (poll_never_true _ 1 (attempts timeout 1) N s) as Q.
    unfold result_of in Q.
    destruct (poll _ _ 1 s) as [[[|]|e] s2]; try discriminate.
    apply Q. reflexivity.
Qed.

Lemma wait_node_reached instance_id s s1 :
  wait_node instance_id s = (Ret tt, s1) ->
  truthy instance_id = true /\
  exists k,
    k < attempts (baremetal_association_timeout CONF) 1 /\
    s1 = log_calls (retries (by_instance_call instance_id) k
                    ++ [by_instance_call instance_id]) s /\
    node_found (remote (trace s ++ retries (by_instance_call instance_id) k)
                       (by_instance_call instance_id)) = Ret true.
Proof.
  rewrite wait_node_run. unfold call_until_true. intros H.
  destruct (truthy instance_id) eqn:Tr.
  - split; [reflexivity|].
    rewrite (poll_ext _ _ _ 1 (fun s => _get_node_probe _ s Tr)) in H.
    destruct (poll _ _ 1 s) as [[[|]|e] s2] eqn:P; try discriminate.
    injection H as <-.
    destruct (poll_probe _ _ _ _ _ _ P) as [Ht _]. exact (Ht eq_refl).
  - exfalso.
    assert (N : forall s0, result_of (_get_node instance_id) s0 <> Ret true).
    { intros s0. unfold result_of, _get_node, get_node. cbn [default truthy].
      rewrite Tr. unfold try_except, bind, ret. simpl. discriminate. }
    pose proof (poll_never_true _ 1 (attempts (baremetal_association_timeout CONF) 1)
                                N s) as Q.
    unfold result_of in Q.
    destruct (poll _ _ 1 s) as [[[|]|e] s2]; try discriminate.
    apply Q. reflexivity.
Qed.

Lemma self_attr_inv name f s x s1 :
  self_attr name f s = (Ret x, s1) -> s1 = s /\ f s = Some x.
Proof.
  unfold self_attr, bind, gets. destruct (f s); [|discriminate].
  intros [= <- <-]. auto.
Qed.

Lemma getitem_inv v k s x s1 :
  getitem v k s = (Ret x, s1) -> s1 = s /\ item v k = Ret x.
Proof. unfold getitem, lift. intros [= -> <-]. auto. Qed.

Lemma modify_inv f s u s1 : modify f s = (Ret u, s1) -> s1 = f s.
Proof. unfold modify. intros [= _ <-]. reflexivity. Qed.

Lemma invoke_inv c s v s1 :
  invoke c s = (Ret v, s1) -> s1 = log_call c s /\ remote (trace s) c = Ret v.
Proof. rewrite invoke_eq. intros [= -> <-]. auto. Qed.

(** Creating a server without waiting for boot: the name is drawn, the
    server created and fetched again; the instance attributes are left
    alone. *)
Lemma create_server_noboot kw s server s1 :
  create_server None None None false true (Some kw) s = (Ret server, s1) ->
  exists name id0,
    trace s1 = trace s
      ++ [rand_name_call (class_name CONF);
          create_server_call name (PStr (compute_image_ref CONF))
                             (PStr (compute_flavor_ref CONF)) kw;
          get_server_call id0] /\
    remote (trace s
            ++ [rand_name_call (class_name CONF);
                create_server_call name (PStr (compute_image_ref CONF))
                                   (PStr (compute_flavor_ref CONF)) kw])
           (get_server_call id0) = Ret server /\
    keypair s1 = keypair s /\ instance s1 = instance s /\ node s1 = node s.
Proof.
  unfold create_server, rand_name, addCleanup_with_wait, addCleanup,
    assertEqual, getitem.
  cbv [bind invoke lift ret raise modify]. cbn [default].
  fold (rand_name_call (class_name CONF)).
  destruct (remote (trace s) (rand_name_call (class_name CONF))) as [name|e];
    [|discriminate].
  cbn [trace log_call].
  fold (create_server_call name (PStr (compute_image_ref CONF))
                           (PStr (compute_flavor_ref CONF)) kw).
  destruct (remote _ (create_server_call _ _ _ _)) as [created|e]; [|discriminate].
  destruct (item created "id") as [id0|e]; [|discriminate].
  cbn [trace log_call set__cleanups set_cleanup_waits].
  fold (get_server_call id0).
  destruct (remote _ (get_server_call id0)) as [fetched|e] eqn:R; [|discriminate].
  destruct (item fetched "name") as [nm|e]; [|discriminate].
  destruct (pyval_eqb nm name); [|discriminate].
  intros [= <- <-]. exists name, id0. cbn.
  rewrite <- !app_assoc in *. cbn [app] in *. auto.
Qed.

Tactic Notation "inv_bind" hyp(H) "as" ident(x) ident(sx) ident(E) :=
  rewrite bind_eq in H;
  match type of H with
  | (match ?ms with _ => _ end) = _ =>
      destruct ms as [[x|?] sx] eqn:E; [|discriminate H]
  end.

Lemma boot_instance_order s s' : boot_instance s = (Ret tt, s') -> booted s s'.
Proof.
  unfold boot_instance. intros H.
  inv_bind H as kp s0 E. apply self_attr_inv in E as [-> Kp].
  inv_bind H as key_name s0 E. apply getitem_inv in E as [-> Kn].
  inv_bind H as server s1 E.
  destruct (create_server_noboot _ _ _ _ E) as (name & id0 & T1 & R1 & _).
  clear E.
  inv_bind H as u0 s0 E. apply modify_inv in E as ->.
  set (sa := set_instance server s1) in *.
  inv_bind H as inst s0 E. apply self_attr_inv in E as [-> In1]. cbn in In1.
  injection In1 as <-.
  inv_bind H as id s0 E. apply getitem_inv in E as [-> Iid].
  inv_bind H as u1 s2 E. destruct u1.
  destruct (wait_node_reached _ _ _ E) as (Tid & k1 & Hk1 & -> & _). clear E.
  set (l1 := retries (by_instance_call id) k1 ++ [by_instance_call id]) in *.
  destruct (log_calls_frame l1 sa) as (_ & _ & _ & Fi1 & _).
  inv_bind H as inst s0 E. apply self_attr_inv in E as [-> In2].
  rewrite Fi1 in In2. cbn in In2. injection In2 as <-.
  inv_bind H as id' s0 E. apply getitem_inv in E as [-> Iid2].
  rewrite Iid in Iid2. injection Iid2 as <-.
  inv_bind H as nd s0 E. rewrite (get_node_by_instance _ _ Tid) in E.
  injection E as _ <-.
  inv_bind H as u2 s0 E. apply modify_inv in E as ->.
  set (sb := set_node nd (log_call (by_instance_call id) (log_calls l1 sa))) in *.
  inv_bind H as nd' s0 E. apply self_attr_inv in E as [-> Nd1]. cbn in Nd1.
  injection Nd1 as <-.
  inv_bind H as uuid s0 E. apply getitem_inv in E as [-> Iu].
  inv_bind H as u3 s3 E. destruct u3. unfold wait_power_state in E.
  destruct (node_state_reached _ _ _ _ _ _ E) as (k2 & Hk2 & -> & P2). clear E.
  set (l2 := retries (show_node_call uuid) k2 ++ [show_node_call uuid]) in *.
  destruct (log_calls_frame l2 sb) as (_ & _ & _ & Fi2 & Fn2).
  inv_bind H as nd' s0 E. apply self_attr_inv in E as [-> Nd2].
  rewrite Fn2 in Nd2. cbn in Nd2. injection Nd2 as <-.
  inv_bind H as uuid' s0 E. apply getitem_inv in E as [-> Iu2].
  rewrite Iu in Iu2. injection Iu2 as <-.
  inv_bind H as u4 s4 E. destruct u4. unfold wait_provisioning_state in E.
  destruct (node_state_reached _ _ _ _ _ _ E) as (k3 & Hk3 & -> & P3). clear E.
  set (l3 := retries (show_node_call uuid) k3 ++ [show_node_call uuid]) in *.
  destruct (log_calls_frame l3 (log_calls l2 sb)) as (_ & _ & _ & Fi3 & Fn3).
  inv_bind H as nd' s0 E. apply self_attr_inv in E as [-> Nd3].
  rewrite Fn3, Fn2 in Nd3. cbn in Nd3. injection Nd3 as <-.
  inv_bind H as uuid' s0 E. apply getitem_inv in E as [-> Iu3].
  rewrite Iu in Iu3. injection Iu3 as <-.
  inv_bind H as u5 s5 E. destruct u5. unfold wait_provisioning_state in E.
  destruct (node_state_reached _ _ _ _ _ _ E) as (k4 & Hk4 & -> & P4). clear E.
  set (l4 := retries (show_node_call uuid) k4 ++ [show_node_call uuid]) in *.
  destruct (log_calls_frame l4 (log_calls l3 (log_calls l2 sb)))
    as (_ & _ & _ & Fi4 & Fn4).
  set (sc := log_calls l4 (log_calls l3 (log_calls l2 sb))) in *.
  assert (Isc : instance sc = Some server).
  { rewrite Fi4, Fi3, Fi2. cbn. rewrite Fi1. reflexivity. }
  inv_bind H as inst s0 E. apply self_attr_inv in E as [-> In3].
  rewrite Isc in In3. injection In3 as <-.
  inv_bind H as id' s0 E. apply getitem_inv in E as [-> Iid3].
  rewrite Iid in Iid3. injection Iid3 as <-.
  inv_bind H as v5 s0 E. fold (server_active_call id) in E.
  apply invoke_inv in E as [-> R5].
  inv_bind H as inst s0 E. apply self_attr_inv in E as [-> In4]. cbn in In4.
  rewrite Isc in In4. injection In4 as <-.
  inv_bind H as id' s0 E. apply getitem_inv in E as [-> Iid4].
  rewrite Iid in Iid4. injection Iid4 as <-.
  inv_bind H as nd2 s0 E. rewrite (get_node_by_instance _ _ Tid) in E.
  injection E as _ <-.
  inv_bind H as u6 s0 E. apply modify_inv in E as ->.
  inv_bind H as inst s0 E. apply self_attr_inv in E as [-> In5]. cbn in In5.
  rewrite Isc in In5. injection In5 as <-.
  inv_bind H as id' s0 E. apply getitem_inv in E as [-> Iid5].
  rewrite Iid in Iid5. injection Iid5 as <-.
  inv_bind H as server2 s0 E. fold (get_server_call id) in E.
  apply invoke_inv in E as [-> R6].
  injection H as <-.
  assert (Tsb : trace sb = trace s
                ++ [rand_name_call (class_name CONF);
                    create_server_call name (PStr (compute_image_ref CONF))
                      (PStr (compute_flavor_ref CONF)) [("key_name", AVal key_name)];
                    get_server_call id0]
                ++ retries (by_instance_call id) k1
                ++ [by_instance_call id; by_instance_call id]).
  { unfold sb. cbn [trace set_node log_call]. rewrite trace_log_calls.
    unfold sa. cbn [trace set_instance]. rewrite T1. unfold l1.
    rewrite <- !app_assoc. reflexivity. }
  assert (Tsc : trace sc = trace sb ++ l2 ++ l3 ++ l4).
  { unfold sc. rewrite !trace_log_calls, <- !app_assoc. reflexivity. }
  exists name, [("key_name", AVal key_name)], id0, id, uuid, k1, k2, k3, k4.
  cbn zeta.
  split.
  { cbn [trace set_instance set_node log_call]. rewrite Tsc, Tsb.
    unfold l2, l3, l4. rewrite <- !app_assoc. reflexivity. }
  split; [exact Hk1|]. split; [exact Hk2|]. split; [exact Hk3|].
  split; [exact Hk4|].
  rewrite Tsb in P2. rewrite trace_log_calls, Tsb in P3.
  rewrite !trace_log_calls, Tsb in P4.
  rewrite Tsc, Tsb in R5. unfold l2, l3, l4 in P3, P4, R5.
  repeat rewrite <- app_assoc in P2. repeat rewrite <- app_assoc in P3.
  repeat rewrite <- app_assoc in P4. repeat rewrite <- app_assoc in R5.
  repeat rewrite <- app_assoc.
  split; [exact P2|]. split; [exact P3|]. split; [exact P4|].
  exists v5. exact R5.
Qed.

(** C5, as the code has it: a boot that returns went through the stages in
    order, each within its own timeout; a node-state stage (power,
    provisioning) whose polls all miss the target raises a
    TimeoutException that names the node, the state attribute and the
    target states, after the polls its timeout allows; the association
    stage raises a TimeoutException that names the instance only. *)
Theorem boot_sequence :
  (forall s s', boot_instance s = (Ret tt, s') -> booted s s') /\
  (forall node_id state_attr target_states timeout s,
     result_of (call_until_true
                  (check_state node_id state_attr (as_states target_states))
                  timeout 1) s = Ret false ->
     result_of (_node_state_timeout node_id state_attr target_states timeout 1) s
       = Raise (TimeoutException
                  (node_state_message node_id state_attr (as_states target_states)))
     /\ str_in (py_str node_id)
          (node_state_message node_id state_attr (as_states target_states)) = true
     /\ str_in state_attr
          (node_state_message node_id state_attr (as_states target_states)) = true
     /\ (forall t, In (PStr t) (as_states target_states) ->
           str_in t (node_state_message node_id state_attr
                                        (as_states target_states)) = true)
     /\ (truthy node_id = true ->
         trace (state_after
                  (_node_state_timeout node_id state_attr target_states timeout 1) s)
         = trace s ++ retries (show_node_call node_id) (attempts timeout 1))) /\
  (forall instance_id s,
     result_of (call_until_true (_get_node instance_id)
                                (baremetal_association_timeout CONF) 1) s
       = Ret false ->
     result_of (wait_node instance_id) s
       = Raise (TimeoutException
                  ("Timed out waiting to get Ironic node by instance id "
                   ++ py_str instance_id))).
Proof.
  split; [exact boot_instance_order|]. split.
  - intros node_id state_attr target_states timeout s H.
    destruct (node_state_message_names node_id state_attr (as_states target_states))
      as (N1 & N2 & N3).
    unfold result_of, state_after in *. rewrite node_state_timeout_run.
    destruct (call_until_true _ timeout 1 s) as [[[|]|e] s1] eqn:P;
      try discriminate.
    repeat split; auto.
    intros Tr. cbn [snd]. unfold call_until_true in P.
    rewrite (poll_ext _ _ _ 1 (fun s => check_state_probe _ state_attr
                                          (as_states target_states) s Tr)) in P.
    destruct (poll_probe _ _ _ _ _ _ P) as [_ Hf].
    rewrite (Hf eq_refl), trace_log_calls. reflexivity.
  - intros instance_id s H. unfold result_of in *. rewrite wait_node_run.
    destruct (call_until_true _ _ 1 s) as [[[|]|e] s1]; try discriminate.
    reflexivity.
Qed.

(** ** Subnet allocation *)

Lemma cidr_in_use_eq cidr tenant_id s :
  cidr_in_use cidr tenant_id s
  = (in_use (remote (trace s) (list_subnets_call tenant_id cidr)),
     log_call (list_subnets_call tenant_id cidr) s).
Proof.
  unfold cidr_in_use, _list_subnets, _admin_lister, in_use, py_len, getitem.
  unfold bind, invoke, lift, ret.
  change ("admin_manager.network_client.list_" ++ "subnets")%string
    with "admin_manager.network_client.list_subnets".
  fold (list_subnets_call tenant_id cidr).
  destruct (remote (trace s) (list_subnets_call tenant_id cidr)) as [v|e];
    [|reflexivity].
  destruct (item v "subnets") as [l|e]; [|reflexivity].
  destruct (len l); reflexivity.
Qed.

(** One turn of the loop of [_create_subnet]. *)
Lemma subnet_loop_cons network client namestart kw str_cidr rest s :
  subnet_loop network client namestart kw (str_cidr :: rest) s =
  match attr network "tenant_id" with
  | Raise e => (Raise e, s)
  | Ret tenant_id =>
      let s1 := log_call (list_subnets_call tenant_id str_cidr) s in
      match in_use (remote (trace s) (list_subnets_call tenant_id str_cidr)) with
      | Raise e => (Raise e, s1)
      | Ret true => subnet_loop network client namestart kw rest s1
      | Ret false =>
          let s2 := log_call (rand_name_call namestart) s1 in
          match remote (trace s1) (rand_name_call namestart) with
          | Raise e => (Raise e, s2)
          | Ret name =>
              match attr network "id" with
              | Raise e => (Raise e, s2)
              | Ret network_id =>
                  if clashes ["name"; "ip_version"; "network_id"; "tenant_id";
                              "cidr"] kw
                  then (Raise (TypeError "got multiple values for keyword argument"),
                        s2)
                  else
                    let c := create_subnet_call client name network_id tenant_id
                                                str_cidr kw in
                    match remote (trace s2) c with
                    | Ret result => (Ret (Some (result, str_cidr)), log_call c s2)
                    | Raise (Conflict m) =>
                        if str_in "overlaps with another subnet" m
                        then subnet_loop network client namestart kw rest
                                         (log_call c s2)
                        else (Raise (Conflict m), log_call c s2)
                    | Raise e => (Raise e, log_call c s2)
                    end
              end
          end
      end
  end.
Proof.
  cbn [subnet_loop]. unfold getattr. rewrite bind_eq. unfold lift at 1.
  destruct (attr network "tenant_id") as [tenant_id|e]; [|reflexivity].
  rewrite bind_eq, cidr_in_use_eq.
  destruct (in_use _) as [[|]|e]; try reflexivity.
  cbv zeta. unfold rand_name. rewrite bind_eq, invoke_eq.
  fold (rand_name_call namestart).
  destruct (remote _ (rand_name_call namestart)) as [name|e]; [|reflexivity].
  rewrite bind_eq. unfold lift at 1.
  destruct (attr network "id") as [network_id|e]; [|reflexivity].
  rewrite bind_eq. unfold lift at 1. rewrite bind_eq.
  destruct (clashes _ kw); [reflexivity|].
  unfold ret at 1. rewrite bind_eq. unfold try_except. rewrite bind_eq, invoke_eq.
  fold (create_subnet_call client name network_id tenant_id str_cidr kw).
  destruct (remote _ (create_subnet_call _ _ _ _ _ _)) as [result|e];
    [reflexivity|].
  destruct e; try reflexivity. cbn [is_Conflict exn_str].
  destruct (str_in _ _); reflexivity.
Qed.

Ltac stop_here :=
  split; [cbn; rewrite <- ?app_assoc, ?app_nil_r; reflexivity|];
  split; [simpl; lia|];
  split; [reflexivity|];
  let Hr := fresh "Hr" in intros ? ? Hr; discriminate Hr.

(** The loop ends at a block of the pool whose in-use check came back
    empty, and logs at most three calls per block. *)
Lemma subnet_loop_spec network client namestart kw blocks : forall s,
  exists new,
    trace (state_after (subnet_loop network client namestart kw blocks) s)
      = trace s ++ new /\
    List.length new <= 3 * List.length blocks /\
    _cleanups (state_after (subnet_loop network client namestart kw blocks) s)
      = _cleanups s /\
    forall result str_cidr,
      result_of (subnet_loop network client namestart kw blocks) s
        = Ret (Some (result, str_cidr)) ->
      In str_cidr blocks /\
      exists pre post tenant_id,
        new = pre ++ list_subnets_call tenant_id str_cidr :: post /\
        attr network "tenant_id" = Ret tenant_id /\
        in_use (remote (trace s ++ pre) (list_subnets_call tenant_id str_cidr))
          = Ret false.
Proof.
  induction blocks as [|b rest IH]; intros s.
  - exists []. stop_here.
  - unfold result_of, state_after in *. rewrite subnet_loop_cons.
    destruct (attr network "tenant_id") as [tenant_id|e] eqn:A.
    2:{ exists []. stop_here. }
    cbv zeta.
    set (lc := list_subnets_call tenant_id b).
    destruct (in_use (remote (trace s) lc)) as [[|]|e] eqn:U.
    + destruct (IH (log_call lc s)) as (new & T & L & C & H).
      exists (lc :: new). rewrite T. cbn [trace log_call].
      rewrite <- app_assoc. split; [reflexivity|]. split; [simpl; lia|].
      split; [exact C|].
      intros result c Hr. destruct (H result c Hr) as (Hin & pre & post & t & -> & At & Ut).
      split; [right; exact Hin|].
      exists (lc :: pre), post, t. split; [reflexivity|]. split; [exact At|].
      cbn [trace log_call] in Ut. rewrite <- app_assoc in Ut. exact Ut.
    + set (rc := rand_name_call namestart).
      destruct (remote _ rc) as [name|e].
      2:{ exists [lc; rc]. stop_here. }
      destruct (attr network "id") as [network_id|e].
      2:{ exists [lc; rc]. stop_here. }
      destruct (clashes _ kw).
      { exists [lc; rc]. stop_here. }
      set (cc := create_subnet_call client name network_id tenant_id b kw).
      destruct (remote _ cc) as [result|e].
      * exists [lc; rc; cc]. cbn. rewrite <- !app_assoc.
        split; [reflexivity|]. split; [lia|]. split; [reflexivity|].
        intros result' c [= <- <-]. split; [left; reflexivity|].
        exists [], [rc; cc], tenant_id. rewrite app_nil_r. auto.
      * destruct e; try (exists [lc; rc; cc]; stop_here).
        destruct (str_in _ _error_string); [|exists [lc; rc; cc]; stop_here].
        destruct (IH (log_call cc (log_call rc (log_call lc s))))
          as (new & T & L & C & H).
        exists (lc :: rc :: cc :: new). rewrite T. cbn [trace log_call].
        rewrite <- !app_assoc. split; [reflexivity|]. split; [simpl; lia|].
        split; [exact C|].
        intros result c Hr.
        destruct (H result c Hr) as (Hin & pre & post & t & -> & At & Ut).
        split; [right; exact Hin|].
        exists (lc :: rc :: cc :: pre), post, t.
        split; [reflexivity|]. split; [exact At|].
        cbn [trace log_call] in Ut. rewrite <- !app_assoc in Ut. exact Ut.
    + exists [lc]. stop_here.
Qed.

Lemma pyval_eqb_str v x : pyval_eqb v (PStr x) = true -> v = PStr x.
Proof.
  destruct v; simpl; try discriminate.
  intros H. apply String.eqb_eq in H. congruence.
Qed.

(** C4: [_create_subnet] goes through the blocks of the tenant pool in
    order.  When the blocks run out it raises the assertion error "Unable
    to allocate tenant network"; a subnet it returns sits on a block of
    the pool whose listing for the tenant came back empty during the call;
    it logs at most three calls per block, so it always ends; a block in
    use is skipped; a Conflict on creation moves to the next block when it
    says the block overlaps another subnet and is raised again otherwise. *)
Theorem subnet_allocation network client namestart kw :
  (forall s s1,
     subnet_loop network (default "network_client" client) namestart kw
                 (network_tenant_subnets CONF) s = (Ret None, s1) ->
     _create_subnet network client namestart kw s
       = (Raise (AssertionError "Unable to allocate tenant network"), s1)) /\
  (forall s subnet,
     result_of (_create_subnet network client namestart kw) s = Ret subnet ->
     exists str_cidr pre post tenant_id,
       In str_cidr (network_tenant_subnets CONF) /\
       attr subnet "cidr" = Ret (PStr str_cidr) /\
       trace (state_after (_create_subnet network client namestart kw) s)
         = trace s ++ pre ++ list_subnets_call tenant_id str_cidr :: post /\
       attr network "tenant_id" = Ret tenant_id /\
       in_use (remote (trace s ++ pre) (list_subnets_call tenant_id str_cidr))
         = Ret false) /\
  (forall s, exists new,
     trace (state_after (_create_subnet network client namestart kw) s)
       = trace s ++ new /\
     List.length new <= 3 * List.length (network_tenant_subnets CONF)) /\
  (forall str_cidr rest s tenant_id,
     attr network "tenant_id" = Ret tenant_id ->
     in_use (remote (trace s) (list_subnets_call tenant_id str_cidr)) = Ret true ->
     subnet_loop network (default "network_client" client) namestart kw
                 (str_cidr :: rest) s
     = subnet_loop network (default "network_client" client) namestart kw rest
                   (log_call (list_subnets_call tenant_id str_cidr) s)) /\
  (forall str_cidr rest s tenant_id name network_id m,
     attr network "tenant_id" = Ret tenant_id ->
     in_use (remote (trace s) (list_subnets_call tenant_id str_cidr)) = Ret false ->
     remote (trace s ++ [list_subnets_call tenant_id str_cidr])
            (rand_name_call namestart) = Ret name ->
     attr network "id" = Ret network_id ->
     clashes ["name"; "ip_version"; "network_id"; "tenant_id"; "cidr"] kw = false ->
     remote (trace s ++ [list_subnets_call tenant_id str_cidr;
                         rand_name_call namestart])
            (create_subnet_call (default "network_client" client) name network_id
                                tenant_id str_cidr kw)
       = Raise (Conflict m) ->
     subnet_loop network (default "network_client" client) namestart kw
                 (str_cidr :: rest) s
     = let s3 := log_calls
                   [list_subnets_call tenant_id str_cidr;
                    rand_name_call namestart;
                    create_subnet_call (default "network_client" client) name
                                       network_id tenant_id str_cidr kw] s in
       if str_in "overlaps with another subnet" m
       then subnet_loop network (default "network_client" client) namestart kw
                        rest s3
       else (Raise (Conflict m), s3)).
Proof.
  split; [|split; [|split; [|split]]].
  - intros s s1 H. unfold _create_subnet. rewrite bind_eq, H. reflexivity.
  - intros s subnet.
    destruct (subnet_loop_spec network (default "network_client" client)
                namestart kw (network_tenant_subnets CONF) s)
      as (new & T & _ & _ & H).
    unfold result_of, state_after, _create_subnet in *. rewrite bind_eq.
    destruct (subnet_loop _ _ _ _ _ s) as [[[[result c]|]|e] s1];
      cbn [fst snd] in *; try discriminate.
    destruct (H result c eq_refl) as (Hin & pre & post & t & -> & At & Ut).
    unfold assertIsNotNone, getitem, Deletable, getattr, assertEqual, addCleanup.
    cbv [bind lift ret raise modify].
    destruct result; try discriminate;
      (destruct (item _ "subnet") as [attrs|e]; [|discriminate];
       destruct (proxy attrs) as [sub|e]; [|discriminate];
       destruct (attr sub "cidr") as [cidr|e] eqn:Ac; [|discriminate];
       destruct (pyval_eqb cidr (PStr c)) eqn:Eq; [|discriminate];
       intros [= <-]; exists c, pre, post, t;
       apply pyval_eqb_str in Eq; subst cidr; cbn [snd trace set__cleanups];
       rewrite T; auto).
  - intros s.
    destruct (subnet_loop_spec network (default "network_client" client)
                namestart kw (network_tenant_subnets CONF) s)
      as (new & T & L & _ & _).
    exists new. split; [|exact L].
    unfold state_after, _create_subnet in *. rewrite bind_eq.
    destruct (subnet_loop _ _ _ _ _ s) as [[found|e] s1]; cbn [snd] in *;
      [|exact T].
    unfold assertIsNotNone, getitem, Deletable, getattr, assertEqual, addCleanup.
    cbv [bind lift ret raise modify].
    destruct found as [[result c]|]; [|exact T].
    destruct result; try exact T;
      (destruct (item _ "subnet") as [attrs|e]; [|exact T];
       destruct (proxy attrs) as [sub|e]; [|exact T];
       destruct (attr sub "cidr") as [cidr|e]; [|exact T];
       destruct (pyval_eqb cidr (PStr c)); exact T).
  - intros c rest s t At U. rewrite subnet_loop_cons, At. cbv zeta.
    rewrite U. reflexivity.
  - intros c rest s t name nid m At U Rn Ai Cl Rc.
    rewrite subnet_loop_cons, At. cbv zeta. rewrite U.
    cbn [trace log_call]. rewrite Rn, Ai, Cl.
    cbn [trace log_call]. rewrite <- app_assoc. cbn [app]. rewrite Rc.
    reflexivity.
Qed.

(** ** Network creation *)

(** [_create_network] registers the deletion as its last step: whenever
    it raises, the assertion on the name included, the ledger is as it
    was. *)
Lemma create_network_registers_last client tenant_id namestart s e :
  result_of (_create_network client tenant_id namestart) s = Raise e ->
  _cleanups (state_after (_create_network client tenant_id namestart) s)
    = _cleanups s.
Proof.
  unfold result_of, state_after, _create_network, rand_name, getitem, Deletable,
    getattr, assertEqual, addCleanup.
  cbv [bind invoke lift ret raise modify].
  crunch; try reflexivity; discriminate.
Qed.


(** ** The login form parser *)

(** X1: [_find_name] answers whether some attribute is the pair of ['name']
    and the name looked for. *)
Theorem find_name_iff attrs name :
  HorizonHTMLParser._find_name attrs name = true <-> In ("name", Some name) attrs.
Proof.
  induction attrs as [|[k v] attrs IH]; simpl; [split; [discriminate|tauto]|].
  destruct (String.eqb_spec k "name") as [->|Hk]; simpl.
  - destruct v as [v|].
    + destruct (String.eqb_spec v name) as [->|Hv].
      * split; auto.
      * rewrite IH. split; [auto|]. intros [[= E]|H]; [congruence|exact H].
    + rewrite IH. split; [auto|]. intros [[=]|H]. exact H.
  - rewrite IH. split; [auto|]. intros [[= E _]|H]; [congruence|exact H].
Qed.

(** X2: [_find_value] gives the value of the first attribute called ['value']
    and [None] when there is none. *)
Theorem find_value_first pre :
  (forall p, In p pre -> fst p <> "value") ->
  (forall v post, HorizonHTMLParser._find_value (pre ++ ("value", v) :: post) = v)
  /\ HorizonHTMLParser._find_value pre = None.
Proof.
  induction pre as [|[k w] pre IH]; intros H.
  - split; [intros v post; reflexivity|reflexivity].
  - assert (Hk : String.eqb k "value" = false).
    { apply String.eqb_neq. exact (H (k, w) (or_introl eq_refl)). }
    destruct IH as [A B]; [intros p Hp; apply H; right; exact Hp|].
    simpl. rewrite Hk. split; [exact A|exact B].
Qed.

Lemma handle_starttags_app p l1 l2 :
  HorizonHTMLParser.handle_starttags p (l1 ++ l2)
  = HorizonHTMLParser.handle_starttags (HorizonHTMLParser.handle_starttags p l1) l2.
Proof. unfold HorizonHTMLParser.handle_starttags. apply fold_left_app. Qed.

(** X3: A document without input tags leaves the token and the region as they
    were. *)
Theorem parser_ignores_other_tags p tags :
  (forall t, In t tags -> fst t <> "input") ->
  HorizonHTMLParser.handle_starttags p tags = p.
Proof.
  revert p. induction tags as [|[tag attrs] tags IH]; intros p H; [reflexivity|].
  unfold HorizonHTMLParser.handle_starttags in *. simpl.
  unfold HorizonHTMLParser.handle_starttag at 2.
  assert (Ht : String.eqb tag "input" = false).
  { apply String.eqb_neq. exact (H (tag, attrs) (or_introl eq_refl)). }
  rewrite Ht. apply IH. intros t Hin. apply H. right. exact Hin.
Qed.

Lemma token_kept p tags :
  (forall t, In t tags -> fst t = "input" ->
             HorizonHTMLParser._find_name (snd t) "csrfmiddlewaretoken" = false) ->
  HorizonHTMLParser.csrf_token (HorizonHTMLParser.handle_starttags p tags)
  = HorizonHTMLParser.csrf_token p.
Proof.
  revert p. induction tags as [|[tag attrs] tags IH]; intros p H; [reflexivity|].
  unfold HorizonHTMLParser.handle_starttags in *. simpl.
  rewrite IH; [|intros t Hin; apply H; right; exact Hin].
  unfold HorizonHTMLParser.handle_starttag.
  destruct (String.eqb_spec tag "input") as [->|Ht]; [|reflexivity].
  pose proof (H ("input", attrs) (or_introl eq_refl) eq_refl) as Hn.
  cbn [snd] in Hn. cbn [fst snd]. rewrite Hn.
  destruct (HorizonHTMLParser._find_name attrs "region"); reflexivity.
Qed.

(** X4: The token the parser ends with is the value of the last input tag
    named csrfmiddlewaretoken, whatever came before it. *)
Theorem last_token_wins p pre attrs post :
  HorizonHTMLParser._find_name attrs "csrfmiddlewaretoken" = true ->
  (forall t, In t post -> fst t = "input" ->
             HorizonHTMLParser._find_name (snd t) "csrfmiddlewaretoken" = false) ->
  HorizonHTMLParser.csrf_token
    (HorizonHTMLParser.handle_starttags p (pre ++ ("input", attrs) :: post))
  = HorizonHTMLParser._find_value attrs.
Proof.
  intros Hn Hpost.
  change (pre ++ ("input", attrs) :: post)
    with (pre ++ [("input", attrs)] ++ post).
  rewrite !handle_starttags_app, (token_kept _ post Hpost).
  unfold HorizonHTMLParser.handle_starttags. simpl.
  unfold HorizonHTMLParser.handle_starttag. simpl. rewrite Hn.
  destruct (HorizonHTMLParser._find_name attrs "region"); reflexivity.
Qed.

(** ** Stack outputs *)

(** X5: [_stack_output] gives the value of the first output whose key
    matches; the outputs after it are not looked at. *)
Theorem stack_output_first_match stack pre o post output_key k :
  item stack "outputs" = Ret (PList (pre ++ o :: post)) ->
  (forall p, In p pre ->
     exists kp, item p "output_key" = Ret kp /\ pyval_eqb kp output_key = false) ->
  item o "output_key" = Ret k ->
  pyval_eqb k output_key = true ->
  _stack_output stack output_key = item o "output_value".
Proof.
  intros Hs Hpre Ho Hk. unfold _stack_output. rewrite Hs. cbn [elements].
  clear Hs. induction pre as [|p pre IH]; simpl.
  - rewrite Ho, Hk. reflexivity.
  - destruct (Hpre p (or_introl eq_refl)) as (kp & -> & ->).
    apply IH. intros q Hq. apply Hpre. right. exact Hq.
Qed.

(** X6: Without a matching output the answer is [None]. *)
Theorem stack_output_absent stack outputs output_key :
  item stack "outputs" = Ret (PList outputs) ->
  (forall p, In p outputs ->
     exists kp, item p "output_key" = Ret kp /\ pyval_eqb kp output_key = false) ->
  _stack_output stack output_key = Ret PNone.
Proof.
  intros Hs H. unfold _stack_output. rewrite Hs. cbn [elements]. clear Hs.
  induction outputs as [|p outputs IH]; simpl; [reflexivity|].
  destruct (H p (or_introl eq_refl)) as (kp & -> & ->).
  apply IH. intros q Hq. apply H. right. exact Hq.
Qed.


(** ** What teardown reports *)

Lemma run_cleanups_errors (P : exn -> Prop) (I : state -> Prop) todo :
  (forall c s, In c todo -> I s ->
     I (state_after (run_cleanup c) s) /\
     forall e, result_of (run_cleanup c) s = Raise e -> P e) ->
  (forall s l, I s -> I (set__cleanups l s)) ->
  forall s errs,
    I s -> result_of (run_cleanups todo) s = Ret errs -> Forall P errs.
Proof.
  intros Hc Hl. induction todo as [|c todo IH]; intros s errs Hi.
  - intros [= <-]. constructor.
  - unfold result_of. cbn [run_cleanups].
    unfold bind at 1, modify. unfold bind at 1, attempt.
    set (s0 := set__cleanups (removelast (_cleanups s)) s).
    destruct (Hc c s0 (or_introl eq_refl) (Hl _ _ Hi)) as [Hi1 He].
    unfold state_after, result_of in Hi1, He.
    destruct (run_cleanup c s0) as [r s1]. cbn [fst snd] in *.
    unfold bind.
    assert (IH' := fun errs' => IH (fun c' s' Hin => Hc c' s' (or_intror Hin))
                                   s1 errs' Hi1).
    unfold result_of in IH'.
    destruct (run_cleanups todo s1) as [[errs2|e2] s2]; [|discriminate].
    unfold ret. cbn [fst]. intros [= <-].
    specialize (IH' errs2 eq_refl).
    destruct r as [u|e]; [exact IH'|].
    constructor; [apply He; reflexivity|exact IH'].
Qed.

(** X7: Teardown of a ledger made of the drain and of entries that go through
    [delete_wrapper], with no wait pending, never reports a NotFound. *)
Theorem teardown_hides_not_found s errs :
  forallb (fun c => is_wrapped c || is_drain c) (_cleanups s) = true ->
  cleanup_waits s = [] ->
  result_of doCleanups s = Ret errs ->
  Forall (fun e => is_NotFound e = false) errs.
Proof.
  intros Hw Hn. unfold result_of, doCleanups. rewrite bind_eq.
  unfold gets. intros H.
  apply (run_cleanups_errors (fun e => is_NotFound e = false)
           (fun s => cleanup_waits s = []) (rev (_cleanups s))) with (s := s);
    [| auto | exact Hn | exact H].
  intros c s0 Hin Hs0. rewrite <- in_rev in Hin.
  rewrite forallb_forall in Hw. specialize (Hw c Hin).
  destruct c as [f a kw]. unfold is_wrapped, is_drain in Hw. cbn in Hw.
  unfold state_after, result_of, run_cleanup. cbn [function args kwargs].
  destruct f as [f| |]; [discriminate| |].
  - destruct a as [|[v|g] a]; try discriminate.
    rewrite delete_wrapper_run. cbn [fst snd]. split; [exact Hs0|].
    intros e. destruct (remote _ _) as [v|e0]; [discriminate|].
    destruct (is_NotFound e0) eqn:N; [discriminate|]. intros [= <-]. exact N.
  - destruct a; [|discriminate]. destruct kw; [|discriminate].
    unfold _wait_for_cleanups. rewrite bind_eq. unfold gets. rewrite Hs0.
    cbn. split; [exact Hs0|discriminate].
Qed.

(** ** Keypairs *)

(** X8: The keypair is deleted by the client method itself, not through
    [delete_wrapper]: whatever the deletion raises at teardown, a NotFound
    included, is reported. *)
Theorem keypair_cleanup_is_bare client s body e :
  _cleanups s = [drain_entry] ->
  cleanup_waits s = [] ->
  result_of (create_keypair client) s = Ret body ->
  (forall t c, target c = (default "keypairs_client" client ++ ".delete_keypair")%string ->
               remote t c = Raise e) ->
  result_of doCleanups (state_after (create_keypair client) s) = Ret [e].
Proof.
  intros Hc Hw Hr He.
  assert (E : exists name t1,
            state_after (create_keypair client) s
            = mkState [drain_entry;
                       Cleanup (Ext (client_method
                                       (default "keypairs_client" client
                                        ++ ".delete_keypair")))
                               [AVal name] []]
                      [] t1 (keypair s) (instance s) (node s)).
  { unfold result_of, state_after, create_keypair, rand_name, addCleanup in *.
    revert Hr. cbv [bind invoke lift ret raise modify].
    destruct (remote (trace s) _) as [name|e1]; [|discriminate].
    destruct (remote _ _) as [b|e1]; [|discriminate].
    intros _. exists name. destruct s as [cl cw tr kp ins nd].
    cbn in Hc, Hw. subst cl cw. eexists. reflexivity. }
  destruct E as (name & t1 & ->).
  unfold result_of, doCleanups. rewrite bind_eq. unfold gets.
  cbn [_cleanups rev app run_cleanups].
  unfold run_cleanup, _wait_for_cleanups.
  cbn [function args kwargs drain_entry].
  cbv [bind attempt modify gets call_ext invoke ret].
  cbn [trace cleanup_waits set__cleanups log_call _cleanups wait_loop fst].
  rewrite (He _ (ext_call (client_method (default "keypairs_client" client
                                          ++ ".delete_keypair")) [AVal name] []))
    by reflexivity.
  reflexivity.
Qed.


(** ** Volumes, floating addresses and snapshots *)

Lemma create_volume_ledger size name snapshot_id imageRef volume_type wod s :
  (exists id,
     _cleanups (state_after (create_volume size name snapshot_id imageRef
                                            volume_type wod) s)
       = _cleanups s ++ volume_cleanups wod id /\
     cleanup_waits (state_after (create_volume size name snapshot_id imageRef
                                               volume_type wod) s)
       = cleanup_waits s ++ volume_waits wod id)
  \/
  ((exists e, result_of (create_volume size name snapshot_id imageRef
                                       volume_type wod) s = Raise e) /\
   exists new,
     trace (state_after (create_volume size name snapshot_id imageRef
                                       volume_type wod) s)
       = trace s ++ new /\
     Forall (fun c => target c = "data_utils.rand_name" \/
                      target c = "volumes_client.create_volume") new).
Proof.
  unfold result_of, state_after, create_volume, rand_name,
    addCleanup_with_wait, addCleanup, assertEqual, getitem.
  cbv [bind invoke lift ret raise modify].
  destruct name as [n|]; crunch.
  all: try (left; eexists; split; cbn; rewrite <- ?app_assoc, ?app_nil_r;
            reflexivity).
  all: right; split; [eexists; reflexivity|]; trace_tail.
Qed.

(** X9: In [create_volume] the deletion is registered before the wait for the
    volume to be available: once that wait is in the log, the ledger holds
    the delete action of the volume. *)
Theorem volume_cleanup_precedes_wait size name snapshot_id imageRef volume_type
    wod s pre c post :
  trace (state_after (create_volume size name snapshot_id imageRef
                                    volume_type wod) s)
    = trace s ++ pre ++ c :: post ->
  target c = "volumes_client.wait_for_volume_status" ->
  exists id,
    In (volume_delete_entry id)
       (_cleanups (state_after (create_volume size name snapshot_id imageRef
                                              volume_type wod) s)).
Proof.
  intros T Hc.
  destruct (create_volume_ledger size name snapshot_id imageRef volume_type wod s)
    as [(id & C & _) | (_ & new & T' & F)].
  - exists id. rewrite C. apply in_or_app. right.
    unfold volume_cleanups. apply in_or_app. right. left. reflexivity.
  - exfalso. rewrite T' in T. apply app_inv_head in T. subst new.
    rewrite Forall_forall in F.
    destruct (F c) as [H|H]; [apply in_or_app; right; left; reflexivity| |];
      rewrite Hc in H; discriminate.
Qed.

(** X10: A volume is waited for once at teardown, after its deletion: in the
    synchronous phase when [wait_on_delete] is set, by the drain
    otherwise. *)
Theorem create_volume_waits_once size name snapshot_id imageRef volume_type
    wod s0 volume :
  _cleanups s0 = [] ->
  result_of (setUp ;; create_volume size name snapshot_id imageRef
                                    volume_type wod) s0 = Ret volume ->
  exists id,
    trace (state_after
             doCleanups
             (state_after (setUp ;; create_volume size name snapshot_id imageRef
                                                  volume_type wod) s0))
      = trace (state_after (setUp ;; create_volume size name snapshot_id imageRef
                                                   volume_type wod) s0)
        ++ [Call "volumes_client.delete_volume" [AVal id] [];
            if wod
            then Call "volumes_client.wait_for_resource_deletion" [AVal id] []
            else Call "volumes_client.wait_for_resource_deletion" []
                      [("id", AVal id)]].
Proof.
  intros H0 Hret.
  set (s1 := mkState [drain_entry] [] (trace s0) (keypair s0) (instance s0) (node s0)).
  assert (E : setUp s0 = (Ret tt, s1)).
  { unfold setUp, addCleanup, bind, modify. simpl. rewrite H0. reflexivity. }
  unfold result_of, state_after in *. rewrite bind_eq in *. rewrite E in *.
  destruct (create_volume_ledger size name snapshot_id imageRef volume_type wod s1)
    as [(id & C & W) | ((e & He) & _)].
  2:{ unfold result_of in He. rewrite He in Hret. discriminate. }
  unfold state_after in C, W.
  destruct (create_volume size name snapshot_id imageRef volume_type wod s1)
    as [r s2].
  cbn [fst snd] in *. simpl in C, W.
  exists id.
  destruct (doCleanups_order s2 (volume_cleanups wod id)) as (k & Hk & T & A & N).
  - exact C.
  - destruct wod; reflexivity.
  - rewrite W. destruct wod; reflexivity.
  - unfold state_after in T. rewrite T. rewrite W in *. clear T A. destruct wod.
    + cbn in Hk. assert (k = 0) by lia. subst k. reflexivity.
    + cbn in Hk, N.
      assert (k = 1) by (specialize (N ltac:(discriminate)); lia). subst k.
      reflexivity.
Qed.

(** X11: The nova floating address is registered for release as soon as its
    identifier is read: whatever happens afterwards, the association
    included, the ledger holds its release. *)
Theorem floating_ip_registered_before_association thing pool_name s
    floating_ip id :
  remote (trace s)
         (Call "floating_ips_client.create_floating_ip"
               [AVal (default PNone pool_name)] []) = Ret floating_ip ->
  item floating_ip "id" = Ret id ->
  _cleanups (state_after (ScenarioTest_create_floating_ip thing pool_name) s)
    = _cleanups s ++ [floating_ip_entry id].
Proof.
  intros R I.
  unfold state_after, ScenarioTest_create_floating_ip, addCleanup, getitem.
  cbv [bind invoke lift ret raise modify]. rewrite R, I.
  crunch; reflexivity.
Qed.

(** X12: The snapshot is registered for deletion only after the wait for the
    image to be active: when that wait fails, [create_server_snapshot]
    raises and neither the ledger nor the wait descriptors have changed. *)
Theorem snapshot_registered_after_wait server name s :
  (forall t c, target c = "image_client.wait_for_image_status" ->
               returns t c = false) ->
  (exists e, result_of (create_server_snapshot server name) s = Raise e) /\
  _cleanups (state_after (create_server_snapshot server name) s) = _cleanups s /\
  cleanup_waits (state_after (create_server_snapshot server name) s)
    = cleanup_waits s.
Proof.
  intros H.
  unfold result_of, state_after, create_server_snapshot, rand_name,
    addCleanup_with_wait, addCleanup, assertEqual, getitem.
  cbv [bind invoke lift ret raise modify].
  destruct name as [n|];
    repeat (cbn [fst snd trace _cleanups cleanup_waits log_call set__cleanups
                 set_cleanup_waits default] in *;
      match goal with
      | |- context [remote ?t (Call "image_client.wait_for_image_status" ?a ?k)] =>
          let E := fresh "W" in
          pose proof (H t (Call "image_client.wait_for_image_status" a k) eq_refl)
            as E;
          unfold returns in E;
          destruct (remote t (Call "image_client.wait_for_image_status" a k));
          [discriminate E|clear E]
      | |- context [remote ?t ?c] =>
          let E := fresh "R" in destruct (remote t c) eqn:E
      | |- context [item ?v ?k] =>
          let E := fresh "I" in destruct (item v k) eqn:E
      | |- context [split_index1 ?v ?k] =>
          let E := fresh "I" in destruct (split_index1 v k) eqn:E
      end).
  all: split; [eexists; reflexivity|split; reflexivity].
Qed.


(** ** More on the connectivity checks *)

(** X13: A negative connectivity check returns only after a ping that did not
    exit with code 0. *)
Theorem negative_check_needs_failed_ping ip username private_key s :
  result_of (check_vm_connectivity ip username private_key false) s = Ret tt ->
  exists pre rc,
    trace (state_after (check_vm_connectivity ip username private_key false) s)
      = trace s ++ pre ++ [ping_call ip] /\
    remote (trace s ++ pre) (ping_call ip) = Ret rc /\
    pyval_eqb rc (PInt 0) = false.
Proof.
  unfold check_vm_connectivity, ping_ip_address, call_until_true.
  set (n := attempts _ 1).
  destruct (poll_ping ip false n s) as (new1 & T1 & _ & H1).
  unfold result_of, state_after in *. rewrite bind_eq.
  destruct (poll n _ 1 s) as [[[|]|e] s1]; cbn [fst snd] in *;
    try discriminate.
  intros _. destruct (H1 eq_refl) as (pre & rc & -> & R & E).
  exists pre, rc. cbn. auto.
Qed.


Lemma console_loop_run servers : forall ids s,
  Forall2 (fun sv id => item sv "id" = Ret id) servers ids ->
  all_return (trace s) (map console_call ids) = true ->
  console_loop servers s = (Ret tt, log_calls (map console_call ids) s).
Proof.
  induction servers as [|sv servers IH]; intros ids s F A.
  - inversion F. subst. reflexivity.
  - inversion F as [|? id ? ids' I F']. subst.
    cbn [map all_return] in A. apply andb_true_iff in A as [A1 A2].
    cbn [console_loop]. unfold getitem. rewrite bind_eq. unfold lift at 1.
    rewrite I. rewrite bind_eq, invoke_eq. fold (console_call id).
    unfold returns in A1.
    destruct (remote (trace s) (console_call id)); [|discriminate].
    cbn [map log_calls]. apply IH; [exact F'|exact A2].
Qed.

(** X15: Given the servers, [_log_console_output] asks for the console of each,
    in order, and does not list the servers; with the feature disabled it
    asks nothing at all. *)
Theorem console_output_per_server servers ids s :
  servers <> [] ->
  Forall2 (fun sv id => item sv "id" = Ret id) servers ids ->
  all_return (trace s) (map console_call ids) = true ->
  _log_console_output (Some (PList servers)) s
  = (Ret tt,
     if compute_feature_enabled_console_output CONF
     then log_calls (map console_call ids) s
     else s).
Proof.
  intros Hne F A. unfold _log_console_output.
  destruct (compute_feature_enabled_console_output CONF); [|reflexivity].
  cbn [negb default truthy].
  destruct servers as [|sv servers]; [congruence|].
  rewrite bind_eq. unfold ret at 1. unfold py_iter. rewrite bind_eq.
  unfold lift at 1. cbn [iter].
  apply console_loop_run; assumption.
Qed.

(** ** More on the bare-metal helpers *)

(** X16: A node whose body carries no provision state counts as unprovisioned:
    the wait for NOSTATE returns at the first poll. *)
Theorem missing_state_is_nostate node_id timeout d s :
  truthy node_id = true ->
  (0 < timeout)%Z ->
  remote (trace s) (show_node_call node_id) = Ret (PDict d) ->
  dict_get d "provision_state" = None ->
  wait_provisioning_state node_id BaremetalProvisionStates.NOSTATE timeout s
  = (Ret tt, log_call (show_node_call node_id) s).
Proof.
  intros Tr Ht R D. unfold wait_provisioning_state.
  rewrite node_state_timeout_run. unfold call_until_true, attempts.
  destruct (Z.ltb_spec timeout 0) as [Hlt|_]; [lia|].
  rewrite poll_S, (check_state_probe _ _ _ _ Tr).
  unfold probe, state_reached. rewrite R. cbn [get_or_none]. rewrite D.
  reflexivity.
Qed.

(** X17: A termination that returns deleted the server, then polled the node
    until the power was off and then until it was unprovisioned, each run
    of polls within its own timeout. *)
Theorem terminate_instance_order s s' inst nd :
  instance s = Some inst ->
  node s = Some nd ->
  terminate_instance s = (Ret tt, s') ->
  exists id uuid k1 k2,
    item inst "id" = Ret id /\
    item nd "uuid" = Ret uuid /\
    trace s' = trace s ++ [delete_server_call id]
               ++ (retries (show_node_call uuid) k1 ++ [show_node_call uuid])
               ++ (retries (show_node_call uuid) k2 ++ [show_node_call uuid]) /\
    k1 < attempts (baremetal_power_timeout CONF) 1 /\
    k2 < attempts (baremetal_unprovision_timeout CONF2) 1 /\
    state_reached "power_state" [BaremetalPowerStates.POWER_OFF]
      (remote (trace s ++ [delete_server_call id]
               ++ retries (show_node_call uuid) k1)
              (show_node_call uuid)) = Ret true /\
    state_reached "provision_state" [BaremetalProvisionStates.NOSTATE]
      (remote (trace s ++ [delete_server_call id]
               ++ (retries (show_node_call uuid) k1 ++ [show_node_call uuid])
               ++ retries (show_node_call uuid) k2)
              (show_node_call uuid)) = Ret true.
Proof.
  intros Hi Hn H. unfold terminate_instance in H.
  inv_bind H as inst' s0 E. apply self_attr_inv in E as [-> In1].
  rewrite Hi in In1. injection In1 as <-.
  inv_bind H as id s0 E. apply getitem_inv in E as [-> Iid].
  inv_bind H as v s0 E. fold (delete_server_call id) in E.
  apply invoke_inv in E as [-> R1].
  set (sa := log_call (delete_server_call id) s) in *.
  inv_bind H as nd' s0 E. apply self_attr_inv in E as [-> Nd1].
  cbn in Nd1. rewrite Hn in Nd1. injection Nd1 as <-.
  inv_bind H as uuid s0 E. apply getitem_inv in E as [-> Iu].
  inv_bind H as u1 s1 E. destruct u1. unfold wait_power_state in E.
  destruct (node_state_reached _ _ _ _ _ _ E) as (k1 & Hk1 & -> & P1). clear E.
  set (l1 := retries (show_node_call uuid) k1 ++ [show_node_call uuid]) in *.
  destruct (log_calls_frame l1 sa) as (_ & _ & _ & _ & Fn).
  inv_bind H as nd' s0 E. apply self_attr_inv in E as [-> Nd2].
  rewrite Fn in Nd2. cbn in Nd2. rewrite Hn in Nd2. injection Nd2 as <-.
  inv_bind H as uuid' s0 E. apply getitem_inv in E as [-> Iu2].
  rewrite Iu in Iu2. injection Iu2 as <-.
  unfold wait_provisioning_state in H.
  destruct (node_state_reached _ _ _ _ _ _ H) as (k2 & Hk2 & -> & P2). clear H.
  exists id, uuid, k1, k2.
  split; [exact Iid|]. split; [exact Iu|].
  rewrite !trace_log_calls. rewrite trace_log_calls in P2.
  unfold sa in *. cbn [trace log_call] in *. unfold l1 in *.
  repeat rewrite <- app_assoc in P1. repeat rewrite <- app_assoc in P2.
  repeat rewrite <- app_assoc.
  split; [reflexivity|]. split; [exact Hk1|]. split; [exact Hk2|].
  split; [exact P1|exact P2].
Qed.

Lemma show_ports_run listed : forall uuids ports s,
  Forall2 (fun p u => item p "uuid" = Ret u) listed uuids ->
  all_return (trace s) (map show_port_call uuids) = true ->
  exists shown,
    show_ports listed ports s
    = (Ret (ports ++ shown), log_calls (map show_port_call uuids) s) /\
    List.length shown = List.length listed.
Proof.
  induction listed as [|p listed IH]; intros uuids ports s F A.
  - inversion F. subst. exists []. rewrite app_nil_r. auto.
  - inversion F as [|? u ? uuids' I F']. subst.
    cbn [map all_return] in A. apply andb_true_iff in A as [A1 A2].
    cbn [show_ports]. unfold getitem. rewrite bind_eq. unfold lift at 1.
    rewrite I. rewrite bind_eq, invoke_eq. fold (show_port_call u).
    unfold returns in A1.
    destruct (remote (trace s) (show_port_call u)) as [v|]; [|discriminate].
    destruct (IH uuids' (ports ++ [v]) (log_call (show_port_call u) s) F' A2)
      as (shown & -> & L).
    exists (v :: shown). rewrite <- app_assoc. cbn. auto.
Qed.

(** X18: [get_ports] shows every port the node lists, in the order of the
    listing, and hands back as many ports as were listed. *)
Theorem get_ports_shows_each node_uuid body listed uuids s :
  remote (trace s) (list_node_ports_call node_uuid) = Ret body ->
  item body "ports" = Ret (PList listed) ->
  Forall2 (fun p u => item p "uuid" = Ret u) listed uuids ->
  all_return (trace s ++ [list_node_ports_call node_uuid])
             (map show_port_call uuids) = true ->
  exists ports,
    result_of (get_ports node_uuid) s = Ret ports /\
    List.length ports = List.length listed /\
    trace (state_after (get_ports node_uuid) s)
      = trace s ++ list_node_ports_call node_uuid :: map show_port_call uuids.
Proof.
  intros R I F A.
  destruct (show_ports_run listed uuids []
              (log_call (list_node_ports_call node_uuid) s) F A)
    as (shown & E & L).
  assert (G : get_ports node_uuid s
              = (Ret shown,
                 log_calls (map show_port_call uuids)
                           (log_call (list_node_ports_call node_uuid) s))).
  { unfold get_ports.
    rewrite bind_eq, invoke_eq. fold (list_node_ports_call node_uuid).
    rewrite R. unfold getitem. rewrite bind_eq. unfold lift at 1. rewrite I.
    rewrite bind_eq. unfold lift at 1. cbn [elements].
    exact E. }
  exists shown. unfold result_of, state_after. rewrite G. cbn [fst snd].
  split; [reflexivity|]. split; [exact L|].
  rewrite trace_log_calls. cbn. rewrite <- app_assoc. reflexivity.
Qed.


(** ** The object storage scenario *)

Lemma assert_all_in_run objs l s :
  exists r,
    assert_all_in objs (PList l) s = (r, s) /\
    (r = Ret tt <-> all_listed objs l = true).
Proof.
  induction objs as [|x objs (r & E & H)].
  - exists (Ret tt). split; [reflexivity|]. split; reflexivity.
  - cbn [assert_all_in all_listed forallb]. unfold assertIn.
    cbv [bind lift ret raise contains].
    destruct (existsb (pyval_eqb x) l).
    + exists r. rewrite E. split; [reflexivity|exact H].
    + eexists. split; [reflexivity|]. split; discriminate.
Qed.

Lemma assert_none_in_run objs l s :
  exists r,
    assert_none_in objs (PList l) s = (r, s) /\
    (r = Ret tt <-> none_listed objs l = true).
Proof.
  induction objs as [|x objs (r & E & H)].
  - exists (Ret tt). split; [reflexivity|]. split; reflexivity.
  - cbn [assert_none_in none_listed forallb]. unfold assertNotIn.
    cbv [bind lift ret raise contains].
    destruct (existsb (pyval_eqb x) l).
    + eexists. split; [reflexivity|]. split; discriminate.
    + exists r. rewrite E. split; [reflexivity|exact H].
Qed.

(** X19: The container check passes exactly when every object expected is in
    the listing and none of the objects excluded is; it makes the one
    listing call and nothing else. *)
Theorem container_listing_check container_name present_obj not_present_obj l s :
  remote (trace s) (list_contents_call container_name) = Ret (PList l) ->
  (result_of (list_and_check_container_objects container_name present_obj
                                               not_present_obj) s = Ret tt
   <-> all_listed (default [] present_obj) l
       && none_listed (default [] not_present_obj) l = true) /\
  state_after (list_and_check_container_objects container_name present_obj
                                                not_present_obj) s
  = log_call (list_contents_call container_name) s.
Proof.
  intros R. unfold result_of, state_after, list_and_check_container_objects.
  rewrite bind_eq, invoke_eq. fold (list_contents_call container_name).
  rewrite R. set (s1 := log_call _ s). rewrite bind_eq.
  destruct (assert_all_in_run (default [] present_obj) l s1) as (r1 & -> & H1).
  destruct r1 as [[]|e1].
  - destruct (assert_none_in_run (default [] not_present_obj) l s1)
      as (r2 & -> & H2).
    cbn [fst snd]. split; [|reflexivity].
    rewrite andb_true_iff, <- H2. split.
    + intros ->. split; [apply H1|]; reflexivity.
    + intros [_ E]. exact E.
  - cbn [fst snd]. split; [|reflexivity].
    rewrite andb_true_iff, <- H1. split; [discriminate|].
    intros [E _]. discriminate.
Qed.

Lemma create_container_returns container_name s name :
  result_of (create_container container_name) s = Ret name ->
  _cleanups (state_after (create_container container_name) s)
    = _cleanups s ++ [container_entry name] /\
  cleanup_waits (state_after (create_container container_name) s)
    = cleanup_waits s.
Proof.
  unfold result_of, state_after, create_container,
    list_and_check_container_objects, rand_name, addCleanup.
  cbn [default assert_all_in assert_none_in].
  cbv [bind invoke lift ret raise modify].
  destruct (truthy (default PNone container_name)); crunch;
    intros [= <-]; auto.
Qed.

Lemma upload_object_returns container_name obj_name s obj data :
  result_of (upload_object_to_container container_name obj_name) s
    = Ret (obj, data) ->
  _cleanups (state_after (upload_object_to_container container_name obj_name) s)
    = _cleanups s ++ [object_entry container_name obj] /\
  cleanup_waits (state_after (upload_object_to_container container_name
                                                         obj_name) s)
    = cleanup_waits s.
Proof.
  unfold result_of, state_after, upload_object_to_container, rand_name,
    addCleanup.
  cbv [bind invoke lift ret raise modify].
  destruct (truthy (default PNone obj_name)); crunch;
    intros [= <- <-]; auto.
Qed.

(** X20: A container is registered for deletion only once its listing has been
    checked: a creation that fails, at the create call or at the listing
    after it, leaves the ledger as it was. *)
Theorem failed_container_is_not_registered container_name s e :
  result_of (create_container container_name) s = Raise e ->
  _cleanups (state_after (create_container container_name) s) = _cleanups s /\
  cleanup_waits (state_after (create_container container_name) s)
    = cleanup_waits s.
Proof.
  unfold result_of, state_after, create_container,
    list_and_check_container_objects, rand_name, addCleanup.
  cbn [default assert_all_in assert_none_in].
  cbv [bind invoke lift ret raise modify].
  destruct (truthy (default PNone container_name)); crunch;
    intros; try discriminate; auto.
Qed.

(** X21: At teardown the object uploaded into a container is deleted before
    the container. *)
Theorem object_deleted_before_container container_name obj_name s name obj data :
  _cleanups s = [drain_entry] ->
  cleanup_waits s = [] ->
  result_of (create_container container_name) s = Ret name ->
  result_of (upload_object_to_container name obj_name)
            (state_after (create_container container_name) s)
    = Ret (obj, data) ->
  trace (state_after doCleanups
           (state_after (upload_object_to_container name obj_name)
                        (state_after (create_container container_name) s)))
  = trace (state_after (upload_object_to_container name obj_name)
                       (state_after (create_container container_name) s))
    ++ [delete_object_call name obj; delete_container_call name].
Proof.
  intros Hc Hw R1 R2.
  destruct (create_container_returns _ _ _ R1) as (C1 & W1).
  set (s1 := state_after (create_container container_name) s) in *.
  destruct (upload_object_returns _ _ _ _ _ R2) as (C2 & W2).
  set (s2 := state_after (upload_object_to_container name obj_name) s1) in *.
  rewrite C1, Hc in C2. rewrite W1, Hw in W2. cbn [app] in C2.
  destruct (doCleanups_order s2 [container_entry name; object_entry name obj] C2)
    as (k & Hk & T & _).
  - reflexivity.
  - rewrite W2. reflexivity.
  - rewrite T, W2. cbn. destruct k; reflexivity.
Qed.

(** ** More of the network scenario *)

(** X22: Unless the server has exactly one port, the neutron floating IP is
    not created: the port listing is the only call made, nothing is
    registered, and the assertion fails. *)
Theorem floating_ip_needs_one_port thing external_network_id client
    server_id listing ports s :
  item thing "id" = Ret server_id ->
  remote (trace s) (list_ports_call server_id) = Ret listing ->
  item listing "ports" = Ret (PList ports) ->
  List.length ports <> 1 ->
  (exists msg,
     result_of (NetworkScenarioTest_create_floating_ip
                  thing external_network_id None client) s
     = Raise (AssertionError msg)) /\
  state_after (NetworkScenarioTest_create_floating_ip
                 thing external_network_id None client) s
  = log_call (list_ports_call server_id) s.
Proof.
  intros Hid R I N.
  assert (G : _get_server_port_id thing None s
              = (Raise (AssertionError
                          "Unable to determine which port to target."),
                 log_call (list_ports_call server_id) s)).
  { unfold _get_server_port_id, _list_ports, _admin_lister, getitem, py_len,
      assertEqualMsg.
    rewrite bind_eq. unfold lift at 1. rewrite Hid.
    rewrite bind_eq, bind_eq, invoke_eq. cbn [default String.append].
    change (Call _ _ _) with (list_ports_call server_id). rewrite R.
    unfold lift at 1. rewrite I. rewrite bind_eq. unfold lift at 1.
    cbn [len]. rewrite bind_eq. cbn [pyval_eqb].
    destruct (Z.eqb_spec (Z.of_nat (List.length ports)) 1) as [E|_]; [lia|].
    reflexivity. }
  unfold result_of, state_after, NetworkScenarioTest_create_floating_ip.
  cbn [default truthy]. rewrite bind_eq, G. cbn [fst snd].
  split; [eexists; reflexivity|reflexivity].
Qed.

(** X23: A configured public router is looked up and handed back as it is:
    nothing is created and nothing is registered for deletion.  With
    neither a public router nor a public network configured the lookup
    fails before any call. *)
Theorem get_router_prefers_configured client tenant_id s :
  (network_public_router_id CONF2 <> EmptyString ->
   state_after (_get_router client tenant_id) s
   = log_call (Call (default "network_client" client ++ ".show_router")
                    [AVal (PStr (network_public_router_id CONF2))] []) s) /\
  (network_public_router_id CONF2 = EmptyString ->
   network_public_network_id CONF2 = EmptyString ->
   exists msg,
     _get_router client tenant_id s = (Raise (OtherException msg), s)).
Proof.
  unfold state_after, _get_router. cbn [truthy]. split.
  - intros H. destruct (String.eqb_spec (network_public_router_id CONF2)
                                        EmptyString) as [E|_]; [congruence|].
    cbn [negb]. unfold getitem, Deletable.
    cbv [bind invoke lift ret raise]. crunch; reflexivity.
  - intros -> ->. cbn. eexists. reflexivity.
Qed.

(** X24: With the bare-metal driver the networks are shared: the fixed network
    is looked up by name, nothing is created or registered, and neither a
    subnet nor a router is handed back. *)
Theorem baremetal_networks_are_shared client tenant_id s :
  baremetal_driver_enabled CONF2 = true ->
  state_after (create_networks client tenant_id) s
  = log_call (list_networks_call (PStr (compute_fixed_network_name CONF2))) s /\
  forall network subnet router,
    result_of (create_networks client tenant_id) s
    = Ret (network, subnet, router) ->
    subnet = PNone /\ router = PNone /\
    exists listing nets first,
      remote (trace s)
             (list_networks_call (PStr (compute_fixed_network_name CONF2)))
      = Ret listing /\
      item listing "networks" = Ret nets /\
      index0 nets = Ret first /\
      AttributeDict first = Ret network.
Proof.
  intros H. unfold result_of, state_after, create_networks. rewrite H.
  unfold _get_network_by_name, _list_networks, _admin_lister, getitem.
  cbv [bind invoke lift ret raise]. cbn [String.append].
  change (Call _ _ _)
    with (list_networks_call (PStr (compute_fixed_network_name CONF2))).
  destruct (remote (trace s) _) as [listing|e] eqn:R; cbn [fst snd].
  2:{ split; [reflexivity|discriminate]. }
  destruct (item listing "networks") as [nets|e] eqn:I; cbn [fst snd].
  2:{ split; [reflexivity|discriminate]. }
  destruct (index0 nets) as [first|e] eqn:F; cbn [fst snd].
  2:{ split; [reflexivity|discriminate]. }
  destruct (AttributeDict first) as [n|e] eqn:P; cbn [fst snd].
  2:{ split; [reflexivity|discriminate]. }
  split; [reflexivity|]. intros network subnet router [= <- <- <-].
  split; [reflexivity|]. split; [reflexivity|].
  exists listing, nets, first. auto.
Qed.

(** X25: A security group rule is registered for deletion as soon as it exists,
    before its tenant and its group are checked: whatever the checks say,
    the rule is on the ledger. *)
Theorem rule_registered_before_checks secgroup client tenant_id kw s
    sid stenant answer attrs :
  attr secgroup "id" = Ret sid ->
  attr secgroup "tenant_id" = Ret stenant ->
  remote (trace s)
         (Call (default "network_client" client ++ ".create_security_group_rule")
               []
               (dict_update [("security_group_id", AVal sid);
                             ("tenant_id", AVal stenant)] kw))
    = Ret answer ->
  item answer "security_group_rule" = Ret (PDict attrs) ->
  _cleanups (state_after (_create_security_group_rule (Some secgroup) client
                                                      tenant_id kw) s)
  = _cleanups s
    ++ [resource_entry "DeletableSecurityGroupRule.delete" (PDict attrs)].
Proof.
  intros Hid Ht R I.
  unfold state_after, _create_security_group_rule, getattr, getitem, Deletable,
    addCleanup, assertEqual.
  cbv [bind invoke lift ret raise modify].
  rewrite Hid, Ht, R, I. cbn [proxy].
  crunch; reflexivity.
Qed.


(** ** What the network factories leave on the ledger *)

Lemma kl_ret {A} (a : A) : keeps_ledger (ret a).
Proof. intros s. split; reflexivity. Qed.

Lemma kl_raise {A} e : keeps_ledger (@raise A e).
Proof. intros s. split; reflexivity. Qed.

Lemma kl_lift {A} (o : outcome A) : keeps_ledger (lift o).
Proof. intros s. split; reflexivity. Qed.

Lemma kl_invoke c : keeps_ledger (invoke c).
Proof. intros s. split; reflexivity. Qed.

Lemma kl_bind {A B} (m : M A) (k : A -> M B) :
  keeps_ledger m -> (forall a, keeps_ledger (k a)) -> keeps_ledger (bind m k).
Proof.
  intros Hm Hk s. destruct (Hm s) as (C1 & W1).
  unfold state_after in *. rewrite bind_eq.
  destruct (m s) as [[a|e] s1]; cbn [snd] in *; [|auto].
  destruct (Hk a s1) as (C2 & W2). unfold state_after in *.
  rewrite C2, W2. auto.
Qed.

Lemma kl_try_except {A} (m : M A) caught handler :
  keeps_ledger m -> (forall e, keeps_ledger (handler e)) ->
  keeps_ledger (try_except m caught handler).
Proof.
  intros Hm Hh s. destruct (Hm s) as (C1 & W1).
  unfold state_after, try_except in *.
  destruct (m s) as [[a|e] s1]; cbn [snd] in *; [auto|].
  destruct (caught e); [|auto].
  destruct (Hh e s1) as (C2 & W2). unfold state_after in *.
  rewrite C2, W2. auto.
Qed.

Ltac kl :=
  repeat first
    [ apply kl_ret | apply kl_raise | apply kl_lift | apply kl_invoke
    | apply kl_bind; [|intros ?]
    | apply kl_try_except; [|intros ?]
    | match goal with
      | |- keeps_ledger (if ?b then _ else _) => destruct b
      | |- keeps_ledger (match ?x with _ => _ end) => destruct x
      end ].

Lemma kl_subnet_loop network client namestart kw blocks :
  keeps_ledger (subnet_loop network client namestart kw blocks).
Proof.
  induction blocks as [|b rest IH]; cbn [subnet_loop]; [apply kl_ret|].
  unfold getattr, cidr_in_use, _list_subnets, _admin_lister, getitem, py_len,
    rand_name.
  kl; exact IH.
Qed.


Lemma keeps_ledger_run {A} (m : M A) s r s1 :
  keeps_ledger m -> m s = (r, s1) ->
  _cleanups s1 = _cleanups s /\ cleanup_waits s1 = cleanup_waits s.
Proof.
  intros K E. specialize (K s). unfold state_after in K. rewrite E in K.
  exact K.
Qed.

Lemma create_network_returns client tenant_id namestart s network s1 :
  _create_network client tenant_id namestart s = (Ret network, s1) ->
  _cleanups s1
    = _cleanups s ++ [resource_entry "DeletableNetwork.delete" network] /\
  cleanup_waits s1 = cleanup_waits s.
Proof.
  unfold _create_network, rand_name, getitem, getattr, Deletable, addCleanup,
    assertEqual.
  cbv [bind invoke lift ret raise modify].
  crunch; intros [= <- <-]; auto.
Qed.

Lemma get_router_returns client tenant_id s router s1 :
  _get_router client tenant_id s = (Ret router, s1) ->
  _cleanups s1
    = _cleanups s
      ++ (if truthy (PStr (network_public_router_id CONF2)) then []
          else [resource_entry "DeletableRouter.delete" router]) /\
  cleanup_waits s1 = cleanup_waits s.
Proof.
  unfold _get_router, _create_router, call_ext, rand_name, getitem, getattr,
    Deletable, addCleanup, assertEqual.
  cbv [bind invoke lift ret raise modify].
  destruct (truthy (PStr (network_public_router_id CONF2)));
    [|destruct (truthy (PStr (network_public_network_id CONF2)))];
    crunch; intros [= <- <-]; rewrite ?app_nil_r; auto.
Qed.

Lemma create_subnet_returns network client namestart kw s subnet s1 :
  _create_subnet network client namestart kw s = (Ret subnet, s1) ->
  _cleanups s1
    = _cleanups s ++ [resource_entry "DeletableSubnet.delete" subnet] /\
  cleanup_waits s1 = cleanup_waits s.
Proof.
  unfold _create_subnet. intros H.
  inv_bind H as found s0 E.
  destruct (keeps_ledger_run _ _ _ _ (kl_subnet_loop _ _ _ _ _) E) as (C & W).
  rewrite <- C, <- W. clear E C W. revert H.
  unfold assertIsNotNone, getitem, getattr, Deletable, addCleanup, assertEqual.
  cbv [bind invoke lift ret raise modify].
  destruct found as [[[] c]|]; crunch; intros [= <- <-]; auto.
Qed.



(** X26: The network, its router and its subnet are torn down in the reverse
    of the order they were made in: the subnet first, then the router when
    it was created for the test and not a configured one, the network
    last. *)
Theorem networks_torn_down_in_reverse client tenant_id s network subnet router :
  baremetal_driver_enabled CONF2 = false ->
  _cleanups s = [drain_entry] ->
  cleanup_waits s = [] ->
  result_of (create_networks client tenant_id) s
    = Ret (network, subnet, router) ->
  trace (state_after doCleanups (state_after (create_networks client tenant_id) s))
  = trace (state_after (create_networks client tenant_id) s)
    ++ [resource_call "DeletableSubnet.delete" subnet]
    ++ (if truthy (PStr (network_public_router_id CONF2)) then []
        else [resource_call "DeletableRouter.delete" router])
    ++ [resource_call "DeletableNetwork.delete" network].
Proof.
  intros Hb Hc Hw. unfold result_of, state_after.
  destruct (create_networks client tenant_id s) as [r s4] eqn:H.
  cbn [fst snd]. intros ->. unfold create_networks in H. rewrite Hb in H.
  inv_bind H as network' s1 E1.
  apply create_network_returns in E1 as (C1 & W1).
  inv_bind H as router' s2 E2.
  apply get_router_returns in E2 as (C2 & W2).
  inv_bind H as subnet' s3 E3.
  apply create_subnet_returns in E3 as (C3 & W3).
  inv_bind H as router_id s0 E4. unfold getattr, lift in E4.
  injection E4 as _ <-.
  inv_bind H as v s0 E5. unfold call_ext in E5.
  apply invoke_inv in E5 as [-> _].
  unfold ret in H. injection H as <- <- <- <-.
  cbn [_cleanups cleanup_waits log_call trace].
  rewrite C2, C1, Hc in C3. rewrite W2, W1, Hw in W3.
  set (sf := log_call _ s3).
  assert (Cf : _cleanups sf = _cleanups s3) by reflexivity.
  assert (Wf : cleanup_waits sf = cleanup_waits s3) by reflexivity.
  rewrite C3 in Cf. rewrite W3 in Wf. cbn [app] in Cf.
  destruct (truthy (PStr (network_public_router_id CONF2))).
  - destruct (doCleanups_order sf _ Cf) as (k & Hk & T & _);
      [reflexivity|rewrite Wf; reflexivity|].
    fold (state_after doCleanups sf). rewrite T, Wf.
    destruct k; reflexivity.
  - destruct (doCleanups_order sf _ Cf) as (k & Hk & T & _);
      [reflexivity|rewrite Wf; reflexivity|].
    fold (state_after doCleanups sf). rewrite T, Wf.
    destruct k; reflexivity.
Qed.

(** ** Security groups *)












End Scenario.

Lemma delete_wrapper_idempotent_witness :
  result_of
    (delete_wrapper world_gone
       (ACall (client_method "servers_client.delete_server"))
       [AVal (PStr "srv-1")] [])
    (fresh []) = Ret tt.
Proof.
  apply (delete_wrapper_idempotent world_gone
           (client_method "servers_client.delete_server")
           [AVal (PStr "srv-1")] [] (fresh []) (NotFound "Object not found")).
  reflexivity.
Defined.

(** The demo registrations torn down in a calm cloud: deletes in reverse
    order of registration, then the waits in order of registration. *)
Example teardown_demo :
  trace (state_after (doCleanups world_calm) demo_state)
  = [ Call "image_client.delete_image" [AVal (PStr "img-1")] [];
      Call "volumes_client.delete_volume" [AVal (PStr "vol-1")] [];
      Call "servers_client.delete_server" [AVal (PStr "srv-1")] [];
      Call "keypairs_client.delete_keypair" [AVal (PStr "kp-1")] [];
      Call "servers_client.wait_for_server_termination" []
           [("server_id", AVal (PStr "srv-1"))];
      Call "volumes_client.wait_for_resource_deletion" []
           [("id", AVal (PStr "vol-1"))];
      Call "image_client.wait_for_resource_deletion" []
           [("id", AVal (PStr "img-1"))] ].
Proof. reflexivity. Qed.

Lemma teardown_order_witness :
  exists k,
    k <= List.length (waiter_calls demo_registrations) /\
    trace (state_after
             (setUp ;; register_all demo_registrations ;; doCleanups world_calm)%py
             (fresh []))
      = trace (fresh []) ++ rev (sync_calls demo_registrations)
        ++ firstn k (waiter_calls demo_registrations) /\
    (all_return world_calm (trace (fresh []) ++ rev (sync_calls demo_registrations))
                (waiter_calls demo_registrations) = true ->
     k = List.length (waiter_calls demo_registrations)).
Proof.
  apply (teardown_order world_calm demo_registrations (fresh [])); reflexivity.
Defined.

Lemma create_server_waits_twice_witness :
  exists id,
    cleanup_waits
      (state_after (setUp ;; create_server world_calm demo_config
                                None None None true true None)%py (fresh []))
      = [server_wait id] /\
    trace
      (state_after
         (doCleanups world_calm)
         (state_after (setUp ;; create_server world_calm demo_config
                                   None None None true true None)%py (fresh [])))
      = trace (state_after (setUp ;; create_server world_calm demo_config
                                       None None None true true None)%py (fresh []))
        ++ [Call "servers_client.delete_server" [AVal id] []]
        ++ [Call "servers_client.wait_for_server_termination" [AVal id] []]
        ++ [Call "servers_client.wait_for_server_termination" []
                 [("server_id", AVal id)]].
Proof.
  apply (create_server_waits_twice world_calm demo_config
           None None None true true None (fresh []) demo_server);
    reflexivity.
Defined.

Lemma drain_stops_at_first_failure_witness :
  result_of (_wait_for_cleanups world_stuck_volume) demo_state
    = Raise (TimeoutException "volume vol-1 failed to delete") /\
  trace (state_after (_wait_for_cleanups world_stuck_volume) demo_state)
    = [ Call "servers_client.wait_for_server_termination" []
             [("server_id", AVal (PStr "srv-1"))];
        Call "volumes_client.wait_for_resource_deletion" []
             [("id", AVal (PStr "vol-1"))] ].
Proof.
  apply (drain_stops_at_first_failure world_stuck_volume demo_state
           [server_wait (PStr "srv-1")]
           [("waiter_callable",
             ACall (client_method "volumes_client.wait_for_resource_deletion"));
            ("id", AVal (PStr "vol-1"))]
           [[("waiter_callable",
              ACall (client_method "image_client.wait_for_resource_deletion"));
             ("id", AVal (PStr "img-1"))]]
           (Call "volumes_client.wait_for_resource_deletion" []
                 [("id", AVal (PStr "vol-1"))])
           (TimeoutException "volume vol-1 failed to delete"));
    reflexivity.
Defined.

(** In [world_unreachable] the check fails on the ping, and the failure
    that comes out of the checker is the one of the console capture. *)
Lemma capture_masks_failure :
  result_of (check_vm_connectivity world_unreachable demo_config
               (PStr "10.0.0.5") None None true) (fresh [])
    = Raise (AssertionError "Timed out waiting for 10.0.0.5 to become reachable")
  /\
  result_of (check_public_network_connectivity world_unreachable demo_config
               (PStr "10.0.0.5") None None true None None) (fresh [])
    = Raise (OtherException "ServerFault: compute API unavailable").
Proof. split; reflexivity. Qed.

Lemma failure_then_diagnostics_witness :
  result_of (check_public_network_connectivity world_unreachable demo_config
               (PStr "10.0.0.5") None None true None None) (fresh [])
    = Raise (OtherException "ServerFault: compute API unavailable").
Proof.
  refine (proj1 (proj2
    (failure_then_diagnostics world_unreachable demo_config
       (PStr "10.0.0.5") None None true None None (fresh [])
       (AssertionError "Timed out waiting for 10.0.0.5 to become reachable")
       (snd (check_vm_connectivity world_unreachable demo_config
               (PStr "10.0.0.5") None None true (fresh [])))
       _)) _ _); reflexivity.
Defined.

(** The neutron variant in a cloud that already has the rules: four
    attempts, all skipped, and an empty list of new rules. *)
Example neutron_duplicates_skipped :
  result_of (NetworkScenarioTest__create_loginable_secgroup_rule
               world_duplicate_rules demo_config None (Some demo_secgroup))
            (fresh []) = Ret []
  /\
  map target
      (trace (state_after
                (NetworkScenarioTest__create_loginable_secgroup_rule
                   world_duplicate_rules demo_config None (Some demo_secgroup))
                (fresh [])))
  = [ "network_client.create_security_group_rule";
      "network_client.create_security_group_rule";
      "network_client.create_security_group_rule";
      "network_client.create_security_group_rule" ].
Proof. split; reflexivity. Qed.

(** The nova-network variant has no handler: the same Conflict fails it. *)
Lemma nova_duplicate_rule_fails :
  result_of (ScenarioTest__create_loginable_secgroup_rule
               world_duplicate_rules (Some (PStr "sg-1"))) (fresh [])
  = Raise (Conflict "Security group rule already exists. Group id is sg-1.").
Proof. reflexivity. Qed.

Lemma duplicate_rule_is_skipped_witness :
  str_in "Security group rule already exists"
         "Quota exceeded for resources: ['security_group_rule']" = false.
Proof.
  apply (proj1 (duplicate_rule_is_skipped world_rule_quota demo_config)
               None (Some demo_secgroup) (fresh [])).
  reflexivity.
Defined.

(** A boot in [world_metal]: one failed poll for the power, none for the
    intermediate provisioning check, one for the active state. *)
Example boot_demo :
  result_of (boot_instance world_metal demo_config) demo_keyed = Ret tt /\
  map target (trace (state_after (boot_instance world_metal demo_config) demo_keyed))
  = [ "data_utils.rand_name"; "servers_client.create_server";
      "servers_client.get_server";
      "baremetal_client.show_node_by_instance_uuid";
      "baremetal_client.show_node_by_instance_uuid";
      "baremetal_client.show_node"; "time.sleep"; "baremetal_client.show_node";
      "baremetal_client.show_node";
      "baremetal_client.show_node"; "time.sleep"; "baremetal_client.show_node";
      "servers_client.wait_for_server_status";
      "baremetal_client.show_node_by_instance_uuid";
      "servers_client.get_server" ].
Proof. split; vm_compute; reflexivity. Qed.

Lemma boot_sequence_witness :
  booted world_metal demo_config demo_keyed
         (state_after (boot_instance world_metal demo_config) demo_keyed).
Proof.
  apply (proj1 (boot_sequence world_metal demo_config)).
  vm_compute. reflexivity.
Defined.

(** When no node gets associated, the boot fails in the association stage
    with a message that names neither a state attribute nor a target
    state. *)
Lemma association_timeout_names_no_state :
  result_of (boot_instance world_unassociated demo_config) demo_keyed
    = Raise (TimeoutException
               "Timed out waiting to get Ironic node by instance id srv-1") /\
  str_in "state" "Timed out waiting to get Ironic node by instance id srv-1"
    = false.
Proof. split; vm_compute; reflexivity. Qed.

(** A pool of three blocks in [world_third_block]: the first is skipped,
    the second retried, the third allocated. *)
Example subnet_third_block :
  result_of (_create_subnet world_third_block demo_config demo_network
                            None "subnet-smoke" []) (fresh [])
    = Ret (PDict [("id", PStr "sub-1"); ("cidr", PStr "10.100.0.32/28")]) /\
  map target
      (trace (state_after (_create_subnet world_third_block demo_config
                             demo_network None "subnet-smoke" []) (fresh [])))
    = [ "admin_manager.network_client.list_subnets";
        "admin_manager.network_client.list_subnets";
        "data_utils.rand_name"; "network_client.create_subnet";
        "admin_manager.network_client.list_subnets";
        "data_utils.rand_name"; "network_client.create_subnet" ].
Proof. split; vm_compute; reflexivity. Qed.

Lemma subnet_allocation_witness :
  _create_subnet world_full_pool demo_config demo_network None "subnet-smoke" []
                 (fresh [])
  = (Raise (AssertionError "Unable to allocate tenant network"),
     snd (subnet_loop world_full_pool demo_network "network_client"
                      "subnet-smoke" [] (network_tenant_subnets demo_config)
                      (fresh []))).
Proof.
  apply (proj1 (subnet_allocation world_full_pool demo_config demo_network
                  None "subnet-smoke" [])).
  vm_compute. reflexivity.
Defined.

(** C2 at a failing input: the cloud creates network net-9 under another
    name than requested.  [_create_network] fails its assertion before
    any cleanup is registered, so the ledger holds the drain only and
    teardown issues no delete for net-9. *)
Lemma create_network_leaks_on_assertion :
  result_of (_create_network world_name_drift demo_config None None
                             "network-smoke-")
            (state_after setUp (fresh []))
    = Raise (AssertionError "smoke-2 != smoke-1") /\
  map target
      (trace (state_after (_create_network world_name_drift demo_config None None
                                           "network-smoke-")
                          (state_after setUp (fresh []))))
    = ["data_utils.rand_name"; "network_client.create_network"] /\
  _cleanups (state_after (_create_network world_name_drift demo_config None None
                                          "network-smoke-")
                         (state_after setUp (fresh [])))
    = [drain_entry] /\
  map target
      (trace (state_after
                (attempt (_create_network world_name_drift demo_config None None
                                          "network-smoke-") ;;
                 doCleanups world_name_drift)%py
                (state_after setUp (fresh []))))
    = ["data_utils.rand_name"; "network_client.create_network"].
Proof. repeat split; vm_compute; reflexivity. Qed.

(** The same drift on a server: [create_server] fails the same assertion,
    but the cleanup was registered first and teardown deletes srv-9. *)
Example create_server_cleans_on_assertion :
  result_of (create_server world_name_drift demo_config None None None
                           true false None)
            (state_after setUp (fresh []))
    = Raise (AssertionError "smoke-2 != smoke-1") /\
  trace (state_after
           (attempt (create_server world_name_drift demo_config None None None
                                   true false None) ;;
            doCleanups world_name_drift)%py
           (state_after setUp (fresh [])))
    = [ Call "data_utils.rand_name" [AVal (PStr "TestServerOps")] [];
        Call "servers_client.create_server"
             [AVal (PStr "smoke-1"); AVal (PStr "cirros"); AVal (PStr "m1.tiny")] [];
        Call "servers_client.wait_for_server_status" []
             [("server_id", AVal (PStr "srv-9")); ("status", AVal (PStr "ACTIVE"))];
        Call "servers_client.get_server" [AVal (PStr "srv-9")] [];
        Call "servers_client.delete_server" [AVal (PStr "srv-9")] [];
        Call "servers_client.wait_for_server_termination" []
             [("server_id", AVal (PStr "srv-9"))] ].
Proof. split; vm_compute; reflexivity. Qed.

(** ** The further properties at concrete inputs *)

Lemma find_value_first_witness :
  HorizonHTMLParser._find_value
    ([("name", Some "region"); ("type", None)]
     ++ ("value", Some "RegionOne") :: [("value", Some "RegionTwo")])
  = Some "RegionOne".
Proof.
  refine (proj1 (find_value_first [("name", Some "region"); ("type", None)] _)
                _ _).
  intros p [<-|[<-|[]]]; discriminate.
Defined.

Lemma parser_ignores_other_tags_witness :
  HorizonHTMLParser.handle_starttags
    HorizonHTMLParser.init
    [("form", [("name", Some "csrfmiddlewaretoken"); ("value", Some "tok-0")])]
  = HorizonHTMLParser.init.
Proof.
  apply parser_ignores_other_tags. intros t [<-|[]]. discriminate.
Defined.

Lemma last_token_wins_witness :
  HorizonHTMLParser.csrf_token
    (HorizonHTMLParser.handle_starttags
       HorizonHTMLParser.init
       ([("input", [("name", Some "csrfmiddlewaretoken");
                    ("value", Some "tok-1")])]
        ++ ("input", [("name", Some "csrfmiddlewaretoken");
                      ("value", Some "tok-2")])
        :: [("input", [("name", Some "region"); ("value", Some "RegionOne")])]))
  = Some "tok-2".
Proof.
  apply (last_token_wins
           HorizonHTMLParser.init
           [("input", [("name", Some "csrfmiddlewaretoken");
                       ("value", Some "tok-1")])]
           [("name", Some "csrfmiddlewaretoken"); ("value", Some "tok-2")]
           [("input", [("name", Some "region"); ("value", Some "RegionOne")])]).
  - reflexivity.
  - intros t [<-|[]] _. reflexivity.
Defined.

Lemma stack_output_first_match_witness :
  _stack_output demo_stack (PStr "server_ip") = Ret (PStr "10.0.0.5").
Proof.
  apply (stack_output_first_match
           demo_stack
           [PDict [("output_key", PStr "WebsiteURL");
                   ("output_value", PStr "http://10.0.0.5/")]]
           (PDict [("output_key", PStr "server_ip");
                   ("output_value", PStr "10.0.0.5")])
           [PDict [("output_key", PStr "server_ip");
                   ("output_value", PStr "10.0.0.6")]]
           (PStr "server_ip") (PStr "server_ip")).
  - reflexivity.
  - intros p [<-|[]]. eexists. split; reflexivity.
  - reflexivity.
  - reflexivity.
Defined.

Lemma stack_output_absent_witness :
  _stack_output demo_stack (PStr "floating_ip") = Ret PNone.
Proof.
  apply (stack_output_absent
           demo_stack
           [PDict [("output_key", PStr "WebsiteURL");
                   ("output_value", PStr "http://10.0.0.5/")];
            PDict [("output_key", PStr "server_ip");
                   ("output_value", PStr "10.0.0.5")];
            PDict [("output_key", PStr "server_ip");
                   ("output_value", PStr "10.0.0.6")]]
           (PStr "floating_ip")).
  - reflexivity.
  - intros p [<-|[<-|[<-|[]]]]; eexists; split; reflexivity.
Defined.

Lemma teardown_hides_not_found_witness :
  Forall (fun e => is_NotFound e = false)
         [Conflict "Volume in use"].
Proof.
  apply (teardown_hides_not_found world_in_use wrapped_state
                                  [Conflict "Volume in use"]);
    reflexivity.
Defined.

Lemma keypair_cleanup_is_bare_witness :
  result_of (doCleanups world_keypairs)
            (state_after (create_keypair world_keypairs demo_config None)
                         (state_after setUp (fresh [])))
  = Ret [NotFound "Keypair not found"].
Proof.
  apply (keypair_cleanup_is_bare world_keypairs demo_config None
                                 (state_after setUp (fresh [])) demo_keypair).
  - reflexivity.
  - reflexivity.
  - reflexivity.
  - intros t c H. unfold world_keypairs, world_of. rewrite H. reflexivity.
Defined.

Lemma volume_cleanup_precedes_wait_witness :
  exists id,
    In (volume_delete_entry id)
       (_cleanups (state_after (create_volume world_volumes demo_config (PInt 1)
                                              None None None None false)
                               (fresh []))).
Proof.
  apply (volume_cleanup_precedes_wait
           world_volumes demo_config (PInt 1) None None None None false
           (fresh [])
           (firstn 2 (trace (state_after
                               (create_volume world_volumes demo_config (PInt 1)
                                              None None None None false)
                               (fresh []))))
           (Call "volumes_client.wait_for_volume_status"
                 [AVal (PStr "vol-1"); AVal (PStr "available")] [])
           [Call "volumes_client.get_volume" [AVal (PStr "vol-1")] []]).
  - vm_compute. reflexivity.
  - reflexivity.
Defined.

Lemma create_volume_waits_once_witness :
  exists id,
    trace (state_after
             (doCleanups world_volumes)
             (state_after (setUp ;; create_volume world_volumes demo_config
                                      (PInt 1) None None None None false)%py
                          (fresh [])))
    = trace (state_after (setUp ;; create_volume world_volumes demo_config
                                     (PInt 1) None None None None false)%py
                         (fresh []))
      ++ [Call "volumes_client.delete_volume" [AVal id] [];
          Call "volumes_client.wait_for_resource_deletion" []
               [("id", AVal id)]].
Proof.
  apply (create_volume_waits_once world_volumes demo_config (PInt 1)
           None None None None false (fresh []) demo_volume).
  - reflexivity.
  - vm_compute. reflexivity.
Defined.

Lemma floating_ip_registered_before_association_witness :
  _cleanups (state_after (ScenarioTest_create_floating_ip world_floating
                                                          demo_server None)
                         (state_after setUp (fresh [])))
  = [drain_entry; floating_ip_entry (PStr "fip-1")].
Proof.
  apply (floating_ip_registered_before_association
           world_floating demo_server None (state_after setUp (fresh []))
           demo_floating_ip (PStr "fip-1"));
    reflexivity.
Defined.

Lemma snapshot_registered_after_wait_witness :
  _cleanups (state_after (create_server_snapshot world_snapshot_stuck
                                                 demo_server None)
                         (state_after setUp (fresh [])))
  = [drain_entry].
Proof.
  refine (proj1 (proj2 (snapshot_registered_after_wait
                          world_snapshot_stuck demo_server None
                          (state_after setUp (fresh [])) _))).
  intros t c H. unfold returns, world_snapshot_stuck, world_of. rewrite H.
  reflexivity.
Defined.

Lemma negative_check_needs_failed_ping_witness :
  exists pre rc,
    trace (state_after (check_vm_connectivity world_unreachable demo_config
                          (PStr "10.0.0.5") None None false) (fresh []))
      = trace (fresh []) ++ pre ++ [ping_call (PStr "10.0.0.5")] /\
    world_unreachable (trace (fresh []) ++ pre) (ping_call (PStr "10.0.0.5"))
      = Ret rc /\
    pyval_eqb rc (PInt 0) = false.
Proof.
  apply (negative_check_needs_failed_ping world_unreachable demo_config
           (PStr "10.0.0.5") None None (fresh [])).
  vm_compute. reflexivity.
Defined.


Lemma console_output_per_server_witness :
  _log_console_output world_calm demo_config (Some (PList [demo_server]))
                      (fresh [])
  = (Ret tt, log_calls [console_call (PStr "srv-1")] (fresh [])).
Proof.
  apply (console_output_per_server world_calm demo_config
           [demo_server] [PStr "srv-1"] (fresh [])).
  - discriminate.
  - repeat constructor.
  - reflexivity.
Defined.

Lemma missing_state_is_nostate_witness :
  wait_provisioning_state world_stateless (PStr "node-1")
                          BaremetalProvisionStates.NOSTATE 5 (fresh [])
  = (Ret tt, log_call (show_node_call (PStr "node-1")) (fresh [])).
Proof.
  apply (missing_state_is_nostate
           world_stateless (PStr "node-1") 5
           [("uuid", PStr "node-1"); ("power_state", PStr "power off")]
           (fresh [])).
  - reflexivity.
  - lia.
  - reflexivity.
  - reflexivity.
Defined.

Lemma terminate_instance_order_witness :
  exists id uuid k1 k2,
    item demo_server "id" = Ret id /\
    item (demo_node (PStr "power on") (PStr "active")) "uuid" = Ret uuid /\
    trace (state_after (terminate_instance world_stateless demo_config
                                           demo_more_config) demo_running)
    = trace demo_running ++ [delete_server_call id]
      ++ (retries (show_node_call uuid) k1 ++ [show_node_call uuid])
      ++ (retries (show_node_call uuid) k2 ++ [show_node_call uuid]) /\
    k1 < attempts (baremetal_power_timeout demo_config) 1 /\
    k2 < attempts (baremetal_unprovision_timeout demo_more_config) 1 /\
    state_reached "power_state" [BaremetalPowerStates.POWER_OFF]
      (world_stateless (trace demo_running ++ [delete_server_call id]
                        ++ retries (show_node_call uuid) k1)
                       (show_node_call uuid)) = Ret true /\
    state_reached "provision_state" [BaremetalProvisionStates.NOSTATE]
      (world_stateless
         (trace demo_running ++ [delete_server_call id]
          ++ (retries (show_node_call uuid) k1 ++ [show_node_call uuid])
          ++ retries (show_node_call uuid) k2)
         (show_node_call uuid)) = Ret true.
Proof.
  apply (terminate_instance_order world_stateless demo_config demo_more_config
           demo_running
           (state_after (terminate_instance world_stateless demo_config
                                            demo_more_config) demo_running)
           demo_server (demo_node (PStr "power on") (PStr "active"))).
  - reflexivity.
  - reflexivity.
  - vm_compute. reflexivity.
Defined.

Lemma get_ports_shows_each_witness :
  exists ports,
    result_of (get_ports world_ports (PStr "node-1")) (fresh []) = Ret ports /\
    List.length ports = 2 /\
    trace (state_after (get_ports world_ports (PStr "node-1")) (fresh []))
    = trace (fresh []) ++ list_node_ports_call (PStr "node-1")
      :: map show_port_call [PStr "port-1"; PStr "port-2"].
Proof.
  apply (get_ports_shows_each
           world_ports (PStr "node-1")
           (PDict [("ports", PList [PDict [("uuid", PStr "port-1")];
                                    PDict [("uuid", PStr "port-2")]])])
           [PDict [("uuid", PStr "port-1")]; PDict [("uuid", PStr "port-2")]]
           [PStr "port-1"; PStr "port-2"] (fresh [])).
  - reflexivity.
  - reflexivity.
  - repeat constructor.
  - reflexivity.
Defined.

Lemma container_listing_check_witness :
  result_of (list_and_check_container_objects
               world_swift (PStr "c-1")
               (Some [PStr "obj-1"]) (Some [PStr "obj-3"])) (fresh []) = Ret tt
  <-> all_listed [PStr "obj-1"] [PStr "obj-1"; PStr "obj-2"]
      && none_listed [PStr "obj-3"] [PStr "obj-1"; PStr "obj-2"] = true.
Proof.
  refine (proj1 (container_listing_check
                   world_swift (PStr "c-1")
                   (Some [PStr "obj-1"]) (Some [PStr "obj-3"])
                   [PStr "obj-1"; PStr "obj-2"] (fresh []) _)).
  reflexivity.
Defined.

Lemma failed_container_is_not_registered_witness :
  _cleanups (state_after (create_container world_swift_down
                                           (Some (PStr "c-1")))
                         (state_after setUp (fresh [])))
  = [drain_entry].
Proof.
  refine (proj1 (failed_container_is_not_registered
                   world_swift_down (Some (PStr "c-1"))
                   (state_after setUp (fresh []))
                   (OtherException "503 Service Unavailable") _)).
  reflexivity.
Defined.

Lemma object_deleted_before_container_witness :
  trace (state_after
           (doCleanups world_calm)
           (state_after (upload_object_to_container world_calm (PStr "c-1")
                                                    (Some (PStr "obj-1")))
                        (state_after (create_container world_calm
                                                       (Some (PStr "c-1")))
                                     (state_after setUp (fresh [])))))
  = trace (state_after (upload_object_to_container world_calm (PStr "c-1")
                                                   (Some (PStr "obj-1")))
                       (state_after (create_container world_calm
                                                      (Some (PStr "c-1")))
                                    (state_after setUp (fresh []))))
    ++ [delete_object_call (PStr "c-1") (PStr "obj-1");
        delete_container_call (PStr "c-1")].
Proof.
  apply (object_deleted_before_container
           world_calm (Some (PStr "c-1")) (Some (PStr "obj-1"))
           (state_after setUp (fresh [])) (PStr "c-1") (PStr "obj-1") PNone);
    reflexivity.
Defined.

Lemma floating_ip_needs_one_port_witness :
  state_after (NetworkScenarioTest_create_floating_ip
                 world_no_ports demo_more_config demo_server None None None)
              (state_after setUp (fresh []))
  = log_call (list_ports_call (PStr "srv-1")) (state_after setUp (fresh [])).
Proof.
  refine (proj2 (floating_ip_needs_one_port
                   world_no_ports demo_more_config demo_server None None
                   (PStr "srv-1") (PDict [("ports", PList [])]) []
                   (state_after setUp (fresh [])) _ _ _ _)).
  - reflexivity.
  - reflexivity.
  - reflexivity.
  - simpl. lia.
Defined.

Lemma get_router_prefers_configured_witness :
  state_after (_get_router world_calm demo_config shared_config None None)
              (state_after setUp (fresh []))
  = log_call (Call "network_client.show_router" [AVal (PStr "router-1")] [])
             (state_after setUp (fresh [])).
Proof.
  refine (proj1 (get_router_prefers_configured
                   world_calm demo_config shared_config None None
                   (state_after setUp (fresh []))) _).
  discriminate.
Defined.

Lemma baremetal_networks_are_shared_witness :
  state_after (create_networks world_shared_net demo_config shared_config
                               proxy None None)
              (state_after setUp (fresh []))
  = log_call (list_networks_call (PStr "private"))
             (state_after setUp (fresh [])).
Proof.
  refine (proj1 (baremetal_networks_are_shared
                   world_shared_net demo_config shared_config proxy None None
                   (state_after setUp (fresh [])) _)).
  reflexivity.
Defined.

Lemma rule_registered_before_checks_witness :
  _cleanups (state_after (_create_security_group_rule
                            world_rule_drift demo_config (Some demo_secgroup)
                            None None [("direction", AVal (PStr "ingress"))])
                         (state_after setUp (fresh [])))
  = [drain_entry;
     resource_entry "DeletableSecurityGroupRule.delete" (PDict drifted_rule)].
Proof.
  apply (rule_registered_before_checks
           world_rule_drift demo_config demo_secgroup None None
           [("direction", AVal (PStr "ingress"))]
           (state_after setUp (fresh []))
           (PStr "sg-1") (PStr "tenant-1")
           (PDict [("security_group_rule", PDict drifted_rule)])
           drifted_rule);
    reflexivity.
Defined.

Lemma networks_torn_down_in_reverse_witness :
  trace (state_after
           (doCleanups world_networks)
           (state_after (create_networks world_networks demo_config
                                         demo_more_config proxy None None)
                        (state_after setUp (fresh []))))
  = trace (state_after (create_networks world_networks demo_config
                                        demo_more_config proxy None None)
                       (state_after setUp (fresh [])))
    ++ [resource_call "DeletableSubnet.delete" smoke_subnet;
        resource_call "DeletableRouter.delete" smoke_router;
        resource_call "DeletableNetwork.delete" smoke_network].
Proof.
  apply (networks_torn_down_in_reverse
           world_networks demo_config demo_more_config proxy None None
           (state_after setUp (fresh []))
           smoke_network smoke_subnet smoke_router).
  - reflexivity.
  - reflexivity.
  - reflexivity.
  - vm_compute. reflexivity.
Defined.



